(** * pensivePy: FDSN fetchers ([FDSNtools.py]) and archive wrappers ([wrappers.py])

    A shallow embedding of the two Python modules.  Python functions that
    only compute become Rocq functions; functions that touch the file
    system, the remote FDSN data centre, the SDS day archive or the plotting
    back end become computations in a state-and-exception monad over an
    explicit [World].  Calls into ObsPy, InventoryTools, SDS and IceWeb are
    collaborators: their answers are read from an environment record
    [Env], and every call is recorded in the world's event log.  Console
    output ([print]) has no effect on any result and is left out. *)

From Stdlib Require Import ZArith List Ascii Bool Lia.
From Stdlib Require Import DecimalString DecimalN SpecFloat.
From stdpp Require Import gmap strings.

Local Open Scope Z_scope.

(* ===================================================================== *)
(** * Part I.  Definitions                                                *)
(* ===================================================================== *)

(** ** Python run-time values shared by both modules *)

Module Py.

(** The exceptions the two modules can raise or see.  [UnboundLocalError]
    is a subclass of [NameError] in Python; [LibraryError] stands for any
    exception raised inside a collaborator (ObsPy, the FDSN client). *)
Inductive exn : Type :=
| IndexError
| ValueError
| TypeError
| NameError
| UnboundLocalError
| FileExistsError
| IOError
| LibraryError.

Definition is_NameError (e : exn) : bool :=
  match e with
  | NameError | UnboundLocalError => true
  | _ => false
  end.

(** Outcome of running a call: a value, a propagated exception, or the
    loop budget of the model ran out (a [while] loop that does not stop). *)
Inductive result (A : Type) : Type :=
| Ret (a : A)
| Raise (e : exn)
| OutOfFuel.

Arguments Ret {A} a.
Arguments Raise {A} e.
Arguments OutOfFuel {A}.

(** A Python float is an IEEE-754 binary64 value. *)
Definition float : Type := spec_float.

Definition prec64 : Z := 53.
Definition emax64 : Z := 1024.

Definition float_of_Z (z : Z) : float := binary_normalize prec64 emax64 z 0 false.

Definition is_nan (x : float) : bool :=
  match x with S754_nan => true | _ => false end.

(** Truth value of a float: zero is false (NaN is true). *)
Definition float_truthy (x : option float) : bool :=
  match x with
  | None => false
  | Some (S754_zero _) => false
  | Some _ => true
  end.

End Py.

Export Py.

(** ** Text: digits, [%]-formatting, [strftime], [os.path.join], [str.split] *)

Module Fmt.

Definition chars (s : string) : list ascii := String.list_ascii_of_string s.
Definition str (cs : list ascii) : string := String.string_of_list_ascii cs.

(** The character of a decimal digit [0..9]. *)
Definition digit (d : Z) : ascii := ascii_of_nat (48 + Z.to_nat d).

(** [%0wd]: exactly [w] decimal digits, most significant first. *)
Fixpoint fixed_digits (w : nat) (n : Z) : list ascii :=
  match w with
  | O => []
  | S w' => fixed_digits w' (n / 10) ++ [digit (n mod 10)]
  end.

(** [%d] of a non-negative integer: no padding, ["0"] for zero. *)
Definition dec_digits (n : Z) : list ascii :=
  chars (NilZero.string_of_uint (N.to_uint (Z.to_N n))).

Definition is_digit (c : ascii) : bool :=
  let n := nat_of_ascii c in ((48 <=? n)%nat && (n <=? 57)%nat)%bool.

(** *** Proleptic Gregorian calendar (what [datetime] uses) *)

(** Day number since 1970-01-01 to (year, month, day). *)
Definition civil_from_days (z : Z) : Z * Z * Z :=
  let z := z + 719468 in
  let era := z / 146097 in
  let doe := z mod 146097 in
  let yoe := (doe - doe / 1460 + doe / 36524 - doe / 146096) / 365 in
  let doy := doe - (365 * yoe + yoe / 4 - yoe / 100) in
  let mp := (5 * doy + 2) / 153 in
  let d := doy - (153 * mp + 2) / 5 + 1 in
  let m := if mp <? 10 then mp + 3 else mp - 9 in
  let y := yoe + era * 400 in
  (if m <=? 2 then y + 1 else y, m, d).

(** (year, month, day) to the day number since 1970-01-01. *)
Definition days_from_civil (y m d : Z) : Z :=
  let y := if m <=? 2 then y - 1 else y in
  let era := y / 400 in
  let yoe := y mod 400 in
  let doy := (153 * (if 2 <? m then m - 3 else m + 9) + 2) / 5 + d - 1 in
  let doe := yoe * 365 + yoe / 4 - yoe / 100 + doy in
  era * 146097 + doe - 719468.

(** An ObsPy [UTCDateTime]: integer nanoseconds since the epoch. *)
Definition UTCDateTime : Type := Z.

Definition ns_per_sec : Z := 1000000000.

(** [t + secs] and [t - secs] for a whole number of seconds. *)
Definition utc_add (t : UTCDateTime) (secs : Z) : UTCDateTime := t + secs * ns_per_sec.
Definition utc_sub (t : UTCDateTime) (secs : Z) : UTCDateTime := t - secs * ns_per_sec.

(** [t + secs/2] and [t - secs/2] (the spectrogram wrapper pads by half a
    window; ObsPy rounds the offset to whole nanoseconds, and half a
    whole number of seconds is one already). *)
Definition utc_add_half (t : UTCDateTime) (secs : Z) : UTCDateTime := t + secs * (ns_per_sec / 2).
Definition utc_sub_half (t : UTCDateTime) (secs : Z) : UTCDateTime := t - secs * (ns_per_sec / 2).

Definition utc_ltb (a b : UTCDateTime) : bool := a <? b.

(** *** The [datetime] of a [UTCDateTime]

    [UTCDateTime.strftime] prints the fields of [self.datetime], and
    ObsPy builds that as
    [TIMESTAMP0 + datetime.timedelta(seconds=self.timestamp)] with
    [self.timestamp = self._ns / 1e9]: the nanoseconds go through a
    binary64 number of seconds and are rounded to whole microseconds, they
    are not cut off. *)

(** [a / b] rounded to the nearest integer, ties to even ([0 < b]). *)
Definition round_half_even_div (a b : Z) : Z :=
  let q := a / b in
  match (2 * (a mod b)) ?= b with
  | Lt => q
  | Gt => q + 1
  | Eq => if Z.even q then q else q + 1
  end.

Definition signed (s : bool) (n : Z) : Z := if s then - n else n.

(** [math.modf]: the integer part of a float (towards zero) and what is
    left of it, which is a float again. *)
Definition float_trunc (x : float) : Z :=
  match x with
  | S754_finite s m e => signed s (if 0 <=? e then Z.pos m * 2 ^ e else Z.pos m / 2 ^ (- e))
  | _ => 0
  end.

Definition float_frac (x : float) : float :=
  match x with
  | S754_finite s m e =>
      if 0 <=? e then S754_zero s
      else binary_normalize prec64 emax64 (signed s (Z.pos m mod 2 ^ (- e))) e s
  | _ => x
  end.

(** A float rounded to the nearest integer, ties to even. *)
Definition float_round (x : float) : Z :=
  match x with
  | S754_finite s m e =>
      signed s (if 0 <=? e then Z.pos m * 2 ^ e else round_half_even_div (Z.pos m) (2 ^ (- e)))
  | _ => 0
  end.

(** [self.timestamp]: [self._ns / 1e9].  The integer becomes a binary64
    first, then the division is one of binary64. *)
Definition timestamp (t : UTCDateTime) : float :=
  SFdiv prec64 emax64 (float_of_Z t) (float_of_Z ns_per_sec).

(** [datetime.timedelta(seconds=x)] in microseconds: the whole seconds
    are taken exactly; the fraction is multiplied by [1e6] in binary64
    and rounded to the nearest microsecond, ties to even. *)
Definition timedelta_microseconds (x : float) : Z :=
  float_trunc x * 1000000
  + float_round (SFmul prec64 emax64 (float_of_Z 1000000) (float_frac x)).

(** [self.datetime], in microseconds since the epoch. *)
Definition datetime_microseconds (t : UTCDateTime) : Z :=
  timedelta_microseconds (timestamp t).

Definition epoch_seconds (t : UTCDateTime) : Z := datetime_microseconds t / 1000000.
Definition epoch_days (t : UTCDateTime) : Z := epoch_seconds t / 86400.
Definition second_of_day (t : UTCDateTime) : Z := epoch_seconds t mod 86400.

Definition tm_year (t : UTCDateTime) : Z := fst (fst (civil_from_days (epoch_days t))).
Definition tm_mon (t : UTCDateTime) : Z := snd (fst (civil_from_days (epoch_days t))).
Definition tm_mday (t : UTCDateTime) : Z := snd (civil_from_days (epoch_days t)).
Definition tm_hour (t : UTCDateTime) : Z := second_of_day t / 3600.
Definition tm_min (t : UTCDateTime) : Z := second_of_day t mod 3600 / 60.
Definition tm_sec (t : UTCDateTime) : Z := second_of_day t mod 60.
(** Day of the year, 1-based ([%j]). *)
Definition tm_yday (t : UTCDateTime) : Z :=
  epoch_days t - days_from_civil (tm_year t) 1 1 + 1.

(** The request time truncated to the minute: whole minutes since the epoch. *)
Definition minute_truncated (t : UTCDateTime) : Z := t / (60 * ns_per_sec).

(** The minute in which [strftime] shows the time: whole minutes of
    [self.datetime] since the epoch. *)
Definition printed_minute (t : UTCDateTime) : Z := epoch_seconds t / 60.

Definition finite_float (x : float) : Prop :=
  match x with
  | S754_finite _ _ _ | S754_zero _ => True
  | _ => False
  end.

(** A timestamp ObsPy and [datetime] can show: the number of seconds is
    a float (the conversion of the nanoseconds did not overflow) and the
    year is one of 1 to 9999. *)
Definition valid_time (t : UTCDateTime) : Prop :=
  finite_float (timestamp t) /\ 1 <= tm_year t <= 9999.

(** [%Y].  The C library decides whether a year below 1000 is padded to
    four digits (glibc does not pad, other platforms do); [pad] is that
    platform choice. *)
Definition fmt_Y (pad : bool) (t : UTCDateTime) : list ascii :=
  if pad then fixed_digits 4 (tm_year t) else dec_digits (tm_year t).

(** [strftime('%Y%m%d%H%M')] *)
Definition strftime_YmdHM (pad : bool) (t : UTCDateTime) : list ascii :=
  fmt_Y pad t ++ fixed_digits 2 (tm_mon t) ++ fixed_digits 2 (tm_mday t)
    ++ fixed_digits 2 (tm_hour t) ++ fixed_digits 2 (tm_min t).

(** [strftime('%Y%m%dT%H%M%S')] *)
Definition strftime_YmdTHMS (pad : bool) (t : UTCDateTime) : list ascii :=
  fmt_Y pad t ++ fixed_digits 2 (tm_mon t) ++ fixed_digits 2 (tm_mday t)
    ++ chars "T" ++ fixed_digits 2 (tm_hour t) ++ fixed_digits 2 (tm_min t)
    ++ fixed_digits 2 (tm_sec t).

(** [strftime('%Y%m%d-%H%M')] *)
Definition strftime_Ymd_HM (pad : bool) (t : UTCDateTime) : list ascii :=
  fmt_Y pad t ++ fixed_digits 2 (tm_mon t) ++ fixed_digits 2 (tm_mday t)
    ++ chars "-" ++ fixed_digits 2 (tm_hour t) ++ fixed_digits 2 (tm_min t).

(** [strftime('%j')] *)
Definition strftime_j (t : UTCDateTime) : list ascii := fixed_digits 3 (tm_yday t).

(** *** [%.pf] of a float *)

Definition pow10 (p : nat) : Z := 10 ^ Z.of_nat p.

(** [|x| * 10^p] rounded to an integer, for the finite float [m * 2^e]:
    the formatting is correctly rounded on the exact binary value. *)
Definition scaled_magnitude (p : nat) (m : positive) (e : Z) : Z :=
  if 0 <=? e then Z.pos m * 2 ^ e * pow10 p
  else round_half_even_div (Z.pos m * pow10 p) (2 ^ (- e)).

Definition sign_chars (s : bool) : list ascii := if s then chars "-" else [].

Definition unsigned_f (p : nat) (n : Z) : list ascii :=
  dec_digits (n / pow10 p) ++ chars "." ++ fixed_digits p (n mod pow10 p).

Definition fmt_f (p : nat) (x : float) : list ascii :=
  match x with
  | S754_nan => chars "nan"
  | S754_infinity s => sign_chars s ++ chars "inf"
  | S754_zero s => sign_chars s ++ unsigned_f p 0
  | S754_finite s m e => sign_chars s ++ unsigned_f p (scaled_magnitude p m e)
  end.

(** The value a finite float shows under [%.pf], in units of [10^-p]. *)
Definition rounded_decimals (p : nat) (x : float) : Z :=
  match x with
  | S754_finite s m e => if s then - scaled_magnitude p m e else scaled_magnitude p m e
  | _ => 0
  end.

(** *** Paths and identifiers *)

Definition starts_with_slash (s : list ascii) : bool :=
  match s with
  | c :: _ => Ascii.eqb c "/"
  | [] => false
  end.

Definition ends_with_slash (s : list ascii) : bool := starts_with_slash (rev s).

(** [posixpath.join(a, b)] *)
Definition join_chars (a b : list ascii) : list ascii :=
  if starts_with_slash b then b
  else if (match a with [] => true | _ => false end || ends_with_slash a)%bool then a ++ b
  else a ++ chars "/" ++ b.

Definition os_path_join (a b : string) : string := str (join_chars (chars a) (chars b)).

(** [s.split(sep)] for a one-character separator: one more part than
    there are separators. *)
Fixpoint split_on (sep : ascii) (s : list ascii) : list (list ascii) :=
  match s with
  | [] => [[]]
  | c :: s' =>
      if Ascii.eqb c sep then [] :: split_on sep s'
      else match split_on sep s' with
           | p :: ps => (c :: p) :: ps
           | [] => [[c]]
           end
  end.

Definition str_split (sep : ascii) (s : string) : list string :=
  map str (split_on sep (chars s)).

(** *** Auxiliary readings of days and floats *)

(** The fields of a day within its 400-year era: year of era, month, day. *)
Definition doe_fields (doe : Z) : Z * Z * Z :=
  let yoe := (doe - doe / 1460 + doe / 36524 - doe / 146096) / 365 in
  let doy := doe - (365 * yoe + yoe / 4 - yoe / 100) in
  let mp := (5 * doy + 2) / 153 in
  let d := doy - (153 * mp + 2) / 5 + 1 in
  let m := if mp <? 10 then mp + 3 else mp - 9 in
  (yoe, m, d).

(** The day of the era of (year of era, month, day). *)
Definition doe_of (yoe m d : Z) : Z :=
  yoe * 365 + yoe / 4 - yoe / 100
    + ((153 * (if 2 <? m then m - 3 else m + 9) + 2) / 5 + d - 1).

(** Characters of a formatted finite float: digits, the sign, the point. *)
Definition field_char (c : ascii) : bool :=
  (is_digit c || Ascii.eqb c "-" || Ascii.eqb c ".")%bool.

(** The sign bit of a finite float (true: negative). *)
Definition float_sign (x : float) : bool :=
  match x with
  | S754_finite s _ _ | S754_zero s => s
  | _ => false
  end.

(** [|x| * 10^p] rounded to an integer; 0 for a zero. *)
Definition float_magnitude (p : nat) (x : float) : Z :=
  match x with
  | S754_finite _ m e => scaled_magnitude p m e
  | _ => 0
  end.

(** The exact value of a finite float as a fraction
    [float_num x / float_den x]. *)
Definition float_num (x : float) : Z :=
  match x with
  | S754_finite s m e => signed s (Z.pos m * 2 ^ Z.max e 0)
  | _ => 0
  end.

Definition float_den (x : float) : Z :=
  match x with
  | S754_finite _ _ e => 2 ^ Z.max (- e) 0
  | _ => 1
  end.

(** [n] is [x] rounded to [p] decimals, counted in units of [10^-p]: no
    integer is nearer to [x * 10^p], and [n] is even when another
    integer is as near. *)
Definition rounds_to (p : nat) (x : float) (n : Z) : Prop :=
  let gap := 2 * Z.abs (n * float_den x - float_num x * pow10 p) in
  gap < float_den x \/ (gap = float_den x /\ Z.even n = true).

(** Two floats that differ after rounding to [p] decimals. *)
Definition rounded_apart (p : nat) (x y : float) : Prop :=
  exists n n', rounds_to p x n /\ rounds_to p y n' /\ n <> n'.

End Fmt.

Export Fmt.

(** ** ObsPy data: traces, streams, inventories *)

Module Obspy.

(** A waveform segment.  [npts] is the length of [data]. *)
Record Trace : Type := mkTrace {
  network : string;
  station : string;
  location : string;
  channel : string;
  sampling_rate : float;
  starttime : UTCDateTime;
  data : list Z
}.

(** [tr.id]: the dot-joined N.S.L.C identifier. *)
Definition trace_id (tr : Trace) : string :=
  network tr +:+ "." +:+ station tr +:+ "." +:+ location tr +:+ "." +:+ channel tr.

Definition npts (tr : Trace) : Z := Z.of_nat (length (data tr)).

(** [tr.stats.sampling_rate = fsamp] *)
Definition set_sampling_rate (fsamp : float) (tr : Trace) : Trace :=
  mkTrace (network tr) (station tr) (location tr) (channel tr) fsamp (starttime tr) (data tr).

(** A waveform collection; [bool(st)] is [len(st) > 0]. *)
Definition Stream : Type := list Trace.

Definition stream_truthy (st : Stream) : bool :=
  match st with [] => false | _ => true end.

(** Station metadata tree: network, station, channel. *)
Record Channel : Type := mkChannel { loc_code : string; chan_code : string }.
Record Station : Type := mkStation { sta_code : string; sta_channels : list Channel }.
Record Network : Type := mkNetwork { net_code : string; net_stations : list Station }.
Record Inventory : Type := mkInventory { networks : list Network }.

(** [bool(inv)] for [inv] that may be [None]: an inventory is sized by
    its networks. *)
Definition inventory_truthy (inv : option Inventory) : bool :=
  match inv with
  | Some i => match networks i with [] => false | _ => true end
  | None => false
  end.

(** [bool(trace_ids)] for a list that may be [None]. *)
Definition ids_truthy (ids : option (list string)) : bool :=
  match ids with
  | Some (_ :: _) => true
  | _ => false
  end.

(** [numpy.nanmean]: NaN entries are left out; the sum is divided by the
    number of entries kept (an empty selection gives NaN). *)
Definition nanmean (xs : list float) : float :=
  let kept := List.filter (fun x => negb (is_nan x)) xs in
  SFdiv prec64 emax64
    (fold_left (SFadd prec64 emax64) kept (S754_zero false))
    (float_of_Z (Z.of_nat (length kept))).

(** *** A reference model of [Stream.merge(fill_value=0, method=1)]

    ObsPy is a collaborator, so the fetcher is written against an
    arbitrary merge function (see [Env]).  The functions below are one
    concrete merge, following ObsPy's documented behaviour for traces of
    one identifier sharing a positive sampling rate: the traces are
    ordered by start time and joined pairwise; a gap is filled with
    [fill_value], an overlap keeps the later trace's samples, a trace
    contained in the earlier one is dropped.  The merge raises when two
    non-empty traces of one identifier have sampling rates that do not
    compare equal (as [NaN] never does). *)

(** Whole samples between two start times [dt] nanoseconds apart, at
    rate [sr], rounded half away from zero. *)
Definition samples_between (sr : float) (dt : Z) : Z :=
  match sr with
  | S754_finite false m e =>
      let num := if 0 <=? e then dt * Z.pos m * 2 ^ e else dt * Z.pos m in
      let den := if 0 <=? e then ns_per_sec else ns_per_sec * 2 ^ (- e) in
      (2 * num + den) / (2 * den)
  | _ => 0
  end.

(** [lt + rt] for [starttime lt <= starttime rt] (ObsPy's [Trace.__add__]). *)
Definition trace_add (fill_value : Z) (lt rt : Trace) : Trace :=
  let k := samples_between (sampling_rate lt) (starttime rt - starttime lt) in
  let delta := k - npts lt in
  let joined :=
    if delta <? 0 then
      if npts lt <? k + npts rt
      then firstn (Z.to_nat k) (data lt) ++ data rt       (* overlap *)
      else data lt                                        (* contained *)
    else data lt ++ repeat fill_value (Z.to_nat delta) ++ data rt (* fit or gap *)
  in
  mkTrace (network lt) (station lt) (location lt) (channel lt)
          (sampling_rate lt) (starttime lt) joined.

Fixpoint insert_by_start (tr : Trace) (l : list Trace) : list Trace :=
  match l with
  | [] => [tr]
  | x :: l' =>
      if starttime tr <? starttime x then tr :: l else x :: insert_by_start tr l'
  end.

Definition sort_by_start (l : list Trace) : list Trace :=
  fold_right insert_by_start [] l.

Definition same_id (a b : Trace) : bool := String.eqb (trace_id a) (trace_id b).

(** [_merge_checks]: every non-empty trace has the sampling rate of the
    first non-empty trace with its identifier. *)
Fixpoint merge_checks (seen : list Trace) (st : list Trace) : bool :=
  match st with
  | [] => true
  | tr :: st' =>
      if npts tr =? 0 then merge_checks seen st'
      else match find (same_id tr) seen with
           | Some first =>
               (SFeqb (sampling_rate tr) (sampling_rate first)
                && merge_checks seen st')%bool
           | None =>
               (SFeqb (sampling_rate tr) (sampling_rate tr)
                && merge_checks (seen ++ [tr]) st')%bool
           end
  end.

(** The identifiers of the non-empty traces, in order of first appearance. *)
Fixpoint first_of_each_id (seen : list Trace) (st : list Trace) : list Trace :=
  match st with
  | [] => seen
  | tr :: st' =>
      if existsb (same_id tr) seen then first_of_each_id seen st'
      else first_of_each_id (seen ++ [tr]) st'
  end.

Definition merge_group (fill_value : Z) (group : list Trace) : list Trace :=
  match sort_by_start group with
  | [] => []
  | first :: others => [fold_left (trace_add fill_value) others first]
  end.

Definition merge_ref (fill_value : Z) (st : Stream) : option Stream :=
  let live := List.filter (fun tr => negb (npts tr =? 0)) st in
  if merge_checks [] st then
    Some (flat_map
            (fun rep => merge_group fill_value (List.filter (same_id rep) live))
            (first_of_each_id [] live))
  else None.

End Obspy.

Export Obspy.

(** ** The world outside the two modules *)

Module Sys.

(** An FDSN client handle; [Client(base_url=...)] builds one from a URL. *)
Record Client : Type := mkClient { base_url : string }.

(** The first argument of both fetchers: a client, or a URL string. *)
Inductive fdsnThing : Type :=
| IsClient (c : Client)
| IsStr (url : string).

(** Arguments of [client.get_stations(...)]. *)
Record StationQuery : Type := mkStationQuery {
  q_network : string;
  q_station : string;
  q_channel : string;
  q_latitude : option float;
  q_longitude : option float;
  q_maxradius : option float;
  q_starttime : UTCDateTime;
  q_endtime : UTCDateTime;
  q_level : string
}.

(** Arguments of [client.get_waveforms(...)]. *)
Record WaveformQuery : Type := mkWaveformQuery {
  w_network : string;
  w_station : string;
  w_location : string;
  w_channel : string;
  w_starttime : UTCDateTime;
  w_endtime : UTCDateTime;
  w_attach_response : bool
}.

Inductive FileContent : Type :=
| StationXML (inv : Inventory)
| MiniSEED (st : Stream)
| Image.

Inductive FsNode : Type :=
| Dir
| File (c : FileContent).

(** Every call that leaves the two modules, most recent first in the log. *)
Inductive Event : Type :=
| EvMkdir (path : string)
| EvGetStations (c : Client) (q : StationQuery)
| EvGetWaveforms (c : Client) (q : WaveformQuery)
| EvReadInventory (path : string)
| EvReadStream (path : string)
| EvWriteInventory (path : string)
| EvWriteStream (path : string)
| EvSDSRead (top : string) (t0 t1 : UTCDateTime) (speed : Z) (ids : option (list string))
| EvSDSWrite (top : string) (st : Stream) (overwrite : bool)
| EvRSAMWrite (top : string) (units : option string)
| EvDRSWrite (top : string)
| EvPlot (outfile : string).

(** A request to the remote data centre. *)
Definition is_remote (e : Event) : bool :=
  match e with
  | EvGetStations _ _ | EvGetWaveforms _ _ => true
  | _ => false
  end.

Definition is_sds_read (e : Event) : bool :=
  match e with EvSDSRead _ _ _ _ _ => true | _ => false end.

(** A write into the day archive or an archive-like volume. *)
Definition is_archive_write (e : Event) : bool :=
  match e with
  | EvSDSWrite _ _ _ | EvRSAMWrite _ _ | EvDRSWrite _ => true
  | _ => false
  end.

Definition is_plot (e : Event) : bool :=
  match e with EvPlot _ => true | _ => false end.

Definition count (p : Event -> bool) (l : list Event) : nat := length (List.filter p l).

(** The file system by path, the content of the day archive, and the log. *)
Record World : Type := mkWorld {
  fs : gmap string FsNode;
  archive : Stream;
  log : list Event
}.

Definition with_fs (f : gmap string FsNode) (w : World) : World :=
  mkWorld f (archive w) (log w).
Definition with_archive (a : Stream) (w : World) : World :=
  mkWorld (fs w) a (log w).
Definition record (e : Event) (w : World) : World :=
  mkWorld (fs w) (archive w) (e :: log w).

(** The collaborators.  An [option] answer is [None] when the call raises. *)
Record Env : Type := mkEnv {
  (** platform: does [%Y] pad years below 1000 *)
  pads_year : bool;
  (** remote FDSN data centre *)
  get_stations : Client -> StationQuery -> option Inventory;
  get_waveforms : Client -> WaveformQuery -> option Stream;
  (** ObsPy: [st.merge(fill_value, method)], [st.trim(starttime, endtime)] *)
  merge : Z -> Z -> Stream -> option Stream;
  trim : Stream -> UTCDateTime -> UTCDateTime -> Stream;
  (** InventoryTools (not among the sources): the N.S.L.C identifiers
      of an inventory *)
  inventory2traceid : Inventory -> list string;
  (** SDS (not among the sources): the return code of [read] and the
      stream it loads; the archive after [write] *)
  sds_read : Stream -> string -> UTCDateTime -> UTCDateTime -> option (list string) -> Z * Stream;
  sds_write : Stream -> string -> Stream -> bool -> Stream;
  (** ObsPy: [tr.remove_response(output, inventory, ...)] *)
  remove_response : string -> Inventory -> Trace -> option Trace;
  (** lines 245-265 of [SDS_to_ICEWEB_wrapper], which only call into
      InventoryTools, ObsPy and [order_traces_by_distance]: coordinates
      and distances attached, traces ordered, velocity and displacement
      streams corrected and trimmed to the day; the pair (VEL, DISP) *)
  corrected_day : Inventory -> Stream -> option float -> option float ->
                  UTCDateTime -> UTCDateTime -> option (Stream * Stream)
}.

(** *** The monad of a Python call *)

Definition M (A : Type) : Type := World -> result A * World.

Definition ret {A : Type} (a : A) : M A := fun w => (Ret a, w).

Definition raise {A : Type} (e : exn) : M A := fun w => (Raise e, w).

Definition out_of_fuel {A : Type} : M A := fun w => (OutOfFuel, w).

Definition bind {A B : Type} (m : M A) (k : A -> M B) : M B :=
  fun w =>
    match m w with
    | (Ret a, w') => k a w'
    | (Raise e, w') => (Raise e, w')
    | (OutOfFuel, w') => (OutOfFuel, w')
    end.

(** [try: m  except: ...]: the handler sees no value, so the outcome is
    [Some] of the value or [None] when anything was raised.  Effects made
    before the exception stay. *)
Definition try_ {A : Type} (m : M A) : M (option A) :=
  fun w =>
    match m w with
    | (Ret a, w') => (Ret (Some a), w')
    | (Raise _, w') => (Ret None, w')
    | (OutOfFuel, w') => (OutOfFuel, w')
    end.

Definition emit (e : Event) : M unit := fun w => (Ret tt, record e w).

(** Lift a collaborator's answer: [None] is an exception in the library. *)
Definition of_option {A : Type} (o : option A) : M A :=
  match o with
  | Some a => ret a
  | None => raise LibraryError
  end.

(** Read a local variable that may not have been assigned yet. *)
Definition load_local {A : Type} (v : option A) : M A :=
  match v with
  | Some a => ret a
  | None => raise UnboundLocalError
  end.

(** Look a name up among a module's globals. *)
Definition load_global (globals : list string) (name : string) : M unit :=
  if existsb (String.eqb name) globals then ret tt else raise NameError.

Declare Scope py_scope.
Delimit Scope py_scope with py.
Notation "x <- m ;; k" := (bind m (fun x => k))
  (at level 100, m at next level, right associativity) : py_scope.
Notation "m ;; k" := (bind m (fun _ => k))
  (at level 100, right associativity) : py_scope.
Open Scope py_scope.

(** *** [os] and [os.path] *)

Definition dir_exists (w : World) (path : string) : bool :=
  match fs w !! path with Some Dir => true | _ => false end.

Definition file_exists (w : World) (path : string) : bool :=
  match fs w !! path with Some (File _) => true | _ => false end.

Definition os_path_isdir (path : string) : M bool :=
  fun w => (Ret (dir_exists w path), w).

Definition os_path_isfile (path : string) : M bool :=
  fun w => (Ret (file_exists w path), w).

(** [os.mkdir]: fails when the path exists (as a file or a directory). *)
Definition os_mkdir (path : string) : M unit :=
  fun w =>
    match fs w !! path with
    | Some _ => (Raise FileExistsError, w)
    | None => (Ret tt, record (EvMkdir path) (with_fs (<[path := Dir]> (fs w)) w))
    end.

(** [os.makedirs]: as [os.mkdir] for the leaf; intermediate directories
    are not tracked by the flat file system of the model. *)
Definition os_makedirs (path : string) : M unit := os_mkdir path.

(** *** ObsPy input and output *)

(** [obspy.core.inventory.read_inventory(path)] *)
Definition read_inventory (path : string) : M Inventory :=
  fun w =>
    match fs w !! path with
    | Some (File (StationXML inv)) => (Ret inv, record (EvReadInventory path) w)
    | _ => (Raise IOError, w)
    end.

(** [obspy.core.read(path)] *)
Definition obspy_read (path : string) : M Stream :=
  fun w =>
    match fs w !! path with
    | Some (File (MiniSEED st)) => (Ret st, record (EvReadStream path) w)
    | _ => (Raise IOError, w)
    end.

(** [inv.write(path, format='STATIONXML')] *)
Definition inventory_write (inv : Inventory) (path : string) : M unit :=
  fun w => (Ret tt, record (EvWriteInventory path)
                      (with_fs (<[path := File (StationXML inv)]> (fs w)) w)).

(** [st.write(path, format="MSEED")] *)
Definition stream_write (st : Stream) (path : string) : M unit :=
  fun w => (Ret tt, record (EvWriteStream path)
                      (with_fs (<[path := File (MiniSEED st)]> (fs w)) w)).

Section Collaborators.

Variable E : Env.

(** [client.get_stations(...)]: the request is logged, then answered. *)
Definition client_get_stations (c : Client) (q : StationQuery) : M Inventory :=
  emit (EvGetStations c q) ;; of_option (get_stations E c q).

(** [client.get_waveforms(...)] *)
Definition client_get_waveforms (c : Client) (q : WaveformQuery) : M Stream :=
  emit (EvGetWaveforms c q) ;; of_option (get_waveforms E c q).

(** [st.merge(fill_value=0, method=1)]; a merge that raises leaves the
    stream as it was. *)
Definition stream_merge (st : Stream) : M Stream := of_option (merge E 0 1 st).

(** Modelled from the spec: [SDS.SDSobj] is not among the sources.  The
    Day Archive's [read(timeRange, speedHint, optionalChannelIdFilter)]
    returns a success flag or failure code and exposes the loaded content
    as the object's stream.
    [thisSDSobj = SDS.SDSobj(top); rc = thisSDSobj.read(t0, t1, speed, trace_ids)]:
    the return code and the stream now held by the object. *)
Definition SDS_read (top : string) (t0 t1 : UTCDateTime) (speed : Z)
    (ids : option (list string)) : M (Z * Stream) :=
  fun w => (Ret (sds_read E (archive w) top t0 t1 ids),
            record (EvSDSRead top t0 t1 speed ids) w).

(** Modelled from the spec: [SDS.SDSobj.write(overwriteFlag)] stores the
    object's stream in the Day Archive.
    [thisSDSobj.stream = st; thisSDSobj.write(overwrite=overwrite)] *)
Definition SDS_write (top : string) (st : Stream) (overwrite : bool) : M unit :=
  fun w => (Ret tt, record (EvSDSWrite top st overwrite)
                      (with_archive (sds_write E (archive w) top st overwrite) w)).

End Collaborators.

(** Modelled from the spec: [IceWeb] is not among the sources.  A
    derived-metric builder computes its series and writes it into an
    archive-like volume under [top].  What the volume holds afterwards
    is not modelled: the write is kept in the log only, and nothing
    about the content of the archive follows from it.
    [IceWeb.RSAMobj(...).write(top)] *)
Definition RSAM_write (top : string) (units : option string) : M unit :=
  emit (EvRSAMWrite top units).

(** Modelled from the spec: the reduced-displacement builder of [IceWeb],
    writing its series under [top].
    [IceWeb.ReducedDisplacementObj(...).write(top)] *)
Definition DRS_write (top : string) : M unit := emit (EvDRSWrite top).

(** Modelled from the spec: the spectrogram renderer of [IceWeb]
    produces a PNG image at the output path.
    [IceWeb.icewebSpectrogram(stream=st).plot(outfile=path, ...)] *)
Definition spectrogram_plot (path : string) : M unit :=
  fun w => (Ret tt, record (EvPlot path) (with_fs (<[path := File Image]> (fs w)) w)).

End Sys.

Export Sys.

(** ** [FDSNtools.py] *)

Module FDSNtools.

(** [CACHE_DIR = os.path.join('.', 'cache')] *)
Definition CACHE_DIR : string := os_path_join "." "cache".

(** [Client(base_url=fdsnThing)] for a string, the client itself otherwise. *)
Definition _check_client_or_string (fdsnThing : fdsnThing) : Client :=
  match fdsnThing with
  | IsClient c => c
  | IsStr url => mkClient url
  end.

Definition _make_cache_dir (cachedir : string) : M unit :=
  isdir <- os_path_isdir cachedir ;;
  if negb isdir then os_mkdir cachedir else ret tt.

(** ['%s_%s_%.4f_%.4f_%.2f.SML' % (startt.strftime('%Y%m%d%H%M'),
    endt.strftime('%Y%m%d%H%M'), centerlat, centerlon, searchRadiusDeg)];
    [%.4f] of [None] is a [TypeError], here [None]. *)
Definition stationXML_basename (pad : bool) (startt endt : UTCDateTime)
    (centerlat centerlon searchRadiusDeg : option float) : option (list ascii) :=
  match centerlat, centerlon, searchRadiusDeg with
  | Some lat, Some lon, Some radius =>
      Some (strftime_YmdHM pad startt ++ chars "_" ++ strftime_YmdHM pad endt
              ++ chars "_" ++ fmt_f 4 lat ++ chars "_" ++ fmt_f 4 lon
              ++ chars "_" ++ fmt_f 2 radius ++ chars ".SML")
  | _, _, _ => None
  end.

(** ['%s_%s_%s_%s.MSEED' % (startt.strftime('%Y%m%d%H%M'),
    endt.strftime('%Y%m%d%H%M'), trace_ids[0], trace_ids[-1])];
    indexing an empty list is an [IndexError], here [None]. *)
Definition MSEED_basename (pad : bool) (startt endt : UTCDateTime)
    (trace_ids : list string) : option (list ascii) :=
  match head trace_ids, last trace_ids with
  | Some first_id, Some last_id =>
      Some (strftime_YmdHM pad startt ++ chars "_" ++ strftime_YmdHM pad endt
              ++ chars "_" ++ chars first_id ++ chars "_" ++ chars last_id
              ++ chars ".MSEED")
  | _, _ => None
  end.

Section WithEnv.

Variable E : Env.

Definition _get_stationXML_filename (startt endt : UTCDateTime)
    (centerlat centerlon searchRadiusDeg : option float) (cachedir : string) : M string :=
  _make_cache_dir cachedir ;;
  match stationXML_basename (pads_year E) startt endt centerlat centerlon searchRadiusDeg with
  | Some name => ret (str (join_chars (chars cachedir) name))
  | None => raise TypeError
  end.

Definition _get_MSEED_filename (startt endt : UTCDateTime) (trace_ids : list string)
    (cachedir : string) : M string :=
  _make_cache_dir cachedir ;;
  match MSEED_basename (pads_year E) startt endt trace_ids with
  | Some name => ret (str (join_chars (chars cachedir) name))
  | None => raise IndexError
  end.

(** [get_inventory(fdsnClient, startt, endt, centerlat, centerlon,
    searchRadiusDeg, network='*', station='*', channel='*',
    overwrite=False, cache=False)].  The result is [None] or an inventory.

    On the cache branch the inventory is read into the local [inv] and the
    function body ends: the only [return inv] sits in the [else:] clause
    of the [try], so the call returns [None]. *)
Definition get_inventory (fdsnClient : fdsnThing) (startt endt : UTCDateTime)
    (centerlat centerlon searchRadiusDeg : option float)
    (network station channel : string) (overwrite cache : bool) : M (option Inventory) :=
  stationXmlFile <- _get_stationXML_filename startt endt centerlat centerlon
                      searchRadiusDeg CACHE_DIR ;;
  isfile <- os_path_isfile stationXmlFile ;;
  if (isfile && negb overwrite)%bool then
    inv <- read_inventory stationXmlFile ;;
    ret None
  else
    let client := _check_client_or_string fdsnClient in
    got <- try_ (client_get_stations E client
                   (mkStationQuery network station channel centerlat centerlon
                      searchRadiusDeg startt endt "response")) ;;
    match got with
    | None => ret None
    | Some inv =>
        (if cache then inventory_write inv stationXmlFile else ret tt) ;;
        ret (Some inv)
    end.

(** The body of [for trace_id in trace_ids:].  The loop carries [st] and
    the local [this_st] (unassigned before the first iteration). *)
Definition fetch_trace_id (client : Client) (startt endt : UTCDateTime)
    (acc : Stream * option Stream) (trace_id : string) : M (Stream * option Stream) :=
  let st := fst acc in
  match str_split "." trace_id with
  | [network; station; location; chancode] =>
      got <- try_ (client_get_waveforms E client
                     (mkWaveformQuery network station location chancode startt endt true)) ;;
      match got with
      | None => ret (st, Some [])
      | Some this_st =>
          if stream_truthy this_st then
            merged <- try_ (stream_merge E this_st) ;;
            match merged with
            | Some this_st' => ret (st ++ this_st', Some this_st')
            | None =>
                let fsamp := nanmean (map sampling_rate this_st) in
                this_st' <- stream_merge E (map (set_sampling_rate fsamp) this_st) ;;
                ret (st, Some this_st')
            end
          else ret (st, Some this_st)
      end
  | _ => raise ValueError
  end.

Fixpoint fetch_trace_ids (client : Client) (startt endt : UTCDateTime)
    (trace_ids : list string) (acc : Stream * option Stream) : M (Stream * option Stream) :=
  match trace_ids with
  | [] => ret acc
  | trace_id :: rest =>
      acc' <- fetch_trace_id client startt endt acc trace_id ;;
      fetch_trace_ids client startt endt rest acc'
  end.

(** [get_stream(fdsnClient, trace_ids, startt, endt, overwrite=False, cache=False)] *)
Definition get_stream (fdsnClient : fdsnThing) (trace_ids : list string)
    (startt endt : UTCDateTime) (overwrite cache : bool) : M Stream :=
  mseedfile <- _get_MSEED_filename startt endt trace_ids CACHE_DIR ;;
  isfile <- os_path_isfile mseedfile ;;
  if (isfile && negb overwrite)%bool then
    obspy_read mseedfile
  else
    let client := _check_client_or_string fdsnClient in
    acc <- fetch_trace_ids client startt endt trace_ids ([], None) ;;
    let st := fst acc in
    let this_st := snd acc in
    if negb (stream_truthy st) then ret st
    else
      merged <- try_ (stream_merge E st) ;;
      st' <- match merged with
             | Some st' => ret st'
             | None =>
                 last_st <- load_local this_st ;;
                 let fsamp := nanmean (map sampling_rate last_st) in
                 stream_merge E (map (set_sampling_rate fsamp) st)
             end ;;
      (if cache then stream_write st' mseedfile else ret tt) ;;
      ret st'.

End WithEnv.

End FDSNtools.

(** ** [wrappers.py] *)

Module wrappers.

(** The names bound at module level: the imports and the functions. *)
Definition module_globals : list string :=
  ["os"; "np"; "plt"; "Stream"; "SDS"; "FDSNtools"; "InventoryTools"; "IceWeb";
   "FDSN_to_SDS_daily_wrapper"; "SDS_to_RSAM_wrapper"; "SDS_to_spectrogram_wrapper";
   "order_traces_by_distance"; "SDS_to_ICEWEB_wrapper"].

Definition secsPerDay : Z := 86400.
Definition taperSecs : Z := 3600.

(** [while cond(s): s = body(s)], with a budget of iterations. *)
Fixpoint while_ {S : Type} (fuel : nat) (cond : S -> bool) (body : S -> M S) (s : S) : M S :=
  match fuel with
  | O => out_of_fuel
  | Datatypes.S fuel' =>
      if cond s then s' <- body s ;; while_ fuel' cond body s' else ret s
  end.

(** An inventory that is true in a condition, or nothing. *)
Definition if_inventory (inv : option Inventory) : option Inventory :=
  if inventory_truthy inv then inv else None.

Definition ids_list (ids : option (list string)) : list string :=
  match ids with Some l => l | None => [] end.

(** [os.path.join(a, b, c, d)] *)
Definition join4 (a b c d : list ascii) : list ascii :=
  join_chars (join_chars (join_chars a b) c) d.

(** ['%s' % x] for a string that may be [None]. *)
Definition percent_s (x : option string) : list ascii :=
  match x with Some s => chars s | None => chars "None" end.

(** [tr.stats.channel[2] in 'ENZ'] *)
Definition third_char (s : string) : option ascii := nth_error (chars s) 2.
Definition in_ENZ (c : ascii) : bool :=
  (Ascii.eqb c "E" || Ascii.eqb c "N" || Ascii.eqb c "Z")%bool.

Section WithEnv.

Variable E : Env.

(** *** [FDSN_to_SDS_daily_wrapper] *)

(** The locals the loop carries from one day to the next. *)
Record fdsn_state : Type := mkFdsnState {
  f_startt : UTCDateTime;
  f_trace_ids : option (list string);
  f_inv : option Inventory
}.

(** Lines 45-58: the branch taken when the archive read failed or
    [overwrite] is set. *)
Definition FDSN_fallback (SDS_TOP : string) (centerlat centerlon searchRadiusDeg : option float)
    (fdsnURL : fdsnThing) (overwrite : bool) (eod : UTCDateTime) (s : fdsn_state) : M fdsn_state :=
  s1 <- (if negb (ids_truthy (f_trace_ids s)) then
           match if_inventory (f_inv s) with
           | Some i => ret (mkFdsnState (f_startt s) (Some (inventory2traceid E i)) (f_inv s))
           | None =>
               inv <- FDSNtools.get_inventory E fdsnURL (f_startt s) eod centerlat centerlon
                        searchRadiusDeg "*" "*" "*" overwrite false ;;
               match if_inventory inv with
               | Some i => ret (mkFdsnState (f_startt s) (Some (inventory2traceid E i)) inv)
               | None => ret (mkFdsnState (f_startt s) (f_trace_ids s) inv)
               end
           end
         else ret s) ;;
  (if ids_truthy (f_trace_ids s1) then
     st <- FDSNtools.get_stream E fdsnURL (ids_list (f_trace_ids s1)) (f_startt s1) eod
             overwrite false ;;
     SDS_write E SDS_TOP st overwrite
   else ret tt) ;;
  ret s1.

(** One pass through the body of the [while]. *)
Definition FDSN_to_SDS_day (SDS_TOP : string) (centerlat centerlon searchRadiusDeg : option float)
    (fdsnURL : fdsnThing) (overwrite : bool) (s : fdsn_state) : M fdsn_state :=
  let eod := utc_add (f_startt s) secsPerDay in
  rd <- SDS_read E SDS_TOP (f_startt s) eod 2 None ;;
  s1 <- (if (negb (fst rd =? 0) || overwrite)%bool
         then FDSN_fallback SDS_TOP centerlat centerlon searchRadiusDeg fdsnURL overwrite eod s
         else ret s) ;;
  ret (mkFdsnState (utc_add (f_startt s1) secsPerDay) (f_trace_ids s1) (f_inv s1)).

(** [FDSN_to_SDS_daily_wrapper(startt, endt, SDS_TOP, centerlat=None,
    centerlon=None, searchRadiusDeg=None, trace_ids=None,
    fdsnURL="http://service.iris.edu", overwrite=True, inv=None)] *)
Definition FDSN_to_SDS_daily_wrapper (fuel : nat) (startt endt : UTCDateTime) (SDS_TOP : string)
    (centerlat centerlon searchRadiusDeg : option float) (trace_ids : option (list string))
    (fdsnURL : fdsnThing) (overwrite : bool) (inv : option Inventory) : M unit :=
  while_ fuel (fun s => utc_ltb (f_startt s) endt)
    (FDSN_to_SDS_day SDS_TOP centerlat centerlon searchRadiusDeg fdsnURL overwrite)
    (mkFdsnState startt trace_ids inv) ;;
  ret tt.

(** *** [SDS_to_RSAM_wrapper] *)

(** One pass through the body of the [while].  [RSAMobj] and
    [ReducedDisplacementObj] are used as bare names; the module imports
    [IceWeb] only. *)
Definition SDS_to_RSAM_day (SDS_TOP : string) (sourcelat sourcelon : option float)
    (inv : option Inventory) (trace_ids : option (list string)) (overwrite : bool)
    (startt : UTCDateTime) : M UTCDateTime :=
  let eod := utc_add startt secsPerDay in
  rd <- SDS_read E SDS_TOP (utc_sub startt 3600) (utc_add eod 3600) 2 trace_ids ;;
  (if (fst rd =? 0) || overwrite then
     load_global module_globals "RSAMobj" ;;
     RSAM_write SDS_TOP None ;;
     if (float_truthy sourcelat && float_truthy sourcelon && inventory_truthy inv)%bool then
       load_global module_globals "ReducedDisplacementObj" ;;
       DRS_write SDS_TOP
     else ret tt
   else ret tt) ;;
  ret (utc_add startt secsPerDay).

(** [SDS_to_RSAM_wrapper(startt, endt, SDS_TOP, ..., sourcelat=None,
    sourcelon=None, inv=None, trace_ids=None, overwrite=True, verbose=False)] *)
Definition SDS_to_RSAM_wrapper (fuel : nat) (startt endt : UTCDateTime) (SDS_TOP : string)
    (sourcelat sourcelon : option float) (inv : option Inventory)
    (trace_ids : option (list string)) (overwrite : bool) : M unit :=
  while_ fuel (fun t => utc_ltb t endt)
    (SDS_to_RSAM_day SDS_TOP sourcelat sourcelon inv trace_ids overwrite) startt ;;
  ret tt.

(** *** [SDS_to_spectrogram_wrapper] *)

(** Lines 163-166: response removal on the seismic channels of [st]. *)
Fixpoint correct_seismic_channels (inv : Inventory) (st : Stream) : M Stream :=
  match st with
  | [] => ret []
  | tr :: rest =>
      match third_char (channel tr) with
      | None => raise IndexError
      | Some c =>
          tr' <- (if in_ENZ c then of_option (remove_response E "DISP" inv tr) else ret tr) ;;
          rest' <- correct_seismic_channels inv rest ;;
          ret (tr' :: rest')
      end
  end.

(** ['%s.%s.png' % (st[0].stats.network, sotw.strftime('%Y%m%dT%H%M%S'))] *)
Definition spectrogram_sgramfile (tr0 : Trace) (sotw : UTCDateTime) : string :=
  str (chars (network tr0) ++ chars "." ++ strftime_YmdTHMS (pads_year E) sotw
         ++ chars ".png").

(** Lines 159-170: the stream of the window [sotw, sotw + windowlength].
    With an inventory a wider span is read, corrected and trimmed. *)
Definition spectrogram_window_stream (SDS_TOP : string) (trace_ids : option (list string))
    (windowlength : Z) (inv : option Inventory) (sotw : UTCDateTime) : M Stream :=
  let eotw := utc_add sotw windowlength in
  match if_inventory inv with
  | Some i =>
      rd <- SDS_read E SDS_TOP (utc_sub_half sotw windowlength)
              (utc_add_half eotw windowlength) 2 trace_ids ;;
      st' <- correct_seismic_channels i (snd rd) ;;
      ret (trim E st' sotw eotw)
  | None =>
      rd <- SDS_read E SDS_TOP sotw eotw 2 trace_ids ;;
      ret (snd rd)
  end.

(** One window of [SDS_to_spectrogram_wrapper]. *)
Definition spectrogram_window (SDS_TOP : string) (trace_ids : option (list string))
    (windowlength : Z) (overwrite : bool) (inv : option Inventory)
    (sotw : UTCDateTime) : M UTCDateTime :=
  st <- spectrogram_window_stream SDS_TOP trace_ids windowlength inv sotw ;;
  match st with
  | [] => raise IndexError
  | tr0 :: _ =>
      let sgramfile := spectrogram_sgramfile tr0 sotw in
      isfile <- os_path_isfile sgramfile ;;
      (if negb isfile || overwrite then spectrogram_plot sgramfile else ret tt) ;;
      ret (utc_add sotw windowlength)
  end.

(** [SDS_to_spectrogram_wrapper(startt, endt, SDS_TOP, trace_ids,
    windowlength=600, overwrite=False, ..., inv=None, verbose=False)] *)
Definition SDS_to_spectrogram_wrapper (fuel : nat) (startt endt : UTCDateTime)
    (SDS_TOP : string) (trace_ids : option (list string)) (windowlength : Z)
    (overwrite : bool) (inv : option Inventory) : M unit :=
  while_ fuel (fun t => utc_ltb t endt)
    (spectrogram_window SDS_TOP trace_ids windowlength overwrite inv) startt ;;
  ret tt.

(** *** [SDS_to_ICEWEB_wrapper] *)

(** The locals [sotw] and [eotw]: assigned only inside the inventory
    branch, so possibly unassigned. *)
Record window_vars : Type := mkWindowVars {
  v_sotw : UTCDateTime;
  v_eotw : option UTCDateTime
}.

(** [os.path.join(SGRAM_TOP, tw_st[0].stats.network, sotw.strftime('%Y'),
    sotw.strftime('%j'))] *)
Definition ICEWEB_sgramdir_chars (SGRAM_TOP : string) (tr0 : Trace) (sotw : UTCDateTime)
    : list ascii :=
  join4 (chars SGRAM_TOP) (chars (network tr0)) (fmt_Y (pads_year E) sotw) (strftime_j sotw).

Definition ICEWEB_sgramdir (SGRAM_TOP : string) (tr0 : Trace) (sotw : UTCDateTime) : string :=
  str (ICEWEB_sgramdir_chars SGRAM_TOP tr0 sotw).

(** [os.path.join(sgramdir, '%s_%s.png' % (subnet, sotw.strftime('%Y%m%d-%H%M')))] *)
Definition ICEWEB_sgramfile (SGRAM_TOP : string) (subnet : option string) (tr0 : Trace)
    (sotw : UTCDateTime) : string :=
  str (join_chars (ICEWEB_sgramdir_chars SGRAM_TOP tr0 sotw)
         (percent_s subnet ++ chars "_" ++ strftime_Ymd_HM (pads_year E) sotw
            ++ chars ".png")).

(** One window of the spectrogram loop, lines 290-315. *)
Definition ICEWEB_window (VEL : Stream) (overwrite : bool) (sgrammins : Z)
    (subnet : option string) (SGRAM_TOP : string) (v : window_vars) : M window_vars :=
  let sotw := v_sotw v in
  let eotw := utc_add sotw (sgrammins * 60) in
  let next := mkWindowVars (utc_add sotw (sgrammins * 60)) (Some eotw) in
  let tw_st := trim E VEL sotw eotw in
  match tw_st with
  | tr0 :: _ =>
      if 1000 <? npts tr0 then
        let sgramdir := ICEWEB_sgramdir SGRAM_TOP tr0 sotw in
        let sgramfile := ICEWEB_sgramfile SGRAM_TOP subnet tr0 sotw in
        isdir <- os_path_isdir sgramdir ;;
        (if negb isdir then os_makedirs sgramdir else ret tt) ;;
        isfile <- os_path_isfile sgramfile ;;
        (if negb isfile || overwrite then spectrogram_plot sgramfile else ret tt) ;;
        ret next
      else ret next
  | [] => ret next
  end.

Record iceweb_state : Type := mkIcewebState {
  i_sod : UTCDateTime;
  i_sotw : option UTCDateTime;
  i_eotw : option UTCDateTime
}.

(** One day of [SDS_to_ICEWEB_wrapper]; [fuel] bounds the inner loop. *)
Definition SDS_to_ICEWEB_day (fuel : nat) (SDS_TOP : string) (sourcelat sourcelon : option float)
    (inv : option Inventory) (trace_ids : option (list string)) (overwrite verbose : bool)
    (sgrammins : Z) (subnet : option string) (SGRAM_TOP : string)
    (s : iceweb_state) : M iceweb_state :=
  let sod := i_sod s in
  let eod := utc_add sod secsPerDay in
  match if_inventory inv with
  | Some i =>
      rd <- SDS_read E SDS_TOP (utc_sub sod taperSecs) (utc_add eod taperSecs) 2 trace_ids ;;
      vel_disp <- of_option (corrected_day E i (snd rd) sourcelat sourcelon sod eod) ;;
      RSAM_write SDS_TOP (Some "m/s") ;;
      (if (float_truthy sourcelat && float_truthy sourcelon)%bool
       then DRS_write SDS_TOP else ret tt) ;;
      v <- while_ fuel (fun v => utc_ltb (v_sotw v) eod)
             (ICEWEB_window (fst vel_disp) overwrite sgrammins subnet SGRAM_TOP)
             (mkWindowVars sod (i_eotw s)) ;;
      ret (mkIcewebState (utc_add sod secsPerDay) (Some (v_sotw v)) (v_eotw v))
  | None =>
      sotw <- load_local (i_sotw s) ;;
      eotw <- load_local (i_eotw s) ;;
      SDS_read E SDS_TOP sotw eotw 2 trace_ids ;;
      (if verbose then load_global module_globals "thisSDSob" else ret tt) ;;
      RSAM_write SDS_TOP (Some "Counts") ;;
      ret (mkIcewebState (utc_add sod secsPerDay) (i_sotw s) (i_eotw s))
  end.

(** [SDS_to_ICEWEB_wrapper(startt, endt, SDS_TOP, ..., sourcelat=None,
    sourcelon=None, inv=None, trace_ids=None, overwrite=True, verbose=False,
    sgrammins=10, ..., subnet=None, SGRAM_TOP='.')] *)
Definition SDS_to_ICEWEB_wrapper (fuel : nat) (startt endt : UTCDateTime) (SDS_TOP : string)
    (sourcelat sourcelon : option float) (inv : option Inventory)
    (trace_ids : option (list string)) (overwrite verbose : bool) (sgrammins : Z)
    (subnet : option string) (SGRAM_TOP : string) : M unit :=
  while_ fuel (fun s => utc_ltb (i_sod s) endt)
    (SDS_to_ICEWEB_day fuel SDS_TOP sourcelat sourcelon inv trace_ids overwrite verbose
       sgrammins subnet SGRAM_TOP)
    (mkIcewebState startt None None) ;;
  ret tt.

End WithEnv.

End wrappers.

Export FDSNtools.
Export wrappers.

(** ** [wrappers.py]: [order_traces_by_distance] *)

Module TraceOrder.

(** A trace with the [stats.distance] attribute that
    [InventoryTools.attach_distance_to_stream] may have set on it. *)
Record PlacedTrace : Type := mkPlacedTrace {
  placed_trace : Trace;
  distance : option float
}.

(** What a call can raise: [AttributeError], [OverflowError], or one of
    the exceptions of the other functions. *)
Inductive order_exn : Type :=
| AttributeError
| OverflowError
| Other (e : exn).

Inductive order_result (A : Type) : Type :=
| Returns (a : A)
| Raises (e : order_exn).

Arguments Returns {A} a.
Arguments Raises {A} e.

(** *** [int(s)] for a string *)

(** The white space that [int] skips around the digits, among the
    characters below 256: tab to carriage return, the blank, and the two
    spaces above 127 (next line, no-break space).  The separators 28 to
    31, which [str.isspace] accepts, are not among them. *)
Definition is_py_space (c : ascii) : bool :=
  let n := nat_of_ascii c in
  (((9 <=? n)%nat && (n <=? 13)%nat) || (n =? 32)%nat
   || (n =? 133)%nat || (n =? 160)%nat)%bool.

Fixpoint lstrip (s : list ascii) : list ascii :=
  match s with
  | c :: s' => if is_py_space c then lstrip s' else s
  | [] => []
  end.

Definition strip (s : list ascii) : list ascii := rev (lstrip (rev (lstrip s))).

(** The value of a run of decimal digits in which single underscores
    may stand between digits; [after_digit] tells whether the character
    before was a digit. *)
Fixpoint digits_value (acc : Z) (after_digit : bool) (s : list ascii) : option Z :=
  match s with
  | [] => if after_digit then Some acc else None
  | c :: s' =>
      if is_digit c then digits_value (10 * acc + (Z.of_nat (nat_of_ascii c) - 48)) true s'
      else if (Ascii.eqb c "_" && after_digit)%bool then digits_value acc false s'
      else None
  end.

(** [int(s)]: [None] stands for [ValueError].  [max_str_digits] is the
    limit on the number of digits when one is in force
    ([sys.get_int_max_str_digits()], 4300 by default), [None] where the
    limit is switched off or the interpreter has none. *)
Definition py_int (max_str_digits : option nat) (s : string) : option Z :=
  let body := strip (chars s) in
  let signed := match body with
                | "-"%char :: ds => (true, ds)
                | "+"%char :: ds => (false, ds)
                | _ => (false, body)
                end in
  match digits_value 0 false (snd signed) with
  | Some n =>
      let too_long := match max_str_digits with
                      | Some limit => (limit <? length (List.filter is_digit (snd signed)))%nat
                      | None => false
                      end in
      if too_long then None else Some (if fst signed then - n else n)
  | None => None
  end.

(** *** [a / b] of two integers *)

(** An integer as an exact (not normalised) float. *)
Definition exact_float (z : Z) : float :=
  match z with
  | Z0 => S754_zero false
  | Zpos p => S754_finite false p 0
  | Zneg p => S754_finite true p 0
  end.

(** True division of integers: the quotient correctly rounded to
    binary64; [None] stands for [OverflowError]. *)
Definition true_div (a b : Z) : option float :=
  match SFdiv prec64 emax64 (exact_float a) (exact_float b) with
  | S754_infinity _ => None
  | q => Some q
  end.

(** *** [s.find(c)] for a character *)

Fixpoint find_from (i : Z) (c : ascii) (s : list ascii) : Z :=
  match s with
  | [] => -1
  | x :: s' => if Ascii.eqb x c then i else find_from (i + 1) c s'
  end.

Definition str_find (s : string) (c : ascii) : Z := find_from 0 c (chars s).

(** *** The function *)

Section WithNumpy.

Variable max_str_digits : option nat.

(** [numpy.argsort] of a list of floats: the indices that sort it.
    Which of two equal keys comes first is not specified by its default
    sorting kind. *)
Variable argsort : list float -> list nat.

(** [[tr.stats.distance for tr in st]] *)
Fixpoint distances (st : list PlacedTrace) : order_result (list float) :=
  match st with
  | [] => Returns []
  | tr :: rest =>
      match distance tr with
      | None => Raises AttributeError
      | Some d =>
          match distances rest with
          | Returns ds => Returns (d :: ds)
          | Raises e => Raises e
          end
      end
  end.

(** [c1 + c2] of lines 185-187:
    [int(tr.stats.location)/1000000 +
     'ZNEF0123456789'.find(tr.stats.channel[2])/1000000000] *)
Definition channel_offset (tr : Trace) : order_result float :=
  match py_int max_str_digits (location tr) with
  | None => Raises (Other ValueError)
  | Some n =>
      match true_div n 1000000 with
      | None => Raises OverflowError
      | Some c1 =>
          match third_char (channel tr) with
          | None => Raises (Other IndexError)
          | Some c =>
              match true_div (str_find "ZNEF0123456789" c) 1000000000 with
              | None => Raises OverflowError
              | Some c2 => Returns (SFadd prec64 emax64 c1 c2)
              end
          end
      end
  end.

(** Lines 184-188, [for i, tr in enumerate(st): ... r[i] += c1 + c2],
    from index [i] on: what is raised, if anything, and the list [r]
    as the loop leaves it. *)
Fixpoint add_channel_offsets (i : nat) (st : list PlacedTrace) (r : list float)
    : option order_exn * list float :=
  match st with
  | [] => (None, r)
  | tr :: rest =>
      match channel_offset (placed_trace tr) with
      | Raises e => (Some e, r)
      | Returns offset =>
          match r !! i with
          | None => (Some (Other IndexError), r)
          | Some x => add_channel_offsets (S i) rest (<[i := SFadd prec64 emax64 x offset]> r)
          end
      end
  end.

(** Lines 190-192: [for i in indices: st2.append(st[i].copy())] *)
Fixpoint pick (st : list PlacedTrace) (indices : list nat) : order_result (list PlacedTrace) :=
  match indices with
  | [] => Returns []
  | i :: rest =>
      match st !! i with
      | None => Raises (Other IndexError)
      | Some tr =>
          match pick st rest with
          | Returns st2 => Returns (tr :: st2)
          | Raises e => Raises e
          end
      end
  end.

(** [order_traces_by_distance(st, r=[], assert_channel_order=False)].
    The second component is the list object the caller passed as [r] as
    the call leaves it: an empty [r] (the default list, too) is not
    touched, because [r] is rebound to a new list of distances; any
    other list is updated in place by [r[i] += ...]. *)
Definition order_traces_by_distance (st : list PlacedTrace) (r : list float)
    (assert_channel_order : bool) : order_result (list PlacedTrace) * list float :=
  let caller (keys : list float) : list float := match r with [] => [] | _ => keys end in
  match (match r with [] => distances st | _ => Returns r end) with
  | Raises e => (Raises e, r)
  | Returns keys0 =>
      let looped := if assert_channel_order then add_channel_offsets 0 st keys0
                    else (None, keys0) in
      match fst looped with
      | Some e => (Raises e, caller (snd looped))
      | None => (pick st (argsort (snd looped)), caller (snd looped))
      end
  end.

End WithNumpy.

(** The number of sort keys: the length of [r], or of the stream when
    [r] is empty and the distances are taken. *)
Definition key_count (st : list PlacedTrace) (r : list float) : nat :=
  match r with [] => length st | _ => length r end.

End TraceOrder.

Export TraceOrder.

(** ** Vocabulary of the properties *)

Module Observe.

Section WithEnv.

Variable E : Env.

(** [m] comes to an end within its budget and only appends events
    satisfying [P] to the log. *)
Definition emits_only {A : Type} (P : Event -> bool) (m : M A) : Prop :=
  forall w, fst (m w) <> OutOfFuel
            /\ exists l, log (snd (m w)) = l ++ log w /\ forallb P l = true.

(** The events a fetcher can cause: directory creation, remote
    requests, cache reads and cache writes. *)
Definition fetcher_event (e : Event) : bool :=
  match e with
  | EvMkdir _ | EvGetStations _ _ | EvGetWaveforms _ _
  | EvReadInventory _ | EvReadStream _ | EvWriteInventory _ | EvWriteStream _ => true
  | _ => false
  end.

(** The world once [_make_cache_dir] has returned. *)
Definition cache_dir_made (w : World) : World :=
  match fs w !! CACHE_DIR with
  | Some Dir => w
  | _ => record (EvMkdir CACHE_DIR) (with_fs (<[CACHE_DIR := Dir]> (fs w)) w)
  end.

(** The cache directory exists or can be created. *)
Definition cache_dir_usable (w : World) : Prop :=
  fs w !! CACHE_DIR = None \/ fs w !! CACHE_DIR = Some Dir.

(** The state after a day: the pointer moved by [secsPerDay]. *)
Definition next_day (s : fdsn_state) : fdsn_state :=
  mkFdsnState (utc_add (f_startt s) secsPerDay) (f_trace_ids s) (f_inv s).

(** The archive read that opens a day of [FDSN_to_SDS_daily_wrapper]. *)
Definition fdsn_read_event (SDS_TOP : string) (s : fdsn_state) : Event :=
  EvSDSRead SDS_TOP (f_startt s) (utc_add (f_startt s) secsPerDay) 2 None.

(** The return code of that read. *)
Definition fdsn_read_code (SDS_TOP : string) (s : fdsn_state) (w : World) : Z :=
  fst (sds_read E (archive w) SDS_TOP (f_startt s) (utc_add (f_startt s) secsPerDay) None).

(** The archive read that opens a day of [SDS_to_RSAM_wrapper]. *)
Definition rsam_read_event (SDS_TOP : string) (trace_ids : option (list string))
    (startt : UTCDateTime) : Event :=
  EvSDSRead SDS_TOP (utc_sub startt 3600) (utc_add (utc_add startt secsPerDay) 3600) 2
    trace_ids.

(** The return code of that read. *)
Definition rsam_read_code (SDS_TOP : string) (trace_ids : option (list string))
    (startt : UTCDateTime) (w : World) : Z :=
  fst (sds_read E (archive w) SDS_TOP (utc_sub startt 3600)
         (utc_add (utc_add startt secsPerDay) 3600) trace_ids).

(** Any event but a read of the day archive. *)
Definition not_a_read (e : Event) : bool := negb (is_sds_read e).

(** The loop variables after a window of [SDS_to_ICEWEB_wrapper]. *)
Definition next_window (sgrammins : Z) (v : window_vars) : window_vars :=
  mkWindowVars (utc_add (v_sotw v) (sgrammins * 60))
               (Some (utc_add (v_sotw v) (sgrammins * 60))).

(** The world after [plot] on top of an optional [makedirs]. *)
Definition rendered (dir file : string) (w : World) : World :=
  let w1 := if dir_exists w dir then w
            else record (EvMkdir dir) (with_fs (<[dir := Dir]> (fs w)) w) in
  record (EvPlot file) (with_fs (<[file := File Image]> (fs w1)) w1).

End WithEnv.

End Observe.

Export Observe.

(** ** More kinds of events *)

Module Kinds.

(** A station-metadata request to the remote data centre. *)
Definition is_station_request (e : Event) : bool :=
  match e with EvGetStations _ _ => true | _ => false end.

(** A write of waveforms into the day archive. *)
Definition is_sds_write (e : Event) : bool :=
  match e with EvSDSWrite _ _ _ => true | _ => false end.

(** A write of a reduced-displacement series. *)
Definition is_drs_write (e : Event) : bool :=
  match e with EvDRSWrite _ => true | _ => false end.

(** The events [get_stream] can cause. *)
Definition stream_event (e : Event) : bool :=
  match e with
  | EvMkdir _ | EvGetWaveforms _ _ | EvReadStream _ | EvWriteStream _ => true
  | _ => false
  end.

(** Two finite floats with the same sign and the same value after
    rounding to [p] decimals. *)
Definition same_print (p : nat) (x y : float) : Prop :=
  finite_float x /\ finite_float y
  /\ float_sign x = float_sign y /\ exists n, rounds_to p x n /\ rounds_to p y n.

End Kinds.

Export Kinds.

(** ** Vocabulary of the waveform fetcher *)

Module StreamRequests.

Section WithEnv.

Variable E : Env.

(** The query [get_stream] sends for an identifier of four parts. *)
Definition waveform_query (startt endt : UTCDateTime) (n s l c : string) : WaveformQuery :=
  mkWaveformQuery n s l c startt endt true.

(** [get_stream] does not take its cache branch: [overwrite] is set, or
    the cache file of the request is not there. *)
Definition stream_cache_miss (startt endt : UTCDateTime) (trace_ids : list string)
    (overwrite : bool) (w : World) : Prop :=
  overwrite = true
  \/ forall name, MSEED_basename (pads_year E) startt endt trace_ids = Some name ->
                  file_exists (cache_dir_made w) (str (join_chars (chars CACHE_DIR) name))
                  = false.

(** Lines 117-136 of [get_stream]: what follows the identifier loop. *)
Definition get_stream_tail (mseedfile : string) (cache : bool)
    (acc : Stream * option Stream) : M Stream :=
  if negb (stream_truthy (fst acc)) then ret (fst acc)
  else
    merged <- try_ (stream_merge E (fst acc)) ;;
    st' <- match merged with
           | Some st' => ret st'
           | None =>
               last_st <- load_local (snd acc) ;;
               stream_merge E
                 (map (set_sampling_rate (nanmean (map sampling_rate last_st))) (fst acc))
           end ;;
    (if cache then stream_write st' mseedfile else ret tt) ;;
    ret st'.

(** The data centre has nothing for the identifier: its request fails
    or is answered with an empty stream. *)
Definition no_data (client : Client) (startt endt : UTCDateTime) (trace_id : string) : Prop :=
  exists n s l c,
    str_split "." trace_id = [n; s; l; c]
    /\ (get_waveforms E client (waveform_query startt endt n s l c) = None
        \/ get_waveforms E client (waveform_query startt endt n s l c) = Some []).

(** The data centre answers the identifier with segments that merge at
    once into [contribution]. *)
Definition answered (client : Client) (startt endt : UTCDateTime) (trace_id : string)
    (contribution : Stream) : Prop :=
  exists n s l c got,
    str_split "." trace_id = [n; s; l; c]
    /\ get_waveforms E client (waveform_query startt endt n s l c) = Some got
    /\ stream_truthy got = true
    /\ merge E 0 1 got = Some contribution.

End WithEnv.

End StreamRequests.

Export StreamRequests.

(** ** Vocabulary of the loops *)

Module LoopShapes.

(** The range from [ptr] to [endt] takes [N] steps of [step] seconds:
    the pointer is below [endt] before each of them and not after the
    last. *)
Definition spans (endt ptr : UTCDateTime) (step : Z) (N : nat) : Prop :=
  match N with
  | O => endt <= ptr
  | S n => utc_add ptr (Z.of_nat n * step) < endt <= utc_add ptr (Z.of_nat (S n) * step)
  end.

End LoopShapes.

Export LoopShapes.

(** ** What a wrapper leaves behind *)

Module Footprints.

(** From [w] to [w'] the log has grown by events of kind [P] only. *)
Definition grows_by (P : Event -> bool) (w w' : World) : Prop :=
  exists l, log w' = l ++ log w /\ forallb P l = true.

(** The events of a spectrogram window: its directory and its image. *)
Definition window_event (e : Event) : bool :=
  match e with EvMkdir _ | EvPlot _ => true | _ => false end.

(** From [w] to [w'] the files and the day archive are the same and the
    log has grown by reads of the day archive only. *)
Definition reads_only (w w' : World) : Prop :=
  fs w' = fs w /\ archive w' = archive w /\ grows_by is_sds_read w w'.

(** The world of a day of [SDS_to_ICEWEB_wrapper] once its metrics are
    written: the archive read with its taper, the RSAM series, and the
    reduced-displacement series when both source coordinates are true
    in a condition. *)
Definition metrics_written (SDS_TOP : string) (sourcelat sourcelon : option float)
    (trace_ids : option (list string)) (sod : UTCDateTime) (w : World) : World :=
  let w1 := record (EvRSAMWrite SDS_TOP (Some "m/s"))
              (record (EvSDSRead SDS_TOP (utc_sub sod taperSecs)
                         (utc_add (utc_add sod secsPerDay) taperSecs) 2 trace_ids) w) in
  if (float_truthy sourcelat && float_truthy sourcelon)%bool
  then record (EvDRSWrite SDS_TOP) w1 else w1.

End Footprints.

Export Footprints.

(** ** Vocabulary of the day loop of [FDSN_to_SDS_daily_wrapper] *)

Module IdentifierSource.

Section WithEnv.

Variable E : Env.

(** The loop has identifiers at hand without a search: [trace_ids] is a
    non-empty list, or [inv] is an inventory that yields some. *)
Definition has_identifiers (s : fdsn_state) : Prop :=
  ids_truthy (f_trace_ids s) = true
  \/ exists i, if_inventory (f_inv s) = Some i /\ inventory2traceid E i <> [].

End WithEnv.

End IdentifierSource.

Export IdentifierSource.

(** ** Concrete collaborators and inputs used in the examples *)

Module Scenario.

(** A data centre that answers no request, ObsPy's merge as modelled by
    [merge_ref], a trim that keeps the stream, an archive that reports
    "no data" (code 1) and stores what it is given. *)
Definition quiet_env : Env :=
  mkEnv false
    (fun _ _ => None)
    (fun _ _ => None)
    (fun fill _ st => merge_ref fill st)
    (fun st _ _ => st)
    (fun _ => [])
    (fun _ _ _ _ _ => (1, []))
    (fun a _ st _ => a ++ st)
    (fun _ _ tr => Some tr)
    (fun _ st _ _ _ _ => Some (st, st)).

Definition iris : fdsnThing := IsStr "http://service.iris.edu".

(** 2023-11-14T22:13:20Z and the same instant one and two days later. *)
Definition t0 : UTCDateTime := 1700000000 * ns_per_sec.
Definition t1 : UTCDateTime := utc_add t0 secsPerDay.
Definition t2 : UTCDateTime := utc_add t1 secsPerDay.

Definition empty_world : World := mkWorld ∅ [] [].

(** A world whose cache directory exists and is empty. *)
Definition cache_world : World := mkWorld {[ CACHE_DIR := Dir ]} [] [].

(** A world in which the cache path is taken by a regular file. *)
Definition blocked_world : World := mkWorld {[ CACHE_DIR := File Image ]} [] [].

End Scenario.

Module CacheScenario.
Import Scenario.

(** Hawaii: 19.5 N, 155.5 W, search radius 1.0 degree. *)
Definition lat0 : float := S754_finite false 39 (-1).
Definition lon0 : float := S754_finite true 311 (-1).
Definition rad0 : float := float_of_Z 1.

Definition sml_path : string :=
  "./cache/202311142213_202311152213_19.5000_-155.5000_1.00.SML".
Definition mseed_path : string :=
  "./cache/202311142213_202311152213_IU.POHA.00.BHZ_IU.POHA.00.BHZ.MSEED".

Definition cached_inventory : Inventory :=
  mkInventory [mkNetwork "IU" [mkStation "POHA" [mkChannel "00" "BHZ"]]].

Definition cached_trace : Trace :=
  mkTrace "IU" "POHA" "00" "BHZ" (float_of_Z 20) t0 [1; 2; 3].

(** Both cache files are present. *)
Definition warm_world : World :=
  mkWorld (<[mseed_path := File (MiniSEED [cached_trace])]>
             (<[sml_path := File (StationXML cached_inventory)]> {[ CACHE_DIR := Dir ]}))
          [] [].

(** One nanosecond before 2023-11-14T22:14:00Z, and that full minute. *)
Definition before_minute : UTCDateTime := 1700000039999999999.
Definition full_minute : UTCDateTime := 1700000040 * ns_per_sec.

End CacheScenario.

Module WrapperScenario.
Import Scenario.

(** A trace with exactly [n] samples at 100 Hz starting at [t0]. *)
Definition trace_of_length (n : nat) : Trace :=
  mkTrace "IU" "POHA" "00" "BHZ" (float_of_Z 100) t0 (repeat 0 n).

(** An archive whose reads succeed (code 0) and hold one long trace. *)
Definition full_env : Env :=
  mkEnv false
    (fun _ _ => None)
    (fun _ _ => None)
    (fun fill _ st => merge_ref fill st)
    (fun st _ _ => st)
    (fun _ => [])
    (fun _ _ _ _ _ => (0, [trace_of_length 5]))
    (fun a _ st _ => a ++ st)
    (fun _ _ tr => Some tr)
    (fun _ st _ _ _ _ => Some (st, st)).

End WrapperScenario.

Module MergeScenario.
Import Scenario.

(** Two segments of the channel XX.AAA..HHZ, one second apart, recorded
    at 100 Hz and at 50 Hz, and a segment of XX.BBB..HHZ at 20 Hz. *)
Definition tr_fast : Trace := mkTrace "XX" "AAA" "" "HHZ" (float_of_Z 100) t0 [1; 2; 3].
Definition tr_slow : Trace :=
  mkTrace "XX" "AAA" "" "HHZ" (float_of_Z 50) (utc_add t0 1) [4; 5].
Definition tr_other : Trace := mkTrace "XX" "BBB" "" "HHZ" (float_of_Z 20) t0 [7; 8].

(** A data centre that answers the request for location "" of station
    AAA with the 100 Hz segment, the request for location "*" with the
    50 Hz segment, the request for location "??" with both, and the
    request for station BBB with its segment or, when [bbb_up] is false,
    with a failure. *)
Definition waveforms (bbb_up : bool) (c : Client) (q : WaveformQuery) : option Stream :=
  if String.eqb (w_station q) "AAA" then
    if String.eqb (w_location q) "" then Some [tr_fast]
    else if String.eqb (w_location q) "*" then Some [tr_slow]
    else if String.eqb (w_location q) "??" then Some [tr_fast; tr_slow]
    else None
  else if (String.eqb (w_station q) "BBB" && bbb_up)%bool then Some [tr_other]
  else None.

Definition env (bbb_up : bool) : Env :=
  mkEnv false
    (fun _ _ => None)
    (waveforms bbb_up)
    (fun fill _ st => merge_ref fill st)
    (fun st _ _ => st)
    (fun _ => [])
    (fun _ _ _ _ _ => (1, []))
    (fun a _ st _ => a ++ st)
    (fun _ _ tr => Some tr)
    (fun _ st _ _ _ _ => Some (st, st)).

End MergeScenario.

Module CollisionScenario.
Import Scenario CacheScenario.

(** 19.5 N plus 2^-20 of a degree: another float that [%.4f] prints as 19.5000. *)
Definition lat0' : float := S754_finite false 20447233 (-20).

(** The waveform cache file of an earlier request that started at
    22:14:00, and a world holding it. *)
Definition mseed_path : string :=
  "./cache/202311142214_202311152213_IU.POHA.00.BHZ_IU.POHA.00.BHZ.MSEED".

Definition warm_world : World :=
  mkWorld (<[mseed_path := File (MiniSEED [cached_trace])]> {[ CACHE_DIR := Dir ]}) [] [].

(** A data centre that answers every station request with one inventory. *)
Definition fresh_inventory : Inventory :=
  mkInventory [mkNetwork "HV" [mkStation "UWE" [mkChannel "" "HHZ"]]].

Definition answering_env : Env :=
  mkEnv false
    (fun _ _ => Some fresh_inventory)
    (fun _ _ => None)
    (fun fill _ st => merge_ref fill st)
    (fun st _ _ => st)
    (fun _ => ["HV.UWE..HHZ"])
    (fun _ _ _ _ _ => (1, []))
    (fun a _ st _ => a ++ st)
    (fun _ _ tr => Some tr)
    (fun _ st _ _ _ _ => Some (st, st)).

End CollisionScenario.

Module OrderScenario.

(** A stable insertion sort of the indices by their keys, NaN last: one
    of the orders [numpy.argsort] may return. *)
Definition key_leb (x y : float) : bool :=
  match SFcompare x y with
  | Some Gt => false
  | Some _ => true
  | None => is_nan y
  end.

Fixpoint insert_index (keys : list float) (i : nat) (sorted : list nat) : list nat :=
  match sorted with
  | [] => [i]
  | j :: rest =>
      if key_leb (nth j keys S754_nan) (nth i keys S754_nan)
      then j :: insert_index keys i rest
      else i :: sorted
  end.

Definition argsort_ref (keys : list float) : list nat :=
  fold_left (fun sorted i => insert_index keys i sorted) (seq 0 (length keys)) [].

(** Three channels of a station 5.5 km away and one channel of a
    station 3.25 km away. *)
Definition near : float := binary_normalize prec64 emax64 13 (-2) false.
Definition far : float := binary_normalize prec64 emax64 11 (-1) false.

Definition placed (sta loc cha : string) (d : float) : PlacedTrace :=
  mkPlacedTrace (mkTrace "XX" sta loc cha (float_of_Z 100) Scenario.t0 [0]) (Some d).

Definition day_stream : list PlacedTrace :=
  [placed "FAR" "00" "HHE" far; placed "FAR" "00" "HHZ" far; placed "NEAR" "00" "HHZ" near;
   placed "FAR" "00" "HHN" far].

(** The same station with a blank location code. *)
Definition blank_stream : list PlacedTrace :=
  [placed "FAR" "" "HHZ" far; placed "NEAR" "00" "HHZ" near].

End OrderScenario.

(* ===================================================================== *)
(** * Part II.  Properties                                                *)
(* ===================================================================== *)

(** Paths and names stay folded under [simpl]. *)
Arguments CACHE_DIR : simpl never.
Arguments join_chars : simpl never.
Arguments str : simpl never.
Arguments chars : simpl never.
Arguments fixed_digits : simpl never.
Arguments dec_digits : simpl never.
Arguments fmt_f : simpl never.
Arguments fmt_Y : simpl never.
Arguments strftime_YmdHM : simpl never.
Arguments strftime_YmdTHMS : simpl never.
Arguments strftime_Ymd_HM : simpl never.
Arguments strftime_j : simpl never.
Arguments spectrogram_sgramfile : simpl never.
Arguments ICEWEB_sgramdir : simpl never.
Arguments ICEWEB_sgramfile : simpl never.

(** Reduce the monad's plumbing and the world's projections, nothing else. *)
Ltac wsimpl :=
  cbn [fs archive log with_fs with_archive record negb andb orb fst snd
       ret raise bind try_ emit of_option out_of_fuel].

(** ** What a call may add to the log *)

Section Emits.

Lemma emits_nothing {A} P (m : M A) :
  (forall w, fst (m w) <> OutOfFuel /\ log (snd (m w)) = log w) -> emits_only P m.
Proof.
  intros H w. destruct (H w) as [Hf Hl]. split; [exact Hf |]. exists []. auto.
Qed.

Lemma emits_only_ret {A} P (a : A) : emits_only P (ret a).
Proof. apply emits_nothing. intros w. split; [discriminate | reflexivity]. Qed.

Lemma emits_only_raise {A} P e : emits_only P (@raise A e).
Proof. apply emits_nothing. intros w. split; [discriminate | reflexivity]. Qed.

Lemma emits_only_emit P e : P e = true -> emits_only P (emit e).
Proof.
  intros H w. split; [discriminate |]. exists [e]. simpl. rewrite H. auto.
Qed.

Lemma emits_only_bind {A B} P (m : M A) (k : A -> M B) :
  emits_only P m -> (forall a, emits_only P (k a)) -> emits_only P (bind m k).
Proof.
  intros Hm Hk w. unfold bind.
  destruct (Hm w) as [Hf [l [Hl HP]]].
  destruct (m w) as [[a | e |] w'] eqn:Hmw; simpl in *.
  - destruct (Hk a w') as [Hf' [l' [Hl' HP']]]. split; [exact Hf' |].
    exists (l' ++ l). rewrite Hl', Hl, app_assoc. split; [reflexivity |].
    rewrite forallb_app, HP, HP'. reflexivity.
  - split; [discriminate |]. exists l. auto.
  - congruence.
Qed.

Lemma emits_only_try {A} P (m : M A) : emits_only P m -> emits_only P (try_ m).
Proof.
  intros Hm w. unfold try_.
  destruct (Hm w) as [Hf [l [Hl HP]]].
  destruct (m w) as [[a | e |] w']; simpl in *;
    (split; [congruence || discriminate | exists l; auto]).
Qed.

Lemma emits_only_of_option {A} P (o : option A) : emits_only P (of_option o).
Proof. destruct o; [apply emits_only_ret | apply emits_only_raise]. Qed.

Lemma emits_only_load_local {A} P (o : option A) : emits_only P (load_local o).
Proof. destruct o; [apply emits_only_ret | apply emits_only_raise]. Qed.

Lemma emits_only_load_global P globals name : emits_only P (load_global globals name).
Proof.
  unfold load_global. destruct (existsb _ _); [apply emits_only_ret | apply emits_only_raise].
Qed.

Lemma emits_only_weaken {A} (P Q : Event -> bool) (m : M A) :
  (forall e, P e = true -> Q e = true) -> emits_only P m -> emits_only Q m.
Proof.
  intros HPQ Hm w. destruct (Hm w) as [Hf [l [Hl HP]]]. split; [exact Hf |].
  exists l. split; [assumption |].
  rewrite forallb_forall in *. auto.
Qed.

Lemma emits_only_isdir P path : emits_only P (os_path_isdir path).
Proof. apply emits_nothing. intros w. split; [discriminate | reflexivity]. Qed.

Lemma emits_only_isfile P path : emits_only P (os_path_isfile path).
Proof. apply emits_nothing. intros w. split; [discriminate | reflexivity]. Qed.

Lemma emits_only_mkdir P path : P (EvMkdir path) = true -> emits_only P (os_mkdir path).
Proof.
  intros H w. unfold os_mkdir. destruct (fs w !! path).
  - split; [discriminate |]. exists []. auto.
  - split; [discriminate |]. exists [EvMkdir path]. simpl. rewrite H. auto.
Qed.

Lemma emits_only_read_inventory P path :
  P (EvReadInventory path) = true -> emits_only P (read_inventory path).
Proof.
  intros H w. unfold read_inventory.
  destruct (fs w !! path) as [[| [ | |]] |];
    (split; [discriminate |]); try (exists []; auto; fail).
  exists [EvReadInventory path]. simpl. rewrite H. auto.
Qed.

Lemma emits_only_obspy_read P path :
  P (EvReadStream path) = true -> emits_only P (obspy_read path).
Proof.
  intros H w. unfold obspy_read.
  destruct (fs w !! path) as [[| [ | |]] |];
    (split; [discriminate |]); try (exists []; auto; fail).
  exists [EvReadStream path]. simpl. rewrite H. auto.
Qed.

Lemma emits_only_inventory_write P inv path :
  P (EvWriteInventory path) = true -> emits_only P (inventory_write inv path).
Proof.
  intros H w. split; [discriminate |]. exists [EvWriteInventory path]. simpl.
  rewrite H. auto.
Qed.

Lemma emits_only_stream_write P st path :
  P (EvWriteStream path) = true -> emits_only P (stream_write st path).
Proof.
  intros H w. split; [discriminate |]. exists [EvWriteStream path]. simpl.
  rewrite H. auto.
Qed.

(** What is in the log stays in the log. *)
Lemma emits_only_keeps {A} P (m : M A) e w :
  emits_only P m -> In e (log w) -> In e (log (snd (m w))).
Proof.
  intros Hm Hin. destruct (Hm w) as [_ [l [Hl _]]]. rewrite Hl. apply in_or_app. auto.
Qed.

(** Events of a kind [p] that [m] never emits are not added. *)
Lemma emits_only_count {A} (P p : Event -> bool) (m : M A) w :
  emits_only P m -> (forall e, P e = true -> p e = false) ->
  count p (log (snd (m w))) = count p (log w).
Proof.
  intros Hm Hp. destruct (Hm w) as [_ [l [Hl HP]]]. rewrite Hl. unfold count.
  rewrite List.filter_app, List.length_app.
  replace (List.filter p l) with (@nil Event); [reflexivity |].
  clear Hl. induction l as [| e l IH]; [reflexivity |].
  simpl in HP. apply andb_true_iff in HP as [He Hl]. simpl.
  rewrite (Hp e He). auto.
Qed.

End Emits.

(** ** The fetchers of [FDSNtools.py] *)

Section FetcherFacts.

Variable E : Env.

Lemma make_cache_dir_usable w :
  cache_dir_usable w -> _make_cache_dir CACHE_DIR w = (Ret tt, cache_dir_made w).
Proof.
  intros [H | H]; unfold _make_cache_dir, cache_dir_made, bind, os_path_isdir, dir_exists, os_mkdir;
    simpl; rewrite H; simpl; rewrite ?H; reflexivity.
Qed.

Lemma make_cache_dir_blocked w c :
  fs w !! CACHE_DIR = Some (File c) ->
  _make_cache_dir CACHE_DIR w = (Raise FileExistsError, w).
Proof.
  intros H. unfold _make_cache_dir, bind, os_path_isdir, dir_exists, os_mkdir. simpl.
  rewrite H. simpl. rewrite H. reflexivity.
Qed.

Lemma cache_dir_made_log w :
  exists l, log (cache_dir_made w) = l ++ log w /\ forallb fetcher_event l = true.
Proof.
  unfold cache_dir_made. destruct (fs w !! CACHE_DIR) as [[| c] |].
  - exists []. auto.
  - exists [EvMkdir CACHE_DIR]. auto.
  - exists [EvMkdir CACHE_DIR]. auto.
Qed.

Lemma cache_dir_made_remote w :
  count is_remote (log (cache_dir_made w)) = count is_remote (log w).
Proof.
  unfold cache_dir_made. destruct (fs w !! CACHE_DIR) as [[| c] |]; reflexivity.
Qed.

Lemma cache_dir_made_lookup w path :
  path <> CACHE_DIR -> fs (cache_dir_made w) !! path = fs w !! path.
Proof.
  intros Hne. unfold cache_dir_made.
  destruct (fs w !! CACHE_DIR) as [[| c] |]; simpl; try reflexivity;
    rewrite lookup_insert_ne; auto.
Qed.

Lemma emits_make_cache_dir cachedir : emits_only fetcher_event (_make_cache_dir cachedir).
Proof.
  unfold _make_cache_dir. apply emits_only_bind; [apply emits_only_isdir |].
  intros []; simpl; [apply emits_only_ret | apply emits_only_mkdir; reflexivity].
Qed.

Lemma emits_get_stationXML_filename t0 t1 lat lon rad cachedir :
  emits_only fetcher_event (_get_stationXML_filename E t0 t1 lat lon rad cachedir).
Proof.
  unfold _get_stationXML_filename. apply emits_only_bind; [apply emits_make_cache_dir |].
  intros _. destruct (stationXML_basename _ _ _ _ _ _);
    [apply emits_only_ret | apply emits_only_raise].
Qed.

Lemma emits_get_MSEED_filename t0 t1 ids cachedir :
  emits_only fetcher_event (_get_MSEED_filename E t0 t1 ids cachedir).
Proof.
  unfold _get_MSEED_filename. apply emits_only_bind; [apply emits_make_cache_dir |].
  intros _. destruct (MSEED_basename _ _ _ _);
    [apply emits_only_ret | apply emits_only_raise].
Qed.

Lemma emits_client_get_stations c q : emits_only fetcher_event (client_get_stations E c q).
Proof.
  unfold client_get_stations. apply emits_only_bind;
    [apply emits_only_emit; reflexivity | intros; apply emits_only_of_option].
Qed.

Lemma emits_client_get_waveforms c q : emits_only fetcher_event (client_get_waveforms E c q).
Proof.
  unfold client_get_waveforms. apply emits_only_bind;
    [apply emits_only_emit; reflexivity | intros; apply emits_only_of_option].
Qed.

Lemma emits_stream_merge P st : emits_only P (stream_merge E st).
Proof. apply emits_only_of_option. Qed.

Lemma emits_get_inventory c t0 t1 lat lon rad n s ch overwrite cache :
  emits_only fetcher_event (get_inventory E c t0 t1 lat lon rad n s ch overwrite cache).
Proof.
  unfold get_inventory.
  apply emits_only_bind; [apply emits_get_stationXML_filename | intros file].
  apply emits_only_bind; [apply emits_only_isfile | intros isfile].
  destruct (isfile && negb overwrite)%bool.
  - apply emits_only_bind; [apply emits_only_read_inventory; reflexivity |].
    intros; apply emits_only_ret.
  - apply emits_only_bind; [apply emits_only_try, emits_client_get_stations |].
    intros [inv |]; [| apply emits_only_ret].
    apply emits_only_bind; [| intros; apply emits_only_ret].
    destruct cache; [apply emits_only_inventory_write; reflexivity | apply emits_only_ret].
Qed.

Lemma emits_fetch_trace_id c t0 t1 acc id :
  emits_only fetcher_event (fetch_trace_id E c t0 t1 acc id).
Proof.
  unfold fetch_trace_id.
  destruct (str_split "." id) as [| n [| s [| l [| ch [| x rest]]]]];
    try apply emits_only_raise.
  apply emits_only_bind; [apply emits_only_try, emits_client_get_waveforms |].
  intros [this_st |]; [| apply emits_only_ret].
  destruct (stream_truthy this_st); [| apply emits_only_ret].
  apply emits_only_bind; [apply emits_only_try, emits_stream_merge |].
  intros [merged |]; [apply emits_only_ret |].
  apply emits_only_bind; [apply emits_stream_merge | intros; apply emits_only_ret].
Qed.

Lemma emits_fetch_trace_ids c t0 t1 ids acc :
  emits_only fetcher_event (fetch_trace_ids E c t0 t1 ids acc).
Proof.
  revert acc. induction ids as [| id ids IH]; intros acc; simpl.
  - apply emits_only_ret.
  - apply emits_only_bind; [apply emits_fetch_trace_id | intros; apply IH].
Qed.

(** The part of [get_stream] after the identifier loop. *)
Lemma emits_get_stream_tail (mseedfile : string) (cache : bool)
    (acc : Stream * option Stream) :
  @emits_only Stream fetcher_event
    (if negb (stream_truthy (fst acc)) then ret (fst acc)
     else
       merged <- try_ (stream_merge E (fst acc)) ;;
       st' <- match merged with
              | Some st' => ret st'
              | None =>
                  last_st <- load_local (snd acc) ;;
                  stream_merge E
                    (map (set_sampling_rate (nanmean (map sampling_rate last_st))) (fst acc))
              end ;;
       (if cache then stream_write st' mseedfile else ret tt) ;;
       ret st').
Proof.
  destruct (negb _); [apply emits_only_ret |].
  apply emits_only_bind; [apply emits_only_try, emits_stream_merge | intros merged].
  apply emits_only_bind.
  - destruct merged; [apply emits_only_ret |].
    apply emits_only_bind; [apply emits_only_load_local | intros; apply emits_stream_merge].
  - intros st'. apply emits_only_bind; [| intros; apply emits_only_ret].
    destruct cache; [apply emits_only_stream_write; reflexivity | apply emits_only_ret].
Qed.

Lemma emits_get_stream c ids t0 t1 overwrite cache :
  emits_only fetcher_event (get_stream E c ids t0 t1 overwrite cache).
Proof.
  unfold get_stream.
  apply emits_only_bind; [apply emits_get_MSEED_filename | intros file].
  apply emits_only_bind; [apply emits_only_isfile | intros isfile].
  destruct (isfile && negb overwrite)%bool.
  - apply emits_only_obspy_read; reflexivity.
  - apply emits_only_bind; [apply emits_fetch_trace_ids | intros acc].
    apply emits_get_stream_tail.
Qed.

(** An event logged by the first part of a call is still there at the end. *)
Lemma bind_keeps {A B} P (m : M A) (k : A -> M B) e w :
  In e (log (snd (m w))) -> (forall a, emits_only P (k a)) ->
  In e (log (snd (bind m k w))).
Proof.
  intros Hin Hk. unfold bind. destruct (m w) as [[a | x |] w']; simpl in *; auto.
  apply (emits_only_keeps P); auto.
Qed.

End FetcherFacts.

Section CacheHits.

Variable E : Env.

(** On a cache hit [get_stream] returns the stream stored in the cache
    file; the only event is the read of that file. *)
Lemma get_stream_cache_hit fdsnClient ids startt endt cache name st w :
  fs w !! CACHE_DIR = Some Dir ->
  MSEED_basename (pads_year E) startt endt ids = Some name ->
  fs w !! str (join_chars (chars CACHE_DIR) name) = Some (File (MiniSEED st)) ->
  get_stream E fdsnClient ids startt endt false cache w
  = (Ret st, record (EvReadStream (str (join_chars (chars CACHE_DIR) name))) w).
Proof.
  intros Hdir Hname Hfile.
  unfold get_stream, _get_MSEED_filename, bind.
  rewrite make_cache_dir_usable by (right; exact Hdir).
  unfold cache_dir_made. rewrite Hdir, Hname. simpl.
  unfold os_path_isfile, file_exists. rewrite Hfile. simpl.
  unfold obspy_read. rewrite Hfile. reflexivity.
Qed.

(** C1 (as the code behaves).  When the station-metadata cache file
    exists and [overwrite] is false, [get_inventory] reads the file,
    makes no remote request, and returns [None]: the inventory it has
    just deserialized is dropped, because the cache branch ends without
    a [return]. *)
Theorem get_inventory_cache_hit_returns_None
    fdsnClient startt endt lat lon rad network station channel cache name inv w :
  fs w !! CACHE_DIR = Some Dir ->
  stationXML_basename (pads_year E) startt endt lat lon rad = Some name ->
  fs w !! str (join_chars (chars CACHE_DIR) name) = Some (File (StationXML inv)) ->
  get_inventory E fdsnClient startt endt lat lon rad network station channel false cache w
  = (Ret None, record (EvReadInventory (str (join_chars (chars CACHE_DIR) name))) w).
Proof.
  intros Hdir Hname Hfile.
  unfold get_inventory, _get_stationXML_filename, bind.
  rewrite make_cache_dir_usable by (right; exact Hdir).
  unfold cache_dir_made. rewrite Hdir, Hname. simpl.
  unfold os_path_isfile, file_exists. rewrite Hfile. simpl.
  unfold read_inventory. rewrite Hfile. reflexivity.
Qed.

End CacheHits.

Lemma get_inventory_cache_hit_returns_None_witness :
  get_inventory Scenario.quiet_env Scenario.iris Scenario.t0 Scenario.t1
    (Some CacheScenario.lat0) (Some CacheScenario.lon0) (Some CacheScenario.rad0)
    "*" "*" "*" false false CacheScenario.warm_world
  = (Ret None, record (EvReadInventory CacheScenario.sml_path) CacheScenario.warm_world).
Proof.
  apply (get_inventory_cache_hit_returns_None Scenario.quiet_env Scenario.iris
           Scenario.t0 Scenario.t1 (Some CacheScenario.lat0) (Some CacheScenario.lon0)
           (Some CacheScenario.rad0) "*" "*" "*" false
           (chars "202311142213_202311152213_19.5000_-155.5000_1.00.SML")
           CacheScenario.cached_inventory CacheScenario.warm_world).
  - vm_compute. reflexivity.
  - vm_compute. reflexivity.
  - vm_compute. reflexivity.
Defined.

Section FetcherPreconditions.

Variable E : Env.


(** When the cache path is taken by a regular file the directory cannot
    be created, and that error comes first. *)
Lemma get_stream_blocked_cache_dir fdsnClient ids startt endt overwrite cache c w :
  fs w !! CACHE_DIR = Some (File c) ->
  get_stream E fdsnClient ids startt endt overwrite cache w = (Raise FileExistsError, w).
Proof.
  intros H. unfold get_stream, _get_MSEED_filename, bind.
  rewrite (make_cache_dir_blocked w c H). reflexivity.
Qed.


End FetcherPreconditions.





(** ** The wrappers of [wrappers.py] *)

Arguments utc_add : simpl never.
Arguments utc_sub : simpl never.
Arguments secsPerDay : simpl never.

Section WrapperFacts.

Variable E : Env.

Lemma load_unbound_RSAMobj w :
  load_global module_globals "RSAMobj" w = (Raise NameError, w).
Proof. reflexivity. Qed.

(** C9.  Called without a (non-empty) inventory on a non-empty time
    range, [SDS_to_ICEWEB_wrapper] raises in its first iteration: the
    raw-RSAM branch reads the local [sotw] before any assignment, an
    [UnboundLocalError], which is a [NameError].  Nothing has been read,
    written or logged by then: the world is the one the call started in. *)
Theorem ICEWEB_without_inventory_raises_NameError
    fuel startt endt SDS_TOP sourcelat sourcelon inv trace_ids overwrite verbose
    sgrammins subnet SGRAM_TOP w :
  inventory_truthy inv = false ->
  startt < endt ->
  SDS_to_ICEWEB_wrapper E (S fuel) startt endt SDS_TOP sourcelat sourcelon inv trace_ids
    overwrite verbose sgrammins subnet SGRAM_TOP w
    = (Raise UnboundLocalError, w)
  /\ is_NameError UnboundLocalError = true.
Proof.
  intros Hinv Hlt. split; [| reflexivity].
  unfold SDS_to_ICEWEB_wrapper, bind. simpl while_.
  unfold utc_ltb. simpl i_sod.
  destruct (Z.ltb_spec startt endt) as [_ | Hge]; [| lia].
  unfold bind, SDS_to_ICEWEB_day, if_inventory. rewrite Hinv. reflexivity.
Qed.

(** C4 (as the code behaves).  With [overwrite] set -- the default --
    [SDS_to_RSAM_wrapper] on a non-empty range stops in its first
    iteration: after the one archive read it looks up the bare name
    [RSAMobj], which the module never binds, and raises [NameError].
    The pointer is never advanced and no further day is visited. *)
Theorem SDS_to_RSAM_wrapper_raises_NameError
    fuel startt endt SDS_TOP sourcelat sourcelon inv trace_ids w :
  startt < endt ->
  SDS_to_RSAM_wrapper E (S fuel) startt endt SDS_TOP sourcelat sourcelon inv trace_ids true w
  = (Raise NameError,
     record (EvSDSRead SDS_TOP (utc_sub startt 3600)
               (utc_add (utc_add startt secsPerDay) 3600) 2 trace_ids) w).
Proof.
  intros Hlt.
  unfold SDS_to_RSAM_wrapper, bind. simpl while_.
  unfold utc_ltb.
  destruct (Z.ltb_spec startt endt) as [_ | Hge]; [| lia].
  unfold bind, SDS_to_RSAM_day, bind, SDS_read. simpl.
  rewrite orb_true_r. reflexivity.
Qed.

End WrapperFacts.

Lemma ICEWEB_without_inventory_raises_NameError_witness :
  SDS_to_ICEWEB_wrapper Scenario.quiet_env 3 Scenario.t0 Scenario.t2 "SDS" None None None
    None true false 10 None "." Scenario.empty_world
    = (Raise UnboundLocalError, Scenario.empty_world)
  /\ is_NameError UnboundLocalError = true.
Proof.
  apply (ICEWEB_without_inventory_raises_NameError Scenario.quiet_env 2 Scenario.t0
           Scenario.t2 "SDS" None None None None true false 10 None "."
           Scenario.empty_world).
  - reflexivity.
  - vm_compute. reflexivity.
Defined.

Lemma SDS_to_RSAM_wrapper_raises_NameError_witness :
  SDS_to_RSAM_wrapper Scenario.quiet_env 3 Scenario.t0 Scenario.t2 "SDS" None None None
    None true Scenario.empty_world
  = (Raise NameError,
     record (EvSDSRead "SDS" (utc_sub Scenario.t0 3600)
               (utc_add (utc_add Scenario.t0 secsPerDay) 3600) 2 None)
       Scenario.empty_world).
Proof.
  apply (SDS_to_RSAM_wrapper_raises_NameError Scenario.quiet_env 2 Scenario.t0 Scenario.t2
           "SDS" None None None None Scenario.empty_world).
  vm_compute. reflexivity.
Defined.

Section DayBranch.

Variable E : Env.

(** C3 (amended).  A day of [FDSN_to_SDS_daily_wrapper]:
    - when the archive read returns 0 and [overwrite] is unset, the day
      does nothing but the read and the advance of the pointer;
    - when the read returns a non-zero code or [overwrite] is set, and
      channel identifiers are at hand, the day fetches their waveforms
      with [get_stream] for that day and writes the result to the
      archive, then advances.
    A day of [SDS_to_RSAM_wrapper] has no fallback path:
    - when the read returns a non-zero code and [overwrite] is unset the
      day is skipped (read and advance only). *)
Theorem day_branch_conditions
    SDS_TOP centerlat centerlon searchRadiusDeg fdsnURL overwrite s
    sourcelat sourcelon inv trace_ids startt w :
  (fdsn_read_code E SDS_TOP s w = 0 -> overwrite = false ->
     FDSN_to_SDS_day E SDS_TOP centerlat centerlon searchRadiusDeg fdsnURL overwrite s w
     = (Ret (next_day s), record (fdsn_read_event SDS_TOP s) w))
  /\ (fdsn_read_code E SDS_TOP s w <> 0 \/ overwrite = true ->
      ids_truthy (f_trace_ids s) = true ->
      FDSN_to_SDS_day E SDS_TOP centerlat centerlon searchRadiusDeg fdsnURL overwrite s w
      = (st <- get_stream E fdsnURL (ids_list (f_trace_ids s)) (f_startt s)
                 (utc_add (f_startt s) secsPerDay) overwrite false ;;
         SDS_write E SDS_TOP st overwrite ;;
         ret (next_day s))
          (record (fdsn_read_event SDS_TOP s) w))
  /\ (rsam_read_code E SDS_TOP trace_ids startt w <> 0 -> overwrite = false ->
      SDS_to_RSAM_day E SDS_TOP sourcelat sourcelon inv trace_ids overwrite startt w
      = (Ret (utc_add startt secsPerDay),
         record (rsam_read_event SDS_TOP trace_ids startt) w)).
Proof.
  unfold fdsn_read_code, rsam_read_code, fdsn_read_event, rsam_read_event.
  repeat split.
  - intros Hrc ->.
    unfold FDSN_to_SDS_day, bind, SDS_read. simpl.
    rewrite Hrc. reflexivity.
  - intros Hcond Hids.
    unfold FDSN_to_SDS_day, bind at 1, SDS_read. simpl fst.
    assert (Hb : (negb (fst (sds_read E (archive w) SDS_TOP (f_startt s)
                               (utc_add (f_startt s) secsPerDay) None) =? 0)
                  || overwrite)%bool = true).
    { destruct Hcond as [Hrc | ->]; [| apply orb_true_r].
      apply Z.eqb_neq in Hrc. rewrite Hrc. reflexivity. }
    rewrite Hb.
    unfold FDSN_fallback. rewrite Hids. simpl negb. cbv iota.
    unfold bind, ret. simpl. rewrite ?Hids.
    destruct (get_stream E fdsnURL (ids_list (f_trace_ids s)) (f_startt s)
                (utc_add (f_startt s) secsPerDay) overwrite false
                (record (EvSDSRead SDS_TOP (f_startt s)
                           (utc_add (f_startt s) secsPerDay) 2 None) w))
      as [[st | e |] w1]; reflexivity.
  - intros Hrc ->.
    unfold SDS_to_RSAM_day, bind, SDS_read. simpl.
    apply Z.eqb_neq in Hrc. rewrite Hrc. reflexivity.
Qed.

End DayBranch.

(** C3 (counterexample).  A day of [SDS_to_RSAM_wrapper] whose archive
    read fails (code 1) with [overwrite] unset: the specification sends such a
    day down a fallback path that fetches fresh data and writes it back;
    the code only logs the read and moves on. *)
Lemma RSAM_day_failed_read_no_fallback :
  fst (sds_read Scenario.quiet_env [] "SDS" (utc_sub Scenario.t0 3600)
         (utc_add Scenario.t1 3600) None) = 1
  /\ SDS_to_RSAM_day Scenario.quiet_env "SDS" None None None None false Scenario.t0
       Scenario.empty_world
     = (Ret Scenario.t1,
        mkWorld ∅ []
          [EvSDSRead "SDS" (utc_sub Scenario.t0 3600) (utc_add Scenario.t1 3600) 2 None]).
Proof. split; vm_compute; reflexivity. Qed.

Lemma day_branch_conditions_witness :
  FDSN_to_SDS_day WrapperScenario.full_env "SDS" None None None Scenario.iris false
    (mkFdsnState Scenario.t0 (Some ["IU.POHA.00.BHZ"]) None) Scenario.empty_world
  = (Ret (mkFdsnState Scenario.t1 (Some ["IU.POHA.00.BHZ"]) None),
     record (EvSDSRead "SDS" Scenario.t0 Scenario.t1 2 None) Scenario.empty_world)
  /\ FDSN_to_SDS_day Scenario.quiet_env "SDS" None None None Scenario.iris false
       (mkFdsnState Scenario.t0 (Some ["IU.POHA.00.BHZ"]) None) Scenario.empty_world
     = (st <- get_stream Scenario.quiet_env Scenario.iris ["IU.POHA.00.BHZ"] Scenario.t0
                Scenario.t1 false false ;;
        SDS_write Scenario.quiet_env "SDS" st false ;;
        ret (mkFdsnState Scenario.t1 (Some ["IU.POHA.00.BHZ"]) None))
         (record (EvSDSRead "SDS" Scenario.t0 Scenario.t1 2 None) Scenario.empty_world)
  /\ SDS_to_RSAM_day Scenario.quiet_env "SDS" None None None None false Scenario.t0
       Scenario.empty_world
     = (Ret Scenario.t1,
        record (EvSDSRead "SDS" (utc_sub Scenario.t0 3600) (utc_add Scenario.t1 3600) 2 None)
          Scenario.empty_world).
Proof.
  split; [| split].
  - apply (proj1 (day_branch_conditions WrapperScenario.full_env "SDS" None None None
                    Scenario.iris false
                    (mkFdsnState Scenario.t0 (Some ["IU.POHA.00.BHZ"]) None)
                    None None None None Scenario.t0 Scenario.empty_world));
      reflexivity.
  - apply (proj1 (proj2 (day_branch_conditions Scenario.quiet_env "SDS" None None None
                    Scenario.iris false
                    (mkFdsnState Scenario.t0 (Some ["IU.POHA.00.BHZ"]) None)
                    None None None None Scenario.t0 Scenario.empty_world))).
    + left. vm_compute. discriminate.
    + reflexivity.
  - apply (proj2 (proj2 (day_branch_conditions Scenario.quiet_env "SDS" None None
                    None Scenario.iris false
                    (mkFdsnState Scenario.t0 None None)
                    None None None None Scenario.t0 Scenario.empty_world))).
    + vm_compute. discriminate.
    + reflexivity.
Defined.

Section DayLoops.

Variable E : Env.

Lemma fetcher_event_not_a_read e : fetcher_event e = true -> not_a_read e = true.
Proof. destruct e; simpl; intros H; (reflexivity || discriminate H). Qed.

Lemma emits_SDS_write top st overwrite : emits_only not_a_read (SDS_write E top st overwrite).
Proof. intros w. split; [discriminate |]. exists [EvSDSWrite top st overwrite]. auto. Qed.

Lemma emits_FDSN_fallback SDS_TOP lat lon rad url overwrite eod s :
  emits_only not_a_read (FDSN_fallback E SDS_TOP lat lon rad url overwrite eod s).
Proof.
  unfold FDSN_fallback. apply emits_only_bind.
  - destruct (negb _); [| apply emits_only_ret].
    destruct (if_inventory (f_inv s)); [apply emits_only_ret |].
    apply emits_only_bind.
    + apply (emits_only_weaken fetcher_event); [apply fetcher_event_not_a_read |].
      apply emits_get_inventory.
    + intros inv. destruct (if_inventory inv); apply emits_only_ret.
  - intros s1. apply emits_only_bind; [| intros; apply emits_only_ret].
    destruct (ids_truthy _); [| apply emits_only_ret].
    apply emits_only_bind; [| intros; apply emits_SDS_write].
    apply (emits_only_weaken fetcher_event); [apply fetcher_event_not_a_read |].
    apply emits_get_stream.
Qed.

(** The fallback branch leaves the day pointer alone. *)
Lemma FDSN_fallback_keeps_pointer SDS_TOP lat lon rad url overwrite eod s w s1 :
  fst (FDSN_fallback E SDS_TOP lat lon rad url overwrite eod s w) = Ret s1 ->
  f_startt s1 = f_startt s.
Proof.
  unfold FDSN_fallback, bind.
  destruct (negb (ids_truthy (f_trace_ids s))).
  - destruct (if_inventory (f_inv s)) as [i |].
    + cbn [ret f_trace_ids]. 
      destruct (if ids_truthy _ then _ else _) as [[u | e |] w1]; cbn [fst];
        intros [= <-] || discriminate. reflexivity.
    + destruct (get_inventory _ _ _ _ _ _ _ _ _ _ _ _ _) as [[inv | e |] w1];
        cbn [fst]; try discriminate.
      destruct (if_inventory inv) as [i |]; cbn [ret];
        destruct (if ids_truthy _ then _ else _) as [[u | e |] w2]; cbn [fst];
        (intros [= <-] || discriminate); reflexivity.
  - cbn [ret].
    destruct (if ids_truthy _ then _ else _) as [[u | e |] w1]; cbn [fst];
      intros [= <-] || discriminate. reflexivity.
Qed.

Lemma FDSN_to_SDS_day_unfold SDS_TOP lat lon rad url overwrite s w :
  FDSN_to_SDS_day E SDS_TOP lat lon rad url overwrite s w
  = if (negb (fdsn_read_code E SDS_TOP s w =? 0) || overwrite)%bool
    then match FDSN_fallback E SDS_TOP lat lon rad url overwrite
                 (utc_add (f_startt s) secsPerDay) s
                 (record (fdsn_read_event SDS_TOP s) w) with
         | (Ret s1, w2) => (Ret (next_day s1), w2)
         | (Raise e, w2) => (Raise e, w2)
         | (OutOfFuel, w2) => (OutOfFuel, w2)
         end
    else (Ret (next_day s), record (fdsn_read_event SDS_TOP s) w).
Proof.
  unfold FDSN_to_SDS_day, fdsn_read_code, fdsn_read_event, bind, SDS_read. cbn [fst snd].
  destruct (negb _ || overwrite)%bool; [| reflexivity].
  destruct (FDSN_fallback _ _ _ _ _ _ _ _ _ _) as [[s1 | e |] w2]; reflexivity.
Qed.

(** Every day of [FDSN_to_SDS_daily_wrapper] reads the archive exactly
    once, and a day that comes to its end has moved the pointer by
    [secsPerDay], whether or not the fallback ran. *)
Lemma FDSN_to_SDS_day_steps SDS_TOP lat lon rad url overwrite s w :
  fst (FDSN_to_SDS_day E SDS_TOP lat lon rad url overwrite s w) <> OutOfFuel
  /\ count is_sds_read (log (snd (FDSN_to_SDS_day E SDS_TOP lat lon rad url overwrite s w)))
     = S (count is_sds_read (log w))
  /\ forall s', fst (FDSN_to_SDS_day E SDS_TOP lat lon rad url overwrite s w) = Ret s' ->
                f_startt s' = utc_add (f_startt s) secsPerDay.
Proof.
  rewrite FDSN_to_SDS_day_unfold.
  set (w1 := record _ w).
  set (eod := utc_add (f_startt s) secsPerDay).
  destruct (negb _ || overwrite)%bool.
  - pose proof (emits_FDSN_fallback SDS_TOP lat lon rad url overwrite eod s w1) as [Hf _].
    pose proof (emits_only_count not_a_read is_sds_read _ w1
                  (emits_FDSN_fallback SDS_TOP lat lon rad url overwrite eod s)) as Hc.
    pose proof (FDSN_fallback_keeps_pointer SDS_TOP lat lon rad url overwrite eod s w1) as Hp.
    assert (Hnr : forall e, not_a_read e = true -> is_sds_read e = false).
    { intros e. unfold not_a_read. destruct (is_sds_read e); simpl; congruence. }
    specialize (Hc Hnr).
    destruct (FDSN_fallback E SDS_TOP lat lon rad url overwrite eod s w1) as [[s1 | e |] w2];
      cbn [fst snd] in *.
    + split; [discriminate |]. split; [exact Hc |].
      intros s' [= <-]. unfold next_day. cbn [f_startt]. rewrite (Hp s1 eq_refl). reflexivity.
    + split; [discriminate |]. split; [exact Hc | discriminate].
    + congruence.
  - cbn [fst snd].
    split; [discriminate |]. split; [reflexivity |].
    intros s' [= <-]. reflexivity.
Qed.

(** A day loop whose body reads the archive once and moves the pointer
    by one day runs, over a range of [N] whole days, exactly [N] times
    unless an exception leaves it early: it ends with the pointer on the
    end time after [N] reads, or it raises during one of the [N] days. *)
Lemma day_loop_iterations {S : Type} (ptr : S -> UTCDateTime) (body : S -> M S) endt :
  (forall s w,
      fst (body s w) <> OutOfFuel
      /\ count is_sds_read (log (snd (body s w))) = Datatypes.S (count is_sds_read (log w))
      /\ forall s', fst (body s w) = Ret s' -> ptr s' = utc_add (ptr s) secsPerDay) ->
  forall (N fuel : nat) s w,
    utc_add (ptr s) (Z.of_nat N * secsPerDay) = endt -> (N < fuel)%nat ->
    match while_ fuel (fun s => utc_ltb (ptr s) endt) body s w with
    | (Ret s', w') =>
        ptr s' = endt /\ count is_sds_read (log w') = (N + count is_sds_read (log w))%nat
    | (Raise _, w') =>
        exists k, (1 <= k <= N)%nat
                  /\ count is_sds_read (log w') = (k + count is_sds_read (log w))%nat
    | (OutOfFuel, _) => False
    end.
Proof.
  intros Hbody. induction N as [| N IH]; intros fuel s w Hend Hfuel.
  - destruct fuel as [| fuel]; [lia |]. cbn [while_]. unfold utc_ltb.
    unfold utc_add, secsPerDay, ns_per_sec in Hend.
    destruct (Z.ltb_spec (ptr s) endt); [lia |].
    unfold ret. split; [lia | reflexivity].
  - destruct fuel as [| fuel]; [lia |]. cbn [while_]. unfold utc_ltb.
    assert (Hlt : ptr s < endt).
    { unfold utc_add, secsPerDay, ns_per_sec in Hend. lia. }
    destruct (Z.ltb_spec (ptr s) endt); [| lia].
    destruct (Hbody s w) as (Hf & Hc & Hp). unfold bind.
    destruct (body s w) as [[s1 | e |] w1]; cbn [fst snd] in *.
    + specialize (IH fuel s1 w1).
      assert (Hend1 : utc_add (ptr s1) (Z.of_nat N * secsPerDay) = endt).
      { rewrite (Hp s1 eq_refl). revert Hend.
        unfold utc_add, secsPerDay, ns_per_sec. lia. }
      specialize (IH Hend1 ltac:(lia)).
      change (while_ fuel (fun s0 : S => utc_ltb (ptr s0) endt) body s1 w1)
        with (while_ fuel (fun s0 : S => ptr s0 <? endt) body s1 w1) in IH.
      destruct (while_ fuel (fun s0 : S => ptr s0 <? endt) body s1 w1) as [[s2 | e |] w2].
      * destruct IH as [Hptr Hcount]. split; [exact Hptr | lia].
      * destruct IH as [k [Hk Hcount]]. exists (Datatypes.S k). split; lia.
      * exact IH.
    + exists 1%nat. split; lia.
    + congruence.
Qed.

(** [FDSN_to_SDS_daily_wrapper] over [N] whole days: [N] iterations with
    one archive read each, unless an exception from the fallback path
    ends the run during one of them. *)
Lemma FDSN_to_SDS_daily_wrapper_days
    (N fuel : nat) startt SDS_TOP lat lon rad trace_ids url overwrite inv w :
  (N < fuel)%nat ->
  match FDSN_to_SDS_daily_wrapper E fuel startt (utc_add startt (Z.of_nat N * secsPerDay))
          SDS_TOP lat lon rad trace_ids url overwrite inv w with
  | (Ret _, w') => count is_sds_read (log w') = (N + count is_sds_read (log w))%nat
  | (Raise _, w') =>
      exists k, (1 <= k <= N)%nat
                /\ count is_sds_read (log w') = (k + count is_sds_read (log w))%nat
  | (OutOfFuel, _) => False
  end.
Proof.
  intros Hfuel. unfold FDSN_to_SDS_daily_wrapper, bind.
  pose proof (day_loop_iterations f_startt
                (FDSN_to_SDS_day E SDS_TOP lat lon rad url overwrite)
                (utc_add startt (Z.of_nat N * secsPerDay))
                (FDSN_to_SDS_day_steps SDS_TOP lat lon rad url overwrite)
                N fuel (mkFdsnState startt trace_ids inv) w eq_refl Hfuel) as H.
  destruct (while_ fuel _ _ _ w) as [[s' | e |] w']; cbn [ret].
  - apply H.
  - exact H.
  - exact H.
Qed.

End DayLoops.

Section SpectrogramWindows.

Variable E : Env.

(** A window of the ICEWEB loop whose trimmed stream is empty, or whose
    first trace has at most 1000 samples, changes nothing. *)
Lemma ICEWEB_window_short VEL overwrite sgrammins subnet SGRAM_TOP v w :
  match trim E VEL (v_sotw v) (utc_add (v_sotw v) (sgrammins * 60)) with
  | [] => True
  | tr0 :: _ => npts tr0 <= 1000
  end ->
  ICEWEB_window E VEL overwrite sgrammins subnet SGRAM_TOP v w
  = (Ret (next_window sgrammins v), w).
Proof.
  intros H. unfold ICEWEB_window.
  destruct (trim E VEL _ _) as [| tr0 rest]; [reflexivity |].
  destruct (Z.ltb_spec 1000 (npts tr0)); [lia | reflexivity].
Qed.

(** A long enough window whose image exists is left alone when
    [overwrite] is unset. *)
Lemma ICEWEB_window_existing VEL sgrammins subnet SGRAM_TOP v w tr0 rest :
  trim E VEL (v_sotw v) (utc_add (v_sotw v) (sgrammins * 60)) = tr0 :: rest ->
  1000 < npts tr0 ->
  dir_exists w (ICEWEB_sgramdir E SGRAM_TOP tr0 (v_sotw v)) = true ->
  file_exists w (ICEWEB_sgramfile E SGRAM_TOP subnet tr0 (v_sotw v)) = true ->
  ICEWEB_window E VEL false sgrammins subnet SGRAM_TOP v w
  = (Ret (next_window sgrammins v), w).
Proof.
  intros Htrim Hlong Hdir Hfile. unfold ICEWEB_window. rewrite Htrim.
  destruct (Z.ltb_spec 1000 (npts tr0)); [| lia].
  unfold bind, os_path_isdir, os_path_isfile. rewrite Hdir. wsimpl.
  rewrite Hfile. reflexivity.
Qed.

(** Every other long enough window is rendered. *)
Lemma ICEWEB_window_rendered VEL overwrite sgrammins subnet SGRAM_TOP v w tr0 rest :
  trim E VEL (v_sotw v) (utc_add (v_sotw v) (sgrammins * 60)) = tr0 :: rest ->
  1000 < npts tr0 ->
  fs w !! ICEWEB_sgramdir E SGRAM_TOP tr0 (v_sotw v) = Some Dir
    \/ fs w !! ICEWEB_sgramdir E SGRAM_TOP tr0 (v_sotw v) = None ->
  overwrite = true
    \/ file_exists w (ICEWEB_sgramfile E SGRAM_TOP subnet tr0 (v_sotw v)) = false ->
  ICEWEB_window E VEL overwrite sgrammins subnet SGRAM_TOP v w
  = (Ret (next_window sgrammins v),
     rendered (ICEWEB_sgramdir E SGRAM_TOP tr0 (v_sotw v))
              (ICEWEB_sgramfile E SGRAM_TOP subnet tr0 (v_sotw v)) w).
Proof.
  intros Htrim Hlong Hdir Hfile. unfold ICEWEB_window. rewrite Htrim.
  destruct (Z.ltb_spec 1000 (npts tr0)); [| lia].
  unfold rendered, bind, os_path_isdir, os_path_isfile, os_makedirs, os_mkdir, dir_exists.
  destruct Hdir as [Hd | Hd]; rewrite Hd; wsimpl.
  - destruct Hfile as [-> | ->]; [rewrite orb_true_r |]; reflexivity.
  - rewrite Hd. wsimpl.
    destruct Hfile as [-> | Hf]; [rewrite orb_true_r; reflexivity |].
    assert (Hf' : file_exists
                    (record (EvMkdir (ICEWEB_sgramdir E SGRAM_TOP tr0 (v_sotw v)))
                       (with_fs (<[ICEWEB_sgramdir E SGRAM_TOP tr0 (v_sotw v) := Dir]> (fs w)) w))
                    (ICEWEB_sgramfile E SGRAM_TOP subnet tr0 (v_sotw v)) = false).
    { unfold file_exists in *. wsimpl. rewrite lookup_insert.
      destruct (decide _); [reflexivity | exact Hf]. }
    rewrite Hf'. reflexivity.
Qed.

(** [SDS_to_spectrogram_wrapper]: once the stream of the window is there
    and is not empty, only the file test decides. *)
Lemma spectrogram_window_existing SDS_TOP trace_ids windowlength inv sotw w tr0 rest w1 :
  spectrogram_window_stream E SDS_TOP trace_ids windowlength inv sotw w
    = (Ret (tr0 :: rest), w1) ->
  file_exists w1 (spectrogram_sgramfile E tr0 sotw) = true ->
  spectrogram_window E SDS_TOP trace_ids windowlength false inv sotw w
  = (Ret (utc_add sotw windowlength), w1).
Proof.
  intros Hst Hfile. unfold spectrogram_window, bind. rewrite Hst.
  unfold os_path_isfile. rewrite Hfile. reflexivity.
Qed.

Lemma spectrogram_window_rendered
    SDS_TOP trace_ids windowlength overwrite inv sotw w tr0 rest w1 :
  spectrogram_window_stream E SDS_TOP trace_ids windowlength inv sotw w
    = (Ret (tr0 :: rest), w1) ->
  overwrite = true \/ file_exists w1 (spectrogram_sgramfile E tr0 sotw) = false ->
  spectrogram_window E SDS_TOP trace_ids windowlength overwrite inv sotw w
  = (Ret (utc_add sotw windowlength),
     record (EvPlot (spectrogram_sgramfile E tr0 sotw))
       (with_fs (<[spectrogram_sgramfile E tr0 sotw := File Image]> (fs w1)) w1)).
Proof.
  intros Hst Hfile. unfold spectrogram_window, bind. rewrite Hst.
  unfold os_path_isfile.
  destruct Hfile as [-> | ->]; [rewrite orb_true_r |]; reflexivity.
Qed.

(** Without an inventory the stream of the window is what the archive
    read loaded. *)
Lemma spectrogram_window_stream_plain SDS_TOP trace_ids windowlength inv sotw w :
  inventory_truthy inv = false ->
  spectrogram_window_stream E SDS_TOP trace_ids windowlength inv sotw w
  = (Ret (snd (sds_read E (archive w) SDS_TOP sotw (utc_add sotw windowlength) trace_ids)),
     record (EvSDSRead SDS_TOP sotw (utc_add sotw windowlength) 2 trace_ids) w).
Proof.
  intros Hinv. unfold spectrogram_window_stream, if_inventory. rewrite Hinv. reflexivity.
Qed.


End SpectrogramWindows.


(** In [SDS_to_spectrogram_wrapper] a window of five samples is rendered. *)
Lemma short_window_rendered_by_spectrogram_wrapper :
  spectrogram_window WrapperScenario.full_env "SDS" None 600 false None Scenario.t0
    Scenario.empty_world
  = (Ret (utc_add Scenario.t0 600),
     mkWorld {[ "IU.20231114T221320.png" := File Image ]} []
       [EvPlot "IU.20231114T221320.png";
        EvSDSRead "SDS" Scenario.t0 (utc_add Scenario.t0 600) 2 None]).
Proof. vm_compute. reflexivity. Qed.


(** ** Merging segments with different sampling rates *)

Section IdentifierLoop.

Variable E : Env.

(** A remote query that fails costs its identifier only: the collection
    gathered so far is kept as it is, [this_st] becomes the empty stream
    and the loop goes on. *)
Lemma failed_query_is_isolated client startt endt st this_st trace_id n s l c w :
  str_split "." trace_id = [n; s; l; c] ->
  get_waveforms E client (mkWaveformQuery n s l c startt endt true) = None ->
  fetch_trace_id E client startt endt (st, this_st) trace_id w
  = (Ret (st, Some []),
     record (EvGetWaveforms client (mkWaveformQuery n s l c startt endt true)) w).
Proof.
  intros Hsplit Hfail. unfold fetch_trace_id. rewrite Hsplit.
  unfold client_get_waveforms. wsimpl. rewrite Hfail. reflexivity.
Qed.

(** An identifier whose segments merge at once is appended to the
    collection. *)
Lemma merged_identifier_is_appended
    client startt endt st this_st trace_id n s l c got merged w :
  str_split "." trace_id = [n; s; l; c] ->
  get_waveforms E client (mkWaveformQuery n s l c startt endt true) = Some got ->
  stream_truthy got = true ->
  merge E 0 1 got = Some merged ->
  fetch_trace_id E client startt endt (st, this_st) trace_id w
  = (Ret (st ++ merged, Some merged),
     record (EvGetWaveforms client (mkWaveformQuery n s l c startt endt true)) w).
Proof.
  intros Hsplit Hgot Htruthy Hmerge. unfold fetch_trace_id. rewrite Hsplit.
  unfold client_get_waveforms. wsimpl. rewrite Hgot. wsimpl. rewrite Htruthy.
  unfold stream_merge. wsimpl. rewrite Hmerge. reflexivity.
Qed.

(** An identifier whose segments merge only after the sampling rates
    have been set to their mean is repaired in [this_st] -- and then not
    appended: the collection is what it was. *)
Lemma repaired_identifier_is_not_appended
    client startt endt st this_st trace_id n s l c got merged w :
  str_split "." trace_id = [n; s; l; c] ->
  get_waveforms E client (mkWaveformQuery n s l c startt endt true) = Some got ->
  stream_truthy got = true ->
  merge E 0 1 got = None ->
  merge E 0 1 (map (set_sampling_rate (nanmean (map sampling_rate got))) got) = Some merged ->
  fetch_trace_id E client startt endt (st, this_st) trace_id w
  = (Ret (st, Some merged),
     record (EvGetWaveforms client (mkWaveformQuery n s l c startt endt true)) w).
Proof.
  intros Hsplit Hgot Htruthy Hfail Hmerge. unfold fetch_trace_id. rewrite Hsplit.
  unfold client_get_waveforms. wsimpl. rewrite Hgot. wsimpl. rewrite Htruthy.
  unfold stream_merge. wsimpl. rewrite Hfail. wsimpl. rewrite Hmerge. reflexivity.
Qed.

End IdentifierLoop.

(** C2 (as the code behaves).  Two segments of one channel at 100 Hz and
    50 Hz do not merge as they are, and the mean of their rates is 75 Hz.
    - Whole-collection pass: when the two segments arrive under two
      requested identifiers, the repair takes its mean over [this_st],
      the result of the last identifier alone: the merged segment comes
      back at 50 Hz, not 75 Hz (its one-second gap zero-filled at that
      rate).
    - Per-identifier pass: when both segments arrive under one
      identifier, they are repaired to 75 Hz and merged, but the repaired
      stream is never added to the collection: the call returns an empty
      collection. *)
Theorem repair_takes_rates_of_last_identifier :
  merge_ref 0 [MergeScenario.tr_fast; MergeScenario.tr_slow] = None
  /\ nanmean (map sampling_rate [MergeScenario.tr_fast; MergeScenario.tr_slow])
     = float_of_Z 75
  /\ fst (get_stream (MergeScenario.env true) Scenario.iris
            ["XX.AAA..HHZ"; "XX.AAA.*.HHZ"] Scenario.t0 Scenario.t1 false false
            Scenario.cache_world)
     = Ret [mkTrace "XX" "AAA" "" "HHZ" (float_of_Z 50) Scenario.t0
              ([1; 2; 3] ++ repeat 0 47%nat ++ [4; 5])]
  /\ fst (get_stream (MergeScenario.env true) Scenario.iris
            ["XX.AAA.??.HHZ"] Scenario.t0 Scenario.t1 false false Scenario.cache_world)
     = Ret [].
Proof. repeat split; vm_compute; reflexivity. Qed.

(** C6 (as the code behaves).  Three identifiers; the first two bring
    the 100 Hz and the 50 Hz segment, so the whole-collection merge needs
    its repair.  When the query for the third identifier fails,
    [this_st] is the empty stream, the mean of no rates is NaN, and the
    retried merge raises: nothing is returned.  When the same query
    succeeds, the call returns (with every segment set to the third
    identifier's 20 Hz). *)
Theorem failed_last_query_loses_the_collection :
  fst (get_stream (MergeScenario.env false) Scenario.iris
         ["XX.AAA..HHZ"; "XX.AAA.*.HHZ"; "XX.BBB..HHZ"] Scenario.t0 Scenario.t1
         false false Scenario.cache_world)
  = Raise LibraryError
  /\ fst (get_stream (MergeScenario.env true) Scenario.iris
            ["XX.AAA..HHZ"; "XX.AAA.*.HHZ"; "XX.BBB..HHZ"] Scenario.t0 Scenario.t1
            false false Scenario.cache_world)
     = Ret [mkTrace "XX" "AAA" "" "HHZ" (float_of_Z 20) Scenario.t0
              ([1; 2; 3] ++ repeat 0 17%nat ++ [4; 5]);
            mkTrace "XX" "BBB" "" "HHZ" (float_of_Z 20) Scenario.t0 [7; 8]].
Proof. split; vm_compute; reflexivity. Qed.

(** ** Cache file names *)

Section Digits.

Lemma str_inj a b : str a = str b -> a = b.
Proof.
  intros H. apply (f_equal String.list_ascii_of_string) in H.
  unfold str in H. now rewrite !String.list_ascii_of_string_of_list_ascii in H.
Qed.

Lemma chars_inj a b : chars a = chars b -> a = b.
Proof.
  intros H. apply (f_equal String.string_of_list_ascii) in H.
  unfold chars in H. now rewrite !String.string_of_list_ascii_of_string in H.
Qed.

Lemma digit_cases d : 0 <= d <= 9 ->
  d = 0 \/ d = 1 \/ d = 2 \/ d = 3 \/ d = 4 \/ d = 5 \/ d = 6 \/ d = 7 \/ d = 8 \/ d = 9.
Proof. lia. Qed.

Lemma digit_is_digit d : 0 <= d <= 9 -> is_digit (digit d) = true.
Proof.
  intros H. destruct (digit_cases d H) as [-> | [-> | [-> | [-> | [-> | [-> | [-> | [-> | [-> | ->]]]]]]]]];
    reflexivity.
Qed.

Lemma digit_inj a b : 0 <= a <= 9 -> 0 <= b <= 9 -> digit a = digit b -> a = b.
Proof.
  intros Ha Hb H.
  destruct (digit_cases a Ha) as [-> | [-> | [-> | [-> | [-> | [-> | [-> | [-> | [-> | ->]]]]]]]]];
    destruct (digit_cases b Hb) as [-> | [-> | [-> | [-> | [-> | [-> | [-> | [-> | [-> | ->]]]]]]]]];
    (reflexivity || (exfalso; vm_compute in H; discriminate H)).
Qed.

Lemma fixed_digits_S w n :
  fixed_digits (S w) n = fixed_digits w (n / 10) ++ [digit (n mod 10)].
Proof. reflexivity. Qed.

Lemma fixed_digits_length w n : length (fixed_digits w n) = w.
Proof.
  revert n. induction w as [| w IH]; intros n; [reflexivity |].
  rewrite fixed_digits_S, List.length_app, IH. cbn [length]. lia.
Qed.

Lemma fixed_digits_are_digits w n : forallb is_digit (fixed_digits w n) = true.
Proof.
  revert n. induction w as [| w IH]; intros n; [reflexivity |].
  rewrite fixed_digits_S, forallb_app, IH. cbn [forallb andb].
  rewrite digit_is_digit; [reflexivity |].
  pose proof (Z.mod_pos_bound n 10). lia.
Qed.

Lemma fixed_digits_inj w a b :
  0 <= a < 10 ^ Z.of_nat w -> 0 <= b < 10 ^ Z.of_nat w ->
  fixed_digits w a = fixed_digits w b -> a = b.
Proof.
  revert a b. induction w as [| w IH]; intros a b Ha Hb H.
  - simpl in Ha, Hb. lia.
  - rewrite !fixed_digits_S in H. apply app_inj_tail in H as [Hhigh Hlow].
    pose proof (Z.mod_pos_bound a 10). pose proof (Z.mod_pos_bound b 10).
    apply digit_inj in Hlow; [| lia | lia].
    rewrite Nat2Z.inj_succ, Z.pow_succ_r in Ha, Hb by lia.
    assert (a / 10 = b / 10).
    { apply IH; [| | exact Hhigh]; split;
        try (apply Z.div_pos; lia); apply Z.div_lt_upper_bound; lia. }
    rewrite (Z.div_mod a 10), (Z.div_mod b 10) by lia. congruence.
Qed.

Lemma uint_chars_are_digits d :
  forallb is_digit (chars (NilEmpty.string_of_uint d)) = true.
Proof. induction d; simpl; auto. Qed.

Lemma dec_digits_are_digits n : forallb is_digit (dec_digits n) = true.
Proof.
  unfold dec_digits, NilZero.string_of_uint.
  destruct (N.to_uint (Z.to_N n)) eqn:Hd; try reflexivity;
    rewrite <- Hd; apply uint_chars_are_digits.
Qed.

Lemma N_to_uint_nonnil n : N.to_uint n <> Decimal.Nil.
Proof.
  destruct n as [| p]; simpl; [discriminate | apply DecimalPos.Unsigned.to_uint_nonnil].
Qed.

Lemma dec_digits_inj a b : 0 <= a -> 0 <= b -> dec_digits a = dec_digits b -> a = b.
Proof.
  intros Ha Hb H. unfold dec_digits in H. apply chars_inj in H.
  assert (Hu : Some (N.to_uint (Z.to_N a)) = Some (N.to_uint (Z.to_N b))).
  { rewrite <- (NilZero.usu _ (N_to_uint_nonnil (Z.to_N a))).
    rewrite <- (NilZero.usu _ (N_to_uint_nonnil (Z.to_N b))).
    now rewrite H. }
  injection Hu as Hu. apply DecimalN.Unsigned.to_uint_inj in Hu.
  lia.
Qed.

Lemma dec_digits_nonempty n : dec_digits n <> [].
Proof.
  unfold dec_digits, NilZero.string_of_uint.
  pose proof (N_to_uint_nonnil (Z.to_N n)) as Hn.
  destruct (N.to_uint (Z.to_N n)); try congruence; discriminate.
Qed.

(** Two texts that agree, each cut at a separator its head does not
    contain, agree piece by piece. *)
Lemma cut_at_separator (ok : ascii -> bool) sep a b x y :
  ok sep = false -> forallb ok a = true -> forallb ok b = true ->
  a ++ sep :: x = b ++ sep :: y -> a = b /\ x = y.
Proof.
  intros Hsep. revert b. induction a as [| c a IH]; intros [| c' b] Ha Hb H; simpl in *.
  - injection H as H. auto.
  - injection H as Hc H. subst c'. apply andb_true_iff in Hb as [Hb _]. congruence.
  - injection H as Hc H. subst c. apply andb_true_iff in Ha as [Ha _]. congruence.
  - injection H as Hc H. subst c'.
    apply andb_true_iff in Ha as [_ Ha]. apply andb_true_iff in Hb as [_ Hb].
    destruct (IH b Ha Hb H) as [-> ->]. auto.
Qed.

Lemma forallb_weaken {A} (P Q : A -> bool) l :
  (forall x, P x = true -> Q x = true) -> forallb P l = true -> forallb Q l = true.
Proof. intros HPQ. rewrite !forallb_forall. auto. Qed.

(** Texts of equal length in front of equal-length tails. *)
Lemma app_inj_length {A} (a b x y : list A) :
  length x = length y -> a ++ x = b ++ y -> a = b /\ x = y.
Proof.
  intros Hlen H.
  assert (Hab : length a = length b).
  { apply (f_equal (@length A)) in H. rewrite !List.length_app in H. lia. }
  revert b Hab H. induction a as [| c a IH]; intros [| c' b] Hab H; simpl in *;
    try discriminate; auto.
  injection H as -> H. injection Hab as Hab.
  destruct (IH b Hab H) as [-> ->]. auto.
Qed.

End Digits.

Section Calendar.

(** The fields of a day of the era are in range and lead back to it. *)
Lemma doe_fields_ok doe : 0 <= doe < 146097 ->
  match doe_fields doe with
  | (yoe, m, d) => 0 <= yoe <= 399 /\ 1 <= m <= 12 /\ 1 <= d <= 31 /\ doe_of yoe m d = doe
  end.
Proof.
  intros H. unfold doe_fields, doe_of.
  set (yoe := (doe - doe / 1460 + doe / 36524 - doe / 146096) / 365).
  set (doy := doe - (365 * yoe + yoe / 4 - yoe / 100)).
  assert (Hy : 0 <= yoe <= 399 /\ 0 <= doy <= 365).
  { subst doy yoe. Z.to_euclidean_division_equations; lia. }
  set (mp := (5 * doy + 2) / 153).
  assert (Hmp : 0 <= mp <= 11 /\ 1 <= doy - (153 * mp + 2) / 5 + 1 <= 31).
  { subst mp. Z.to_euclidean_division_equations; lia. }
  destruct (Z.ltb_spec mp 10).
  - destruct (Z.ltb_spec 2 (mp + 3)); [| lia].
    replace (mp + 3 - 3) with mp by lia. subst doy. lia.
  - destruct (Z.ltb_spec 2 (mp - 9)); [lia |].
    replace (mp - 9 + 9) with mp by lia. subst doy. lia.
Qed.

Lemma civil_from_days_fields z :
  civil_from_days z =
  match doe_fields ((z + 719468) mod 146097) with
  | (yoe, m, d) =>
      (if m <=? 2 then yoe + (z + 719468) / 146097 * 400 + 1
       else yoe + (z + 719468) / 146097 * 400, m, d)
  end.
Proof. reflexivity. Qed.

(** [days_from_civil] undoes [civil_from_days]; months and days are in
    their calendar ranges. *)
Lemma civil_roundtrip z :
  match civil_from_days z with
  | (y, m, d) => days_from_civil y m d = z /\ 1 <= m <= 12 /\ 1 <= d <= 31
  end.
Proof.
  rewrite civil_from_days_fields.
  pose proof (Z.mod_pos_bound (z + 719468) 146097 ltac:(lia)) as Hdoe.
  pose proof (doe_fields_ok _ Hdoe) as Hok.
  pose proof (Z.div_mod (z + 719468) 146097 ltac:(lia)) as Hz.
  set (era := (z + 719468) / 146097) in *.
  set (doe := (z + 719468) mod 146097) in *.
  destruct (doe_fields doe) as [[yoe m] d].
  destruct Hok as (Hy & Hm & Hd & Hback).
  split; [| auto].
  unfold days_from_civil.
  assert (Hyear : (if m <=? 2
                   then (if m <=? 2 then yoe + era * 400 + 1 else yoe + era * 400) - 1
                   else (if m <=? 2 then yoe + era * 400 + 1 else yoe + era * 400))
                  = yoe + era * 400).
  { destruct (m <=? 2); lia. }
  rewrite Hyear.
  rewrite Z.div_add, Z.mod_add by lia.
  rewrite (Z.div_small yoe 400), (Z.mod_small yoe 400) by lia.
  unfold doe_of in Hback. lia.
Qed.

Lemma civil_from_days_inj a b : civil_from_days a = civil_from_days b -> a = b.
Proof.
  intros H. pose proof (civil_roundtrip a) as Ha. pose proof (civil_roundtrip b) as Hb.
  rewrite H in Ha. destruct (civil_from_days b) as [[y m] d].
  destruct Ha as [Ha _], Hb as [Hb _]. congruence.
Qed.

Lemma tm_mon_range t : 1 <= tm_mon t <= 12.
Proof.
  unfold tm_mon. pose proof (civil_roundtrip (epoch_days t)) as H.
  destruct (civil_from_days (epoch_days t)) as [[y m] d]. simpl. lia.
Qed.

Lemma tm_mday_range t : 1 <= tm_mday t <= 31.
Proof.
  unfold tm_mday. pose proof (civil_roundtrip (epoch_days t)) as H.
  destruct (civil_from_days (epoch_days t)) as [[y m] d]. simpl. lia.
Qed.

Lemma tm_hour_range t : 0 <= tm_hour t <= 23.
Proof.
  unfold tm_hour, second_of_day.
  pose proof (Z.mod_pos_bound (epoch_seconds t) 86400 ltac:(lia)).
  split; [apply Z.div_pos; lia |].
  assert (epoch_seconds t mod 86400 / 3600 < 24); [| lia].
  apply Z.div_lt_upper_bound; lia.
Qed.

Lemma tm_min_range t : 0 <= tm_min t <= 59.
Proof.
  unfold tm_min.
  pose proof (Z.mod_pos_bound (second_of_day t) 3600 ltac:(lia)).
  split; [apply Z.div_pos; lia |].
  assert (second_of_day t mod 3600 / 60 < 60); [| lia].
  apply Z.div_lt_upper_bound; lia.
Qed.

(** The minute a timestamp is printed in is its day, hour and minute. *)
Lemma printed_minute_fields t :
  printed_minute t = epoch_days t * 1440 + tm_hour t * 60 + tm_min t.
Proof.
  unfold printed_minute, epoch_days, tm_hour, tm_min, second_of_day.
  generalize (epoch_seconds t). intros s.
  pose proof (Z.div_mod s 86400 ltac:(lia)).
  pose proof (Z.mod_pos_bound s 86400 ltac:(lia)).
  pose proof (Z.div_mod (s mod 86400) 3600 ltac:(lia)).
  pose proof (Z.mod_pos_bound (s mod 86400) 3600 ltac:(lia)).
  pose proof (Z.div_mod ((s mod 86400) mod 3600) 60 ltac:(lia)).
  pose proof (Z.mod_pos_bound ((s mod 86400) mod 3600) 60 ltac:(lia)).
  symmetry. apply Z.div_unique with (r := (s mod 86400) mod 3600 mod 60); lia.
Qed.

(** Timestamps with the same calendar fields down to the minute are
    printed in the same minute. *)
Lemma same_fields_same_minute t1 t2 :
  tm_year t1 = tm_year t2 -> tm_mon t1 = tm_mon t2 -> tm_mday t1 = tm_mday t2 ->
  tm_hour t1 = tm_hour t2 -> tm_min t1 = tm_min t2 ->
  printed_minute t1 = printed_minute t2.
Proof.
  unfold tm_year, tm_mon, tm_mday. intros Hy Hm Hd Hh Hmin.
  rewrite !printed_minute_fields, Hh, Hmin.
  assert (epoch_days t1 = epoch_days t2); [| congruence].
  apply civil_from_days_inj.
  destruct (civil_from_days (epoch_days t1)) as [[y1 m1] d1].
  destruct (civil_from_days (epoch_days t2)) as [[y2 m2] d2].
  simpl in *. congruence.
Qed.

End Calendar.

Section TimeStamps.

Lemma fmt_Y_are_digits pad t : forallb is_digit (fmt_Y pad t) = true.
Proof.
  unfold fmt_Y. destruct pad; [apply fixed_digits_are_digits | apply dec_digits_are_digits].
Qed.

Lemma fmt_Y_nonempty pad t : fmt_Y pad t <> [].
Proof.
  unfold fmt_Y. destruct pad; [| apply dec_digits_nonempty].
  intros H. apply (f_equal (@length ascii)) in H. rewrite fixed_digits_length in H.
  discriminate.
Qed.

Lemma fmt_Y_inj pad t1 t2 :
  valid_time t1 -> valid_time t2 -> fmt_Y pad t1 = fmt_Y pad t2 -> tm_year t1 = tm_year t2.
Proof.
  unfold valid_time, fmt_Y. intros [_ H1] [_ H2] H. destruct pad.
  - apply (fixed_digits_inj 4); [| | exact H]; simpl; lia.
  - apply dec_digits_inj; [lia | lia | exact H].
Qed.

Lemma strftime_YmdHM_are_digits pad t : forallb is_digit (strftime_YmdHM pad t) = true.
Proof.
  unfold strftime_YmdHM.
  rewrite !forallb_app, fmt_Y_are_digits, !fixed_digits_are_digits. reflexivity.
Qed.

Lemma strftime_YmdHM_head pad t :
  exists c rest, strftime_YmdHM pad t = c :: rest /\ is_digit c = true.
Proof.
  pose proof (strftime_YmdHM_are_digits pad t) as Hd.
  pose proof (fmt_Y_nonempty pad t) as Hn.
  unfold strftime_YmdHM in *. destruct (fmt_Y pad t) as [| c y]; [congruence |].
  exists c. eexists. split; [reflexivity |].
  simpl in Hd. apply andb_true_iff in Hd as [Hc _]. exact Hc.
Qed.

(** Two timestamps printed alike by [%Y%m%d%H%M] are printed in the
    same minute. *)
Lemma strftime_YmdHM_minute pad t1 t2 :
  valid_time t1 -> valid_time t2 ->
  strftime_YmdHM pad t1 = strftime_YmdHM pad t2 ->
  printed_minute t1 = printed_minute t2.
Proof.
  intros V1 V2 H. unfold strftime_YmdHM in H.
  apply app_inj_length in H as [HY H];
    [| now rewrite !List.length_app, !fixed_digits_length].
  apply app_inj_length in H as [Hmon H];
    [| now rewrite !List.length_app, !fixed_digits_length].
  apply app_inj_length in H as [Hday H];
    [| now rewrite !List.length_app, !fixed_digits_length].
  apply app_inj_length in H as [Hhour Hmin];
    [| now rewrite !fixed_digits_length].
  pose proof (tm_mon_range t1). pose proof (tm_mon_range t2).
  pose proof (tm_mday_range t1). pose proof (tm_mday_range t2).
  pose proof (tm_hour_range t1). pose proof (tm_hour_range t2).
  pose proof (tm_min_range t1). pose proof (tm_min_range t2).
  apply same_fields_same_minute.
  - exact (fmt_Y_inj pad t1 t2 V1 V2 HY).
  - apply (fixed_digits_inj 2); [| | exact Hmon]; simpl; lia.
  - apply (fixed_digits_inj 2); [| | exact Hday]; simpl; lia.
  - apply (fixed_digits_inj 2); [| | exact Hhour]; simpl; lia.
  - apply (fixed_digits_inj 2); [| | exact Hmin]; simpl; lia.
Qed.

End TimeStamps.

Section FloatText.

Lemma fmt_f_finite p x :
  finite_float x ->
  fmt_f p x = sign_chars (float_sign x) ++ unsigned_f p (float_magnitude p x).
Proof. destruct x; simpl; intros H; try contradiction; reflexivity. Qed.

Lemma rounded_decimals_finite p x :
  rounded_decimals p x
  = if float_sign x then - float_magnitude p x else float_magnitude p x.
Proof. destruct x as [s | s | | s m e]; simpl; try destruct s; reflexivity. Qed.

Lemma pow10_pos p : 0 < pow10 p.
Proof. unfold pow10. apply Z.pow_pos_nonneg; lia. Qed.

Lemma round_half_even_div_nonneg a b : 0 <= a -> 0 < b -> 0 <= round_half_even_div a b.
Proof.
  intros Ha Hb. unfold round_half_even_div.
  pose proof (Z.div_pos a b Ha Hb).
  destruct (2 * (a mod b) ?= b); [destruct (Z.even (a / b)) | |]; lia.
Qed.

Lemma scaled_magnitude_nonneg p m e : 0 <= scaled_magnitude p m e.
Proof.
  unfold scaled_magnitude. pose proof (pow10_pos p).
  destruct (Z.leb_spec 0 e).
  - assert (0 < 2 ^ e) by (apply Z.pow_pos_nonneg; lia). nia.
  - apply round_half_even_div_nonneg; [nia | apply Z.pow_pos_nonneg; lia].
Qed.

Lemma float_magnitude_nonneg p x : 0 <= float_magnitude p x.
Proof. destruct x; simpl; try lia. apply scaled_magnitude_nonneg. Qed.

Lemma is_digit_field_char c : is_digit c = true -> field_char c = true.
Proof. unfold field_char. intros ->. reflexivity. Qed.

Lemma unsigned_f_chars p n :
  unsigned_f p n = dec_digits (n / pow10 p) ++ "."%char :: fixed_digits p (n mod pow10 p).
Proof. reflexivity. Qed.

Lemma unsigned_f_field_chars p n : forallb field_char (unsigned_f p n) = true.
Proof.
  rewrite unsigned_f_chars, forallb_app. cbn [forallb].
  rewrite (forallb_weaken _ _ _ is_digit_field_char (dec_digits_are_digits _)).
  rewrite (forallb_weaken _ _ _ is_digit_field_char (fixed_digits_are_digits _ _)).
  reflexivity.
Qed.

Lemma unsigned_f_head p n :
  exists c rest, unsigned_f p n = c :: rest /\ is_digit c = true.
Proof.
  rewrite unsigned_f_chars.
  pose proof (dec_digits_are_digits (n / pow10 p)) as Hd.
  pose proof (dec_digits_nonempty (n / pow10 p)) as Hn.
  destruct (dec_digits (n / pow10 p)) as [| c y]; [congruence |].
  exists c. eexists. split; [reflexivity |].
  simpl in Hd. apply andb_true_iff in Hd as [Hc _]. exact Hc.
Qed.

Lemma unsigned_f_inj p a b : 0 <= a -> 0 <= b -> unsigned_f p a = unsigned_f p b -> a = b.
Proof.
  intros Ha Hb H. rewrite !unsigned_f_chars in H.
  pose proof (pow10_pos p) as Hp.
  apply (cut_at_separator is_digit) in H as [Hint Hfrac];
    [| reflexivity | apply dec_digits_are_digits | apply dec_digits_are_digits].
  apply dec_digits_inj in Hint; [| apply Z.div_pos; lia | apply Z.div_pos; lia].
  apply fixed_digits_inj in Hfrac;
    [| apply Z.mod_pos_bound; exact Hp | apply Z.mod_pos_bound; exact Hp].
  rewrite (Z.div_mod a (pow10 p)), (Z.div_mod b (pow10 p)) by lia. congruence.
Qed.

Lemma fmt_f_field_chars p x : finite_float x -> forallb field_char (fmt_f p x) = true.
Proof.
  intros H. rewrite (fmt_f_finite p x H), forallb_app, unsigned_f_field_chars.
  destruct (float_sign x); reflexivity.
Qed.

(** Two finite floats printed alike by [%.pf] show the same value. *)
Lemma fmt_f_inj p x y :
  finite_float x -> finite_float y -> fmt_f p x = fmt_f p y ->
  rounded_decimals p x = rounded_decimals p y.
Proof.
  intros Hx Hy H. rewrite (fmt_f_finite p x Hx), (fmt_f_finite p y Hy) in H.
  rewrite !rounded_decimals_finite.
  pose proof (float_magnitude_nonneg p x). pose proof (float_magnitude_nonneg p y).
  destruct (unsigned_f_head p (float_magnitude p x)) as [cx [rx [Ex Dx]]].
  destruct (unsigned_f_head p (float_magnitude p y)) as [cy [ry [Ey Dy]]].
  destruct (float_sign x), (float_sign y); cbn [sign_chars] in H.
  - change (chars "-") with ["-"%char] in H. injection H as H.
    apply unsigned_f_inj in H; [rewrite H; reflexivity | lia | lia].
  - change (chars "-") with ["-"%char] in H. rewrite Ey in H. injection H as Hc _.
    subst cy. discriminate Dy.
  - change (chars "-") with ["-"%char] in H. rewrite Ex in H. injection H as Hc _.
    subst cx. discriminate Dx.
  - cbn [app] in H. apply unsigned_f_inj in H; [rewrite H; reflexivity | lia | lia].
Qed.

(** *** Rounding to [p] decimals *)

Lemma float_den_pos x : 0 < float_den x.
Proof. destruct x; cbn [float_den]; lia. Qed.

Lemma rounds_to_unique p x n n' : rounds_to p x n -> rounds_to p x n' -> n = n'.
Proof.
  unfold rounds_to. pose proof (float_den_pos x) as Hd.
  generalize dependent (float_den x). intros d Hd.
  generalize (float_num x * pow10 p). intros a H H'.
  assert (Hc : n = n' \/ n = n' + 1 \/ n' = n + 1 \/ n + 1 < n' \/ n' + 1 < n) by lia.
  destruct Hc as [Hc | [Hc | [Hc | Hc]]]; [exact Hc | | |].
  - subst n. exfalso. rewrite Z.even_add in H. cbn in H.
    destruct (Z.even n') eqn:En; destruct H as [H | [H He]], H' as [H' | [H' He']];
      try discriminate; nia.
  - subst n'. exfalso. rewrite Z.even_add in H'. cbn in H'.
    destruct (Z.even n) eqn:En; destruct H as [H | [H He]], H' as [H' | [H' He']];
      try discriminate; nia.
  - exfalso. destruct H as [H | [H He]], H' as [H' | [H' He']]; nia.
Qed.

Lemma round_half_even_div_nearest a b :
  0 < b ->
  let q := round_half_even_div a b in
  2 * Z.abs (q * b - a) < b \/ (2 * Z.abs (q * b - a) = b /\ Z.even q = true).
Proof.
  intros Hb. unfold round_half_even_div.
  pose proof (Z.div_mod a b ltac:(lia)) as Hdm.
  pose proof (Z.mod_pos_bound a b Hb) as Hr.
  destruct (Z.compare_spec (2 * (a mod b)) b) as [He | Hl | Hg].
  - right. destruct (Z.even (a / b)) eqn:Ev.
    + split; [nia | exact Ev].
    + split; [nia |]. rewrite Z.even_add, Ev. reflexivity.
  - left. nia.
  - left. nia.
Qed.

Lemma signed_even s n : Z.even (signed s n) = Z.even n.
Proof. destruct s; [apply Z.even_opp | reflexivity]. Qed.

Lemma rounded_decimals_rounds p x : finite_float x -> rounds_to p x (rounded_decimals p x).
Proof.
  destruct x as [s | s | | s m e]; cbn [finite_float]; try contradiction; intros _.
  - left. cbn. lia.
  - unfold rounds_to, rounded_decimals, float_num, float_den, scaled_magnitude.
    change (if s then - ?a else ?a) with (signed s a).
    destruct (Z.leb_spec 0 e) as [He | He].
    + rewrite (Z.max_l e 0), (Z.max_r (- e) 0) by lia. left.
      change (2 ^ 0) with 1. destruct s; cbn [signed]; nia.
    + rewrite (Z.max_r e 0), (Z.max_l (- e) 0) by lia. change (2 ^ 0) with 1.
      assert (Hd : 0 < 2 ^ (- e)) by (apply Z.pow_pos_nonneg; lia).
      pose proof (round_half_even_div_nearest (Z.pos m * pow10 p) (2 ^ (- e)) Hd) as H.
      cbv zeta in H. rewrite signed_even.
      set (q := round_half_even_div (Z.pos m * pow10 p) (2 ^ (- e))) in *.
      replace (Z.abs (signed s q * 2 ^ (- e) - signed s (Z.pos m * 1) * pow10 p))
        with (Z.abs (q * 2 ^ (- e) - Z.pos m * pow10 p)); [exact H |].
      destruct s; cbn [signed]; lia.
Qed.

(** Finite floats that differ after rounding to [p] decimals are shown differently. *)
Lemma rounded_apart_decimals p x y :
  finite_float x -> finite_float y -> rounded_apart p x y ->
  rounded_decimals p x <> rounded_decimals p y.
Proof.
  intros Fx Fy (n & n' & Hn & Hn' & Hne) Heq. apply Hne.
  rewrite (rounds_to_unique p x n _ Hn (rounded_decimals_rounds p x Fx)).
  rewrite (rounds_to_unique p y n' _ Hn' (rounded_decimals_rounds p y Fy)).
  exact Heq.
Qed.

End FloatText.

Section CacheKeys.

Variable E : Env.

Lemma join_chars_inj dir a b :
  starts_with_slash a = false -> starts_with_slash b = false ->
  join_chars dir a = join_chars dir b -> a = b.
Proof.
  unfold join_chars. intros -> ->.
  destruct (_ || _)%bool; intros H.
  - now apply app_inv_head in H.
  - apply app_inv_head in H. now apply app_inv_head in H.
Qed.

Lemma digit_head_is_no_slash c rest : is_digit c = true -> starts_with_slash (c :: rest) = false.
Proof.
  intros H. cbn [starts_with_slash]. destruct (Ascii.eqb_spec c "/"); [| reflexivity].
  subst c. discriminate H.
Qed.

Lemma stationXML_basename_chars pad startt endt lat lon rad :
  stationXML_basename pad startt endt (Some lat) (Some lon) (Some rad)
  = Some (strftime_YmdHM pad startt ++ "_"%char :: strftime_YmdHM pad endt
            ++ "_"%char :: fmt_f 4 lat ++ "_"%char :: fmt_f 4 lon
            ++ "_"%char :: fmt_f 2 rad ++ chars ".SML").
Proof. reflexivity. Qed.

Lemma MSEED_basename_chars pad startt endt id ids :
  exists last_id,
    MSEED_basename pad startt endt (id :: ids)
    = Some (strftime_YmdHM pad startt ++ "_"%char :: strftime_YmdHM pad endt
              ++ "_"%char :: chars id ++ "_"%char :: chars last_id ++ chars ".MSEED").
Proof.
  unfold MSEED_basename. cbn [head].
  destruct (last (id :: ids)) as [last_id |] eqn:Hl.
  - exists last_id. reflexivity.
  - apply last_None in Hl. discriminate.
Qed.

Lemma field_char_underscore : field_char "_" = false.
Proof. reflexivity. Qed.

Lemma is_digit_underscore : is_digit "_" = false.
Proof. reflexivity. Qed.

(** The name of a metadata cache file determines the minutes of the time
    range and the rounded coordinates and radius. *)
Lemma stationXML_name_key pad t1 t2 lat lon rad t1' t2' lat' lon' rad' :
  valid_time t1 -> valid_time t2 -> valid_time t1' -> valid_time t2' ->
  finite_float lat -> finite_float lon -> finite_float rad ->
  finite_float lat' -> finite_float lon' -> finite_float rad' ->
  stationXML_basename pad t1 t2 (Some lat) (Some lon) (Some rad)
    = stationXML_basename pad t1' t2' (Some lat') (Some lon') (Some rad') ->
  printed_minute t1 = printed_minute t1'
  /\ printed_minute t2 = printed_minute t2'
  /\ rounded_decimals 4 lat = rounded_decimals 4 lat'
  /\ rounded_decimals 4 lon = rounded_decimals 4 lon'
  /\ rounded_decimals 2 rad = rounded_decimals 2 rad'.
Proof.
  intros V1 V2 V1' V2' Flat Flon Frad Flat' Flon' Frad' H.
  rewrite !stationXML_basename_chars in H. injection H as H.
  apply (cut_at_separator is_digit) in H as [H1 H];
    [| reflexivity | apply strftime_YmdHM_are_digits | apply strftime_YmdHM_are_digits].
  apply (cut_at_separator is_digit) in H as [H2 H];
    [| reflexivity | apply strftime_YmdHM_are_digits | apply strftime_YmdHM_are_digits].
  apply (cut_at_separator field_char) in H as [H3 H];
    [| reflexivity | now apply fmt_f_field_chars | now apply fmt_f_field_chars].
  apply (cut_at_separator field_char) in H as [H4 H];
    [| reflexivity | now apply fmt_f_field_chars | now apply fmt_f_field_chars].
  apply app_inv_tail in H.
  repeat split.
  - now apply (strftime_YmdHM_minute pad).
  - now apply (strftime_YmdHM_minute pad).
  - now apply fmt_f_inj.
  - now apply fmt_f_inj.
  - now apply fmt_f_inj.
Qed.

(** The name of a waveform cache file determines the minutes of the time
    range. *)
Lemma MSEED_name_key pad t1 t2 ids t1' t2' ids' name :
  valid_time t1 -> valid_time t2 -> valid_time t1' -> valid_time t2' ->
  MSEED_basename pad t1 t2 ids = Some name ->
  MSEED_basename pad t1' t2' ids' = Some name ->
  printed_minute t1 = printed_minute t1' /\ printed_minute t2 = printed_minute t2'.
Proof.
  intros V1 V2 V1' V2' H H'.
  destruct ids as [| id ids]; [discriminate H |].
  destruct ids' as [| id' ids']; [discriminate H' |].
  destruct (MSEED_basename_chars pad t1 t2 id ids) as [l Hl].
  destruct (MSEED_basename_chars pad t1' t2' id' ids') as [l' Hl'].
  rewrite Hl in H. rewrite Hl' in H'. rewrite <- H' in H. injection H as H.
  apply (cut_at_separator is_digit) in H as [H1 H];
    [| reflexivity | apply strftime_YmdHM_are_digits | apply strftime_YmdHM_are_digits].
  apply (cut_at_separator is_digit) in H as [H2 H];
    [| reflexivity | apply strftime_YmdHM_are_digits | apply strftime_YmdHM_are_digits].
  split; now apply (strftime_YmdHM_minute pad).
Qed.

Lemma stationXML_basename_no_slash pad t1 t2 lat lon rad name :
  stationXML_basename pad t1 t2 lat lon rad = Some name -> starts_with_slash name = false.
Proof.
  destruct lat, lon, rad; try discriminate. rewrite stationXML_basename_chars.
  intros [= <-]. destruct (strftime_YmdHM_head pad t1) as [c [rest [-> Hc]]].
  now apply digit_head_is_no_slash.
Qed.

Lemma MSEED_basename_no_slash pad t1 t2 ids name :
  MSEED_basename pad t1 t2 ids = Some name -> starts_with_slash name = false.
Proof.
  destruct ids as [| id ids]; [discriminate |].
  destruct (MSEED_basename_chars pad t1 t2 id ids) as [l ->].
  intros [= <-]. destruct (strftime_YmdHM_head pad t1) as [c [rest [-> Hc]]].
  now apply digit_head_is_no_slash.
Qed.

Lemma get_stationXML_filename_run t1 t2 lat lon rad name w :
  cache_dir_usable w ->
  stationXML_basename (pads_year E) t1 t2 lat lon rad = Some name ->
  _get_stationXML_filename E t1 t2 lat lon rad CACHE_DIR w
  = (Ret (str (join_chars (chars CACHE_DIR) name)), cache_dir_made w).
Proof.
  intros Hdir Hname. unfold _get_stationXML_filename, bind.
  rewrite make_cache_dir_usable by exact Hdir. rewrite Hname. reflexivity.
Qed.

Lemma get_MSEED_filename_run t1 t2 ids name w :
  cache_dir_usable w ->
  MSEED_basename (pads_year E) t1 t2 ids = Some name ->
  _get_MSEED_filename E t1 t2 ids CACHE_DIR w
  = (Ret (str (join_chars (chars CACHE_DIR) name)), cache_dir_made w).
Proof.
  intros Hdir Hname. unfold _get_MSEED_filename, bind.
  rewrite make_cache_dir_usable by exact Hdir. rewrite Hname. reflexivity.
Qed.


End CacheKeys.



(* ===================================================================== *)
(** * Part III.  Further properties of the two modules                    *)
(* ===================================================================== *)

(** ** The cache directory *)

Section CacheDirectory.

(** X1.  [_make_cache_dir] on a path taken by a regular file raises
    [FileExistsError] and changes nothing.  When it returns, the
    directory exists, no other path and nothing of the archive has
    changed, and a second call returns without changing anything. *)
Theorem make_cache_dir_idempotent cachedir w :
  let r := _make_cache_dir cachedir w in
  (file_exists w cachedir = true -> r = (Raise FileExistsError, w))
  /\ (fst r = Ret tt ->
      dir_exists (snd r) cachedir = true
      /\ (forall p, p <> cachedir -> fs (snd r) !! p = fs w !! p)
      /\ archive (snd r) = archive w
      /\ _make_cache_dir cachedir (snd r) = (Ret tt, snd r)).
Proof.
  unfold _make_cache_dir, bind, os_path_isdir, os_mkdir, dir_exists, file_exists.
  cbn [fst snd].
  destruct (fs w !! cachedir) as [[| c] |] eqn:H; cbn [negb fst snd ret]; rewrite ?H;
    cbn [fst snd].
  - split; [discriminate |]. intros _. cbn [negb ret]. auto.
  - split; [reflexivity | discriminate].
  - split; [discriminate |]. intros _. wsimpl. rewrite lookup_insert.
    destruct (decide (cachedir = cachedir)); [| congruence]. cbn [negb ret].
    split; [reflexivity |]. split; [| auto].
    intros p Hp. rewrite lookup_insert_ne; auto.
Qed.

End CacheDirectory.

Lemma make_cache_dir_idempotent_witness :
  dir_exists (snd (_make_cache_dir CACHE_DIR Scenario.empty_world)) CACHE_DIR = true
  /\ (forall p, p <> CACHE_DIR ->
        fs (snd (_make_cache_dir CACHE_DIR Scenario.empty_world)) !! p
        = fs Scenario.empty_world !! p)
  /\ archive (snd (_make_cache_dir CACHE_DIR Scenario.empty_world))
     = archive Scenario.empty_world
  /\ _make_cache_dir CACHE_DIR (snd (_make_cache_dir CACHE_DIR Scenario.empty_world))
     = (Ret tt, snd (_make_cache_dir CACHE_DIR Scenario.empty_world)).
Proof.
  destruct (make_cache_dir_idempotent CACHE_DIR Scenario.empty_world) as [_ H].
  apply H. reflexivity.
Defined.

(** ** When cache names coincide *)

Section NameCollisions.

Variable E : Env.

(** The calendar fields down to the minute are a function of the minute
    the time is printed in. *)
Lemma minute_determines_fields t t' :
  printed_minute t = printed_minute t' ->
  epoch_days t = epoch_days t' /\ tm_hour t = tm_hour t' /\ tm_min t = tm_min t'.
Proof.
  rewrite !printed_minute_fields.
  pose proof (tm_hour_range t). pose proof (tm_hour_range t').
  pose proof (tm_min_range t). pose proof (tm_min_range t').
  lia.
Qed.

Lemma strftime_YmdHM_same_minute pad t t' :
  printed_minute t = printed_minute t' -> strftime_YmdHM pad t = strftime_YmdHM pad t'.
Proof.
  intros H. apply minute_determines_fields in H as (Hd & Hh & Hm).
  unfold strftime_YmdHM, fmt_Y, tm_year, tm_mon, tm_mday. rewrite Hd, Hh, Hm. reflexivity.
Qed.

(** Finite floats with the same sign and the same rounded value are
    printed alike by [%.pf]. *)
Lemma fmt_f_same_print p x y : same_print p x y -> fmt_f p x = fmt_f p y.
Proof.
  intros (Fx & Fy & Hs & n & Hx & Hy).
  pose proof (rounds_to_unique p x _ _ Hx (rounded_decimals_rounds p x Fx)) as Ex.
  pose proof (rounds_to_unique p y _ _ Hy (rounded_decimals_rounds p y Fy)) as Ey.
  rewrite (fmt_f_finite p x Fx), (fmt_f_finite p y Fy), <- Hs.
  assert (Hm : float_magnitude p x = float_magnitude p y); [| now rewrite Hm].
  rewrite Ex in Ey. rewrite !rounded_decimals_finite, <- Hs in Ey.
  destruct (float_sign x); lia.
Qed.

Lemma last_of_interior (a : string) mid b : last (a :: mid ++ [b]) = Some b.
Proof. rewrite app_comm_cons. apply last_snoc. Qed.


End NameCollisions.


Section StaleHits.

Variable E : Env.

(** X3.  A cache hit of [get_stream] checks nothing but the file name:
    a request for other identifiers between the same first and last
    one, over a (valid) time range whose start and end are printed in
    the same minutes, is answered with the stream cached by the earlier
    request, and no request is sent. *)
Theorem get_stream_cache_hit_of_another_request
    fdsnClient first_id mid mid' last_id t1 t2 t1' t2' cache name st w :
  fs w !! CACHE_DIR = Some Dir ->
  MSEED_basename (pads_year E) t1 t2 (first_id :: mid ++ [last_id]) = Some name ->
  fs w !! str (join_chars (chars CACHE_DIR) name) = Some (File (MiniSEED st)) ->
  valid_time t1 -> valid_time t2 -> valid_time t1' -> valid_time t2' ->
  printed_minute t1 = printed_minute t1' ->
  printed_minute t2 = printed_minute t2' ->
  get_stream E fdsnClient (first_id :: mid' ++ [last_id]) t1' t2' false cache w
  = (Ret st, record (EvReadStream (str (join_chars (chars CACHE_DIR) name))) w).
Proof.
  intros Hdir Hname Hfile _ _ _ _ H1 H2.
  apply get_stream_cache_hit; [exact Hdir | | exact Hfile].
  rewrite <- Hname. unfold MSEED_basename. rewrite !last_of_interior. cbn [head].
  rewrite (strftime_YmdHM_same_minute _ _ _ H1), (strftime_YmdHM_same_minute _ _ _ H2).
  reflexivity.
Qed.

End StaleHits.

Lemma get_stream_cache_hit_of_another_request_witness :
  get_stream Scenario.quiet_env Scenario.iris
    ("IU.POHA.00.BHZ" :: ["IU.KIP.00.BHZ"] ++ ["IU.POHA.00.BHZ"])
    CacheScenario.before_minute (utc_add Scenario.t1 39) false false
    CollisionScenario.warm_world
  = (Ret [CacheScenario.cached_trace],
     record (EvReadStream CollisionScenario.mseed_path) CollisionScenario.warm_world).
Proof.
  apply (get_stream_cache_hit_of_another_request Scenario.quiet_env Scenario.iris
           "IU.POHA.00.BHZ" [] ["IU.KIP.00.BHZ"] "IU.POHA.00.BHZ"
           CacheScenario.full_minute Scenario.t1
           CacheScenario.before_minute (utc_add Scenario.t1 39) false
           (chars "202311142214_202311152213_IU.POHA.00.BHZ_IU.POHA.00.BHZ.MSEED"));
    try (vm_compute; reflexivity); vm_compute; repeat split; discriminate.
Defined.

(** ** [get_inventory] away from the cache *)

Section InventoryRequests.

Variable E : Env.

(** Away from its cache branch [get_inventory] is one station request,
    answered or not, and a write when [cache] is set. *)
Lemma get_inventory_remote_run
    fdsnClient startt endt lat lon rad network station channel overwrite cache name w :
  cache_dir_usable w ->
  stationXML_basename (pads_year E) startt endt lat lon rad = Some name ->
  overwrite = true
    \/ file_exists (cache_dir_made w) (str (join_chars (chars CACHE_DIR) name)) = false ->
  let path := str (join_chars (chars CACHE_DIR) name) in
  let client := _check_client_or_string fdsnClient in
  let q := mkStationQuery network station channel lat lon rad startt endt "response" in
  let w1 := record (EvGetStations client q) (cache_dir_made w) in
  get_inventory E fdsnClient startt endt lat lon rad network station channel overwrite cache w
  = match get_stations E client q with
    | Some inv =>
        (Ret (Some inv),
         if cache
         then record (EvWriteInventory path)
                (with_fs (<[path := File (StationXML inv)]> (fs w1)) w1)
         else w1)
    | None => (Ret None, w1)
    end.
Proof.
  intros Hdir Hname Hmiss path client q w1. subst path client q w1.
  unfold get_inventory, bind.
  rewrite (get_stationXML_filename_run E _ _ _ _ _ name) by assumption.
  unfold os_path_isfile.
  assert (Hc : (file_exists (cache_dir_made w) (str (join_chars (chars CACHE_DIR) name))
                && negb overwrite)%bool = false).
  { destruct Hmiss as [-> | ->]; [apply andb_false_r | reflexivity]. }
  rewrite Hc.
  unfold try_, client_get_stations, bind, emit.
  destruct (get_stations E _ _) as [inv |]; cbn [of_option ret raise]; [| reflexivity].
  destruct cache; reflexivity.
Qed.

(** X4.  When [get_inventory] does not take its cache branch
    ([overwrite] set, or no cache file), it sends one station request
    and never raises because of it: it returns the inventory the data
    centre answered, or [None] when the request failed.  The answer is
    written to the cache file exactly when [cache] is set; after a
    failed request nothing is written. *)
Theorem get_inventory_remote_outcome
    fdsnClient startt endt lat lon rad network station channel overwrite cache name w :
  cache_dir_usable w ->
  stationXML_basename (pads_year E) startt endt lat lon rad = Some name ->
  overwrite = true
    \/ file_exists (cache_dir_made w) (str (join_chars (chars CACHE_DIR) name)) = false ->
  let path := str (join_chars (chars CACHE_DIR) name) in
  let client := _check_client_or_string fdsnClient in
  let q := mkStationQuery network station channel lat lon rad startt endt "response" in
  let w1 := record (EvGetStations client q) (cache_dir_made w) in
  get_inventory E fdsnClient startt endt lat lon rad network station channel overwrite cache w
  = match get_stations E client q with
    | Some inv =>
        (Ret (Some inv),
         if cache
         then record (EvWriteInventory path)
                (with_fs (<[path := File (StationXML inv)]> (fs w1)) w1)
         else w1)
    | None => (Ret None, w1)
    end.
Proof. apply get_inventory_remote_run. Qed.


End InventoryRequests.

Lemma get_inventory_remote_outcome_witness :
  get_inventory CollisionScenario.answering_env Scenario.iris Scenario.t0 Scenario.t1
    (Some CacheScenario.lat0) (Some CacheScenario.lon0) (Some CacheScenario.rad0)
    "*" "*" "*" true true CacheScenario.warm_world
  = (Ret (Some CollisionScenario.fresh_inventory),
     record (EvWriteInventory CacheScenario.sml_path)
       (with_fs (<[CacheScenario.sml_path := File (StationXML CollisionScenario.fresh_inventory)]>
                   (fs CacheScenario.warm_world))
          (record (EvGetStations (mkClient "http://service.iris.edu")
                     (mkStationQuery "*" "*" "*" (Some CacheScenario.lat0)
                        (Some CacheScenario.lon0) (Some CacheScenario.rad0)
                        Scenario.t0 Scenario.t1 "response"))
             CacheScenario.warm_world))).
Proof.
  apply (get_inventory_remote_outcome CollisionScenario.answering_env Scenario.iris
           Scenario.t0 Scenario.t1 (Some CacheScenario.lat0) (Some CacheScenario.lon0)
           (Some CacheScenario.rad0) "*" "*" "*" true true
           (chars "202311142213_202311152213_19.5000_-155.5000_1.00.SML")).
  - right. vm_compute. reflexivity.
  - vm_compute. reflexivity.
  - left. reflexivity.
Defined.


(** ** [get_stream] away from the cache *)

Section StreamRequestFacts.

Variable E : Env.

(** Away from the cache [get_stream] is its identifier loop followed by
    the whole-collection merge. *)
Lemma get_stream_remote_path fdsnClient ids startt endt overwrite cache name w :
  cache_dir_usable w ->
  MSEED_basename (pads_year E) startt endt ids = Some name ->
  stream_cache_miss E startt endt ids overwrite w ->
  get_stream E fdsnClient ids startt endt overwrite cache w
  = bind (fetch_trace_ids E (_check_client_or_string fdsnClient) startt endt ids ([], None))
      (get_stream_tail E (str (join_chars (chars CACHE_DIR) name)) cache)
      (cache_dir_made w).
Proof.
  intros Hdir Hname Hmiss. unfold get_stream.
  unfold bind at 1. rewrite (get_MSEED_filename_run E _ _ _ name) by assumption.
  unfold bind at 1. unfold os_path_isfile.
  assert (Hc : (file_exists (cache_dir_made w) (str (join_chars (chars CACHE_DIR) name))
                && negb overwrite)%bool = false).
  { destruct Hmiss as [-> | H]; [apply andb_false_r |]. rewrite (H name Hname). reflexivity. }
  rewrite Hc. reflexivity.
Qed.

(** What the parts of [get_stream] may add to the log. *)
Lemma emits_stream_make_cache_dir cachedir : emits_only stream_event (_make_cache_dir cachedir).
Proof.
  unfold _make_cache_dir. apply emits_only_bind; [apply emits_only_isdir |].
  intros []; cbn [negb]; [apply emits_only_ret | apply emits_only_mkdir; reflexivity].
Qed.

Lemma emits_stream_get_MSEED_filename t0 t1 ids cachedir :
  emits_only stream_event (_get_MSEED_filename E t0 t1 ids cachedir).
Proof.
  unfold _get_MSEED_filename. apply emits_only_bind; [apply emits_stream_make_cache_dir |].
  intros _. destruct (MSEED_basename _ _ _ _);
    [apply emits_only_ret | apply emits_only_raise].
Qed.

Lemma emits_stream_fetch_trace_id c t0 t1 acc id :
  emits_only stream_event (fetch_trace_id E c t0 t1 acc id).
Proof.
  unfold fetch_trace_id.
  destruct (str_split "." id) as [| n [| s [| l [| ch [| x rest]]]]];
    try apply emits_only_raise.
  apply emits_only_bind.
  { apply emits_only_try. unfold client_get_waveforms. apply emits_only_bind;
      [apply emits_only_emit; reflexivity | intros; apply emits_only_of_option]. }
  intros [this_st |]; [| apply emits_only_ret].
  destruct (stream_truthy this_st); [| apply emits_only_ret].
  apply emits_only_bind; [apply emits_only_try, emits_stream_merge |].
  intros [merged |]; [apply emits_only_ret |].
  apply emits_only_bind; [apply emits_stream_merge | intros; apply emits_only_ret].
Qed.

Lemma emits_stream_fetch_trace_ids c t0 t1 ids acc :
  emits_only stream_event (fetch_trace_ids E c t0 t1 ids acc).
Proof.
  revert acc. induction ids as [| id ids IH]; intros acc; cbn [fetch_trace_ids].
  - apply emits_only_ret.
  - apply emits_only_bind; [apply emits_stream_fetch_trace_id | intros; apply IH].
Qed.

Lemma emits_stream_tail mseedfile cache acc :
  emits_only stream_event (get_stream_tail E mseedfile cache acc).
Proof.
  unfold get_stream_tail.
  destruct (negb _); [apply emits_only_ret |].
  apply emits_only_bind; [apply emits_only_try, emits_stream_merge | intros merged].
  apply emits_only_bind.
  - destruct merged; [apply emits_only_ret |].
    apply emits_only_bind; [apply emits_only_load_local | intros; apply emits_stream_merge].
  - intros st'. apply emits_only_bind; [| intros; apply emits_only_ret].
    destruct cache; [apply emits_only_stream_write; reflexivity | apply emits_only_ret].
Qed.

(** [get_stream] makes the cache directory, requests waveforms, and
    reads or writes its cache file; it does nothing else to the world
    outside. *)
Lemma emits_stream_get_stream c ids t0 t1 overwrite cache :
  emits_only stream_event (get_stream E c ids t0 t1 overwrite cache).
Proof.
  unfold get_stream.
  apply emits_only_bind; [apply emits_stream_get_MSEED_filename | intros file].
  apply emits_only_bind; [apply emits_only_isfile | intros isfile].
  destruct (isfile && negb overwrite)%bool.
  - apply emits_only_obspy_read; reflexivity.
  - apply emits_only_bind; [apply emits_stream_fetch_trace_ids | intros acc].
    apply emits_stream_tail.
Qed.

Lemma make_cache_dir_remote cachedir w :
  count is_remote (log (snd (_make_cache_dir cachedir w))) = count is_remote (log w).
Proof.
  apply (emits_only_count (fun e => negb (is_remote e))).
  - unfold _make_cache_dir. apply emits_only_bind; [apply emits_only_isdir |].
    intros []; cbn [negb]; [apply emits_only_ret | apply emits_only_mkdir; reflexivity].
  - intros e. destruct (is_remote e); [discriminate | reflexivity].
Qed.

(** One pass of the identifier loop: at most one request, which is sent
    exactly when the identifier has four parts; files and archive are
    left alone. *)
Lemma fetch_trace_id_world client startt endt acc trace_id w :
  let r := fetch_trace_id E client startt endt acc trace_id w in
  fst r <> OutOfFuel
  /\ fs (snd r) = fs w /\ archive (snd r) = archive w
  /\ (count is_remote (log (snd r)) <= S (count is_remote (log w)))%nat
  /\ (forall acc', fst r = Ret acc' ->
      count is_remote (log (snd r)) = S (count is_remote (log w))).
Proof.
  unfold fetch_trace_id.
  destruct (str_split "." trace_id) as [| n [| s [| l [| ch [| x rest]]]]];
    try (cbn [raise fst snd]; repeat split; try discriminate; auto; fail).
  unfold client_get_waveforms, stream_merge. wsimpl.
  destruct (get_waveforms E client _) as [this_st |]; wsimpl;
    [| repeat split; try discriminate; auto].
  destruct (stream_truthy this_st); wsimpl; [| repeat split; try discriminate; auto].
  destruct (merge E 0 1 this_st) as [m |]; wsimpl; [repeat split; try discriminate; auto |].
  match goal with |- context [merge E 0 1 ?x] => destruct (merge E 0 1 x) as [m |] end;
    wsimpl; repeat split; try discriminate; auto.
Qed.

Lemma fetch_trace_ids_world client startt endt ids acc w :
  let r := fetch_trace_ids E client startt endt ids acc w in
  fst r <> OutOfFuel
  /\ fs (snd r) = fs w /\ archive (snd r) = archive w
  /\ (count is_remote (log (snd r)) <= length ids + count is_remote (log w))%nat
  /\ (forall acc', fst r = Ret acc' ->
      count is_remote (log (snd r)) = (length ids + count is_remote (log w))%nat).
Proof.
  revert acc w. induction ids as [| id ids IH]; intros acc w.
  - cbn [fetch_trace_ids ret fst snd length]. repeat split; try discriminate; auto.
  - cbn [fetch_trace_ids length]. unfold bind.
    pose proof (fetch_trace_id_world client startt endt acc id w) as H.
    cbv zeta in H. destruct H as (Hf & Hfs & Ha & Hle & Heq).
    destruct (fetch_trace_id E client startt endt acc id w) as [[acc1 | e |] w1];
      cbn [fst snd] in *.
    + specialize (IH acc1 w1). cbv zeta in IH. destruct IH as (If & Ifs & Ia & Ile & Ieq).
      specialize (Heq acc1 eq_refl).
      split; [exact If |]. split; [congruence |]. split; [congruence |].
      split; [lia |]. intros acc' Hr. rewrite (Ieq acc' Hr). lia.
    + split; [discriminate |]. split; [exact Hfs |]. split; [exact Ha |].
      split; [lia | discriminate].
    + congruence.
Qed.

(** The whole-collection merge sends nothing; it writes the cache file
    when [cache] is set and the collection is not empty, and nothing else. *)
Ltac settle_world :=
  repeat match goal with
    | |- _ /\ _ => split
    | |- forall _, _ => intro
    | H : fst _ = _ |- _ => cbn [fst] in H
    | H : Ret _ = Ret _ |- _ => injection H as <-
    | H : Raise _ = Ret _ |- _ => discriminate H
    | H : true = false |- _ => discriminate H
    | |- _ <> _ => discriminate
    | |- <[_ := _]> _ !! _ = _ => rewrite lookup_insert_ne by auto
    end; try reflexivity; auto.

Lemma get_stream_tail_world mseedfile cache acc w :
  let r := get_stream_tail E mseedfile cache acc w in
  fst r <> OutOfFuel
  /\ archive (snd r) = archive w
  /\ count is_remote (log (snd r)) = count is_remote (log w)
  /\ (forall p, p <> mseedfile -> fs (snd r) !! p = fs w !! p)
  /\ (forall st, fst r = Ret st ->
      if (cache && stream_truthy (fst acc))%bool
      then snd r = record (EvWriteStream mseedfile)
                     (with_fs (<[mseedfile := File (MiniSEED st)]> (fs w)) w)
      else snd r = w /\ (stream_truthy (fst acc) = false -> st = [])).
Proof.
  unfold get_stream_tail, bind, try_, stream_merge, stream_write.
  destruct acc as [st this_st]. cbn [fst snd].
  destruct st as [| tr st]; cbn [stream_truthy negb ret fst snd].
  - rewrite andb_false_r. settle_world.
  - rewrite andb_true_r. unfold of_option.
    destruct (merge E 0 1 (tr :: st)) as [m |]; cbn [ret raise].
    + destruct cache; wsimpl; settle_world.
    + destruct this_st as [last_st |]; cbn [load_local ret raise]; [| wsimpl; settle_world].
      match goal with |- context [merge E 0 1 ?x] => destruct (merge E 0 1 x) as [m |] end;
        cbn [ret raise]; [| wsimpl; settle_world].
      destruct cache; wsimpl; settle_world.
Qed.

End StreamRequestFacts.

Section StreamRequestOutcomes.

Variable E : Env.

(** X6.  [get_stream] never sends more requests than the list has
    identifiers, and a call that does not take its cache branch and
    returns has sent exactly as many: one in each pass of the
    identifier loop. *)
Theorem get_stream_one_request_per_identifier
    fdsnClient trace_ids startt endt overwrite cache w :
  let r := get_stream E fdsnClient trace_ids startt endt overwrite cache w in
  (count is_remote (log (snd r)) <= length trace_ids + count is_remote (log w))%nat
  /\ (forall st, cache_dir_usable w ->
        stream_cache_miss E startt endt trace_ids overwrite w ->
        fst r = Ret st ->
        count is_remote (log (snd r)) = (length trace_ids + count is_remote (log w))%nat).
Proof.
  cbv zeta. split.
  - unfold get_stream, _get_MSEED_filename. unfold bind at 1. unfold bind at 1.
    pose proof (make_cache_dir_remote CACHE_DIR w) as Hmk.
    destruct (_make_cache_dir CACHE_DIR w) as [[[] | e |] w0]; cbn [fst snd] in *;
      [| lia | lia].
    destruct (MSEED_basename (pads_year E) startt endt trace_ids) as [name |];
      cbn [ret raise fst snd]; [| lia].
    unfold bind at 1. unfold os_path_isfile at 1.
    destruct (file_exists w0 _ && negb overwrite)%bool.
    + unfold obspy_read. destruct (fs w0 !! _) as [[| [| st |]] |]; cbn [fst snd log record];
        try lia.
      unfold count in *. cbn [List.filter is_remote]. lia.
    + unfold bind.
      pose proof (fetch_trace_ids_world E (_check_client_or_string fdsnClient) startt endt
                    trace_ids ([], None) w0) as H.
      cbv zeta in H. destruct H as (_ & _ & _ & Hle & _).
      destruct (fetch_trace_ids E _ startt endt trace_ids ([], None) w0)
        as [[acc | e |] w1]; cbn [fst snd] in *; [| lia | lia].
      match goal with
      | |- context [log (snd (?m w1))] =>
          change m with (get_stream_tail E (str (join_chars (chars CACHE_DIR) name)) cache acc)
      end.
      pose proof (get_stream_tail_world E (str (join_chars (chars CACHE_DIR) name)) cache
                    acc w1) as H.
      cbv zeta in H. destruct H as (_ & _ & Hc & _). lia.
  - intros st Hdir Hmiss.
    destruct (MSEED_basename (pads_year E) startt endt trace_ids) as [name |] eqn:Hname.
    + rewrite (get_stream_remote_path E _ _ _ _ _ _ name) by assumption.
      unfold bind.
      pose proof (fetch_trace_ids_world E (_check_client_or_string fdsnClient) startt endt
                    trace_ids ([], None) (cache_dir_made w)) as H.
      cbv zeta in H. destruct H as (_ & _ & _ & _ & Heq).
      destruct (fetch_trace_ids E _ startt endt trace_ids ([], None) (cache_dir_made w))
        as [[acc | e |] w1]; cbn [fst snd] in *; try discriminate.
      pose proof (get_stream_tail_world E (str (join_chars (chars CACHE_DIR) name)) cache
                    acc w1) as H.
      cbv zeta in H. destruct H as (_ & _ & Hc & _).
      intros _. rewrite Hc, (Heq acc eq_refl), cache_dir_made_remote. reflexivity.
    + unfold get_stream, _get_MSEED_filename, bind.
      rewrite make_cache_dir_usable by exact Hdir. rewrite Hname. discriminate.
Qed.

(** X7.  An identifier that does not split into four parts at its dots
    is not isolated like a failed request: [get_stream] raises
    [ValueError] when the loop reaches it.  The requests for the
    identifiers before it have been sent, their data is dropped, and
    nothing is written to the cache. *)
Theorem get_stream_malformed_identifier
    fdsnClient good bad rest startt endt overwrite cache acc w w1 :
  cache_dir_usable w ->
  stream_cache_miss E startt endt (good ++ bad :: rest) overwrite w ->
  length (str_split "." bad) <> 4%nat ->
  fetch_trace_ids E (_check_client_or_string fdsnClient) startt endt good ([], None)
    (cache_dir_made w) = (Ret acc, w1) ->
  get_stream E fdsnClient (good ++ bad :: rest) startt endt overwrite cache w
  = (Raise ValueError, w1)
  /\ fs w1 = fs (cache_dir_made w)
  /\ count is_remote (log w1) = (length good + count is_remote (log w))%nat.
Proof.
  intros Hdir Hmiss Hbad Hgood.
  destruct (MSEED_basename (pads_year E) startt endt (good ++ bad :: rest)) as [name |] eqn:Hname.
  2:{ unfold MSEED_basename in Hname. destruct good; cbn [app head] in Hname.
      - destruct (last_is_Some (bad :: rest)) as [_ [x Hx]]; [discriminate |].
        rewrite Hx in Hname. discriminate.
      - destruct (last_is_Some (s :: good ++ bad :: rest)) as [_ [x Hx]]; [discriminate |].
        rewrite Hx in Hname. discriminate. }
  rewrite (get_stream_remote_path E _ _ _ _ _ _ name) by assumption.
  pose proof (fetch_trace_ids_world E (_check_client_or_string fdsnClient) startt endt
                good ([], None) (cache_dir_made w)) as H.
  cbv zeta in H. rewrite Hgood in H. cbn [fst snd] in H.
  destruct H as (_ & Hfs & _ & _ & Heq).
  split; [| split; [exact Hfs | rewrite (Heq acc eq_refl), cache_dir_made_remote; reflexivity]].
  unfold bind.
  assert (Hloop : forall ids a w0,
             fetch_trace_ids E (_check_client_or_string fdsnClient) startt endt ids a w0
               = (Ret acc, w1) ->
             fetch_trace_ids E (_check_client_or_string fdsnClient) startt endt
               (ids ++ bad :: rest) a w0 = (Raise ValueError, w1)).
  { induction ids as [| id ids IH]; intros a w0.
    - cbn [fetch_trace_ids app ret]. intros [= -> ->]. unfold bind, fetch_trace_id.
      destruct (str_split "." bad) as [| n [| s [| l [| ch [| x r]]]]]; try reflexivity.
      exfalso. apply Hbad. reflexivity.
    - cbn [fetch_trace_ids app]. unfold bind.
      destruct (fetch_trace_id E _ startt endt a id w0) as [[a1 | e |] w2];
        try discriminate. apply IH. }
  rewrite (Hloop good _ _ Hgood). reflexivity.
Qed.

(** When the data centre has nothing for any identifier, the loop ends
    with an empty collection after one request each. *)
Lemma fetch_trace_ids_no_data client startt endt ids st this_st w :
  Forall (no_data E client startt endt) ids ->
  exists this_st' w',
    fetch_trace_ids E client startt endt ids (st, this_st) w = (Ret (st, this_st'), w')
    /\ fs w' = fs w /\ archive w' = archive w
    /\ count is_remote (log w') = (length ids + count is_remote (log w))%nat
    /\ count is_archive_write (log w') = count is_archive_write (log w).
Proof.
  intros Hall. revert this_st w. induction Hall as [| id ids Hid Hall IH]; intros this_st w.
  - exists this_st, w. cbn [fetch_trace_ids ret length]. auto.
  - destruct Hid as (n & s & l & c & Hsplit & Hnone).
    cbn [fetch_trace_ids length]. unfold bind.
    assert (Hone : fetch_trace_id E client startt endt (st, this_st) id w
                   = (Ret (st, Some []),
                      record (EvGetWaveforms client (waveform_query startt endt n s l c)) w)).
    { unfold fetch_trace_id. rewrite Hsplit. unfold client_get_waveforms, waveform_query in *.
      wsimpl. destruct Hnone as [-> | ->]; reflexivity. }
    rewrite Hone. cbv beta iota.
    destruct (IH (Some [])
                 (record (EvGetWaveforms client (waveform_query startt endt n s l c)) w))
      as (t' & w' & Hrun & Hfs & Ha & Hc & Hw).
    exists t', w'. split; [exact Hrun |].
    split; [exact Hfs |]. split; [exact Ha |]. split; [| exact Hw].
    rewrite Hc. unfold count. cbn [log record List.filter is_remote length]. lia.
Qed.

(** X8.  When the data centre has nothing for any of the identifiers
    (each request fails or is answered with an empty stream),
    [get_stream] returns the empty stream after one request per
    identifier, and writes no cache file, whether [cache] is set or not. *)
Theorem get_stream_without_data fdsnClient trace_ids startt endt overwrite cache w :
  cache_dir_usable w ->
  trace_ids <> [] ->
  stream_cache_miss E startt endt trace_ids overwrite w ->
  Forall (no_data E (_check_client_or_string fdsnClient) startt endt) trace_ids ->
  exists w',
    get_stream E fdsnClient trace_ids startt endt overwrite cache w = (Ret [], w')
    /\ fs w' = fs (cache_dir_made w)
    /\ archive w' = archive w
    /\ count is_remote (log w') = (length trace_ids + count is_remote (log w))%nat.
Proof.
  intros Hdir Hne Hmiss Hall.
  destruct (MSEED_basename (pads_year E) startt endt trace_ids) as [name |] eqn:Hname.
  2:{ destruct trace_ids as [| id ids]; [congruence |].
      destruct (MSEED_basename_chars (pads_year E) startt endt id ids). congruence. }
  rewrite (get_stream_remote_path E _ _ _ _ _ _ name) by assumption.
  destruct (fetch_trace_ids_no_data (_check_client_or_string fdsnClient) startt endt
              trace_ids [] None (cache_dir_made w) Hall)
    as (t' & w' & Hrun & Hfs & Ha & Hc & _).
  exists w'. unfold bind. unfold Stream in *. rewrite Hrun. unfold get_stream_tail. cbn [fst stream_truthy negb ret].
  split; [reflexivity |]. split; [exact Hfs |]. split.
  - rewrite Ha. unfold cache_dir_made. destruct (fs w !! CACHE_DIR) as [[| c] |]; reflexivity.
  - rewrite Hc, cache_dir_made_remote. reflexivity.
Qed.

(** Identifiers that are all answered with segments merging at once
    leave the concatenation of their merged segments in the collection. *)
Lemma fetch_trace_ids_answered client startt endt ids contributions st this_st w :
  Forall2 (answered E client startt endt) ids contributions ->
  exists this_st' w',
    fetch_trace_ids E client startt endt ids (st, this_st) w
      = (Ret (st ++ concat contributions, this_st'), w')
    /\ fs w' = fs w.
Proof.
  intros Hall. revert st this_st w.
  induction Hall as [| id contrib ids contribs Hid Hall IH]; intros st this_st w.
  - exists this_st, w. cbn [fetch_trace_ids concat ret]. rewrite app_nil_r. auto.
  - destruct Hid as (n & s & l & c & got & Hsplit & Hgot & Htruthy & Hmerge).
    cbn [fetch_trace_ids concat]. unfold bind.
    rewrite (merged_identifier_is_appended E client startt endt st this_st id n s l c got
               contrib w Hsplit Hgot Htruthy Hmerge).
    cbv beta iota.
    destruct (IH (st ++ contrib) (Some contrib)
                 (record (EvGetWaveforms client (mkWaveformQuery n s l c startt endt true)) w))
      as (t' & w' & Hrun & Hfs).
    exists t', w'. rewrite <- app_assoc in Hrun. auto.
Qed.

(** X9.  When every identifier is answered with segments that merge at
    once and the merged segments of all identifiers merge again,
    [get_stream] returns the merge of the identifiers' merged segments,
    concatenated in the order of the list; with [cache] set that stream
    is what the cache file then holds. *)
Theorem get_stream_merges_the_answers
    fdsnClient trace_ids contributions merged startt endt overwrite cache name w :
  cache_dir_usable w ->
  MSEED_basename (pads_year E) startt endt trace_ids = Some name ->
  stream_cache_miss E startt endt trace_ids overwrite w ->
  Forall2 (answered E (_check_client_or_string fdsnClient) startt endt)
    trace_ids contributions ->
  concat contributions <> [] ->
  merge E 0 1 (concat contributions) = Some merged ->
  exists w',
    get_stream E fdsnClient trace_ids startt endt overwrite cache w = (Ret merged, w')
    /\ (cache = true ->
        fs w' !! str (join_chars (chars CACHE_DIR) name) = Some (File (MiniSEED merged)))
    /\ (cache = false -> fs w' = fs (cache_dir_made w)).
Proof.
  intros Hdir Hname Hmiss Hall Hne Hmerge.
  rewrite (get_stream_remote_path E _ _ _ _ _ _ name) by assumption.
  destruct (fetch_trace_ids_answered (_check_client_or_string fdsnClient) startt endt
              trace_ids contributions [] None (cache_dir_made w) Hall)
    as (t' & w1 & Hrun & Hfs).
  cbn [app] in Hrun. unfold bind. unfold Stream in *. rewrite Hrun.
  unfold get_stream_tail, bind, try_, stream_merge, stream_write. cbn [fst snd].
  destruct (concat contributions) as [| tr st] eqn:Hc; [congruence |].
  cbn [stream_truthy negb]. rewrite Hmerge. cbn [of_option ret].
  destruct cache; cbn [ret].
  - eexists. split; [reflexivity |]. split; [| discriminate].
    intros _. cbn [fs record with_fs]. rewrite lookup_insert.
    destruct (decide _); [reflexivity | congruence].
  - exists w1. split; [reflexivity |]. split; [discriminate | auto].
Qed.

End StreamRequestOutcomes.

Section StreamRoundTrip.

Variable E : Env.

Lemma cache_dir_made_dir w : cache_dir_usable w -> fs (cache_dir_made w) !! CACHE_DIR = Some Dir.
Proof.
  intros [H | H]; unfold cache_dir_made; rewrite H; [| exact H].
  cbn [fs record with_fs]. rewrite lookup_insert.
  destruct (decide _); [reflexivity | congruence].
Qed.

(** A file in the cache directory is not the cache directory. *)
Lemma cache_file_is_not_cache_dir name :
  starts_with_slash name = false -> str (join_chars (chars CACHE_DIR) name) <> CACHE_DIR.
Proof.
  intros Hslash Heq.
  assert (Hd : CACHE_DIR = str (chars "./cache")) by reflexivity.
  rewrite Hd in Heq at 2. apply str_inj in Heq.
  unfold join_chars in Heq. rewrite Hslash in Heq.
  change (chars CACHE_DIR) with (chars "./cache") in Heq.
  change (ends_with_slash (chars "./cache")) with false in Heq.
  change (chars "./cache") with ["."; "/"; "c"; "a"; "c"; "h"; "e"]%char in Heq.
  change (chars "/") with ["/"%char] in Heq.
  cbn [orb] in Heq. apply (f_equal (@length ascii)) in Heq.
  rewrite !List.length_app in Heq. cbn [length] in Heq. lia.
Qed.

(** X10.  What [get_stream] returns with [cache] set is what a later
    call for the same identifiers and times gets from the cache: called
    again without [overwrite], it returns the same non-empty stream by
    reading the cache file, and sends no request. *)
Theorem get_stream_cache_round_trip
    fdsnClient fdsnClient' trace_ids startt endt overwrite cache' st w w1 :
  get_stream E fdsnClient trace_ids startt endt overwrite true w = (Ret st, w1) ->
  st <> [] ->
  exists mseedfile,
    get_stream E fdsnClient' trace_ids startt endt false cache' w1
    = (Ret st, record (EvReadStream mseedfile) w1).
Proof.
  intros Hrun Hne.
  assert (Hdir : cache_dir_usable w).
  { destruct (fs w !! CACHE_DIR) as [[| c] |] eqn:Hd; [right; exact Hd | | left; exact Hd].
    unfold get_stream, _get_MSEED_filename in Hrun. unfold bind at 1 2 in Hrun.
    rewrite (make_cache_dir_blocked w c Hd) in Hrun. discriminate Hrun. }
  destruct (MSEED_basename (pads_year E) startt endt trace_ids) as [name |] eqn:Hname.
  2:{ unfold get_stream, _get_MSEED_filename in Hrun. unfold bind at 1 2 in Hrun.
      rewrite (make_cache_dir_usable w Hdir), Hname in Hrun. discriminate Hrun. }
  set (path := str (join_chars (chars CACHE_DIR) name)) in *.
  assert (Hpath : path <> CACHE_DIR).
  { apply cache_file_is_not_cache_dir. eapply MSEED_basename_no_slash; eauto. }
  exists path.
  destruct (file_exists (cache_dir_made w) path && negb overwrite)%bool eqn:Hhit.
  - (* the first call was itself a cache hit *)
    apply andb_true_iff in Hhit as [Hfile Hov].
    unfold get_stream in Hrun. unfold bind at 1 in Hrun.
    rewrite (get_MSEED_filename_run E _ _ _ name w Hdir Hname) in Hrun.
    unfold bind at 1 in Hrun. unfold os_path_isfile in Hrun. fold path in Hrun.
    rewrite Hfile, Hov in Hrun. cbn [andb] in Hrun.
    unfold obspy_read in Hrun.
    destruct (fs (cache_dir_made w) !! path) as [[| [| st0 |]] |] eqn:Hf; try discriminate Hrun.
    injection Hrun as <- <-.
    apply get_stream_cache_hit; [apply cache_dir_made_dir, Hdir | exact Hname | exact Hf].
  - (* the first call asked the data centre and wrote the file *)
    assert (Hmiss : stream_cache_miss E startt endt trace_ids overwrite w).
    { apply andb_false_iff in Hhit as [Hf | Ho].
      - right. intros name' Hn'. rewrite Hname in Hn'. injection Hn' as <-. exact Hf.
      - left. destruct overwrite; [reflexivity | discriminate Ho]. }
    rewrite (get_stream_remote_path E _ _ _ _ _ _ name w Hdir Hname Hmiss) in Hrun.
    fold path in Hrun. unfold bind in Hrun.
    pose proof (fetch_trace_ids_world E (_check_client_or_string fdsnClient) startt endt
                  trace_ids ([], None) (cache_dir_made w)) as H.
    cbv zeta in H. destruct H as (_ & Hfs & _).
    destruct (fetch_trace_ids E _ startt endt trace_ids ([], None) (cache_dir_made w))
      as [[acc | e |] w2]; try discriminate Hrun. cbn [fst snd] in Hfs.
    pose proof (get_stream_tail_world E path true acc w2) as H.
    cbv zeta in H. destruct H as (_ & _ & _ & _ & Hret).
    rewrite Hrun in Hret. specialize (Hret st eq_refl). cbn [andb snd] in Hret.
    destruct (stream_truthy (fst acc)).
    + subst w1.
      apply get_stream_cache_hit; [| exact Hname |]; cbn [fs record with_fs]; fold path.
      * rewrite lookup_insert_ne by auto. rewrite Hfs. apply cache_dir_made_dir, Hdir.
      * rewrite lookup_insert. destruct (decide _); [reflexivity | congruence].
    + destruct Hret as [_ Hempty]. specialize (Hempty eq_refl). congruence.
Qed.

End StreamRoundTrip.

Lemma get_stream_one_request_per_identifier_witness :
  count is_remote
    (log (snd (get_stream Scenario.quiet_env Scenario.iris
                 ["IU.POHA.00.BHZ"; "IU.KIP.00.BHZ"] Scenario.t0 Scenario.t1 true false
                 Scenario.empty_world)))
  = (length ["IU.POHA.00.BHZ"; "IU.KIP.00.BHZ"]
     + count is_remote (log Scenario.empty_world))%nat.
Proof.
  destruct (get_stream_one_request_per_identifier Scenario.quiet_env Scenario.iris
              ["IU.POHA.00.BHZ"; "IU.KIP.00.BHZ"] Scenario.t0 Scenario.t1 true false
              Scenario.empty_world) as [_ H].
  apply (H []).
  - left. vm_compute. reflexivity.
  - left. reflexivity.
  - vm_compute. reflexivity.
Defined.

Lemma get_stream_malformed_identifier_witness :
  get_stream (MergeScenario.env true) Scenario.iris (["XX.AAA..HHZ"] ++ "XX.BBB" :: [])
    Scenario.t0 Scenario.t1 true true Scenario.empty_world
  = (Raise ValueError,
     record (EvGetWaveforms (mkClient "http://service.iris.edu")
               (mkWaveformQuery "XX" "AAA" "" "HHZ" Scenario.t0 Scenario.t1 true))
       (cache_dir_made Scenario.empty_world))
  /\ fs (record (EvGetWaveforms (mkClient "http://service.iris.edu")
                   (mkWaveformQuery "XX" "AAA" "" "HHZ" Scenario.t0 Scenario.t1 true))
           (cache_dir_made Scenario.empty_world))
     = fs (cache_dir_made Scenario.empty_world)
  /\ count is_remote
       (log (record (EvGetWaveforms (mkClient "http://service.iris.edu")
                       (mkWaveformQuery "XX" "AAA" "" "HHZ" Scenario.t0 Scenario.t1 true))
               (cache_dir_made Scenario.empty_world)))
     = (length ["XX.AAA..HHZ"] + count is_remote (log Scenario.empty_world))%nat.
Proof.
  apply (get_stream_malformed_identifier (MergeScenario.env true) Scenario.iris
           ["XX.AAA..HHZ"] "XX.BBB" [] Scenario.t0 Scenario.t1 true true
           ([MergeScenario.tr_fast], Some [MergeScenario.tr_fast])).
  - left. vm_compute. reflexivity.
  - left. reflexivity.
  - vm_compute. lia.
  - vm_compute. reflexivity.
Defined.

Lemma get_stream_without_data_witness :
  exists w',
    get_stream Scenario.quiet_env Scenario.iris ["IU.POHA.00.BHZ"; "IU.KIP.00.BHZ"]
      Scenario.t0 Scenario.t1 false true Scenario.empty_world = (Ret [], w')
    /\ fs w' = fs (cache_dir_made Scenario.empty_world)
    /\ archive w' = archive Scenario.empty_world
    /\ count is_remote (log w')
       = (length ["IU.POHA.00.BHZ"; "IU.KIP.00.BHZ"]
          + count is_remote (log Scenario.empty_world))%nat.
Proof.
  apply (get_stream_without_data Scenario.quiet_env).
  - left. vm_compute. reflexivity.
  - discriminate.
  - right. intros name Hname. vm_compute in Hname. injection Hname as <-.
    vm_compute. reflexivity.
  - repeat constructor.
    + exists "IU", "POHA", "00", "BHZ". split; [vm_compute; reflexivity | left; reflexivity].
    + exists "IU", "KIP", "00", "BHZ". split; [vm_compute; reflexivity | left; reflexivity].
Defined.

Lemma get_stream_merges_the_answers_witness :
  exists w',
    get_stream (MergeScenario.env true) Scenario.iris ["XX.AAA..HHZ"; "XX.BBB..HHZ"]
      Scenario.t0 Scenario.t1 true true Scenario.empty_world
    = (Ret [MergeScenario.tr_fast; MergeScenario.tr_other], w')
    /\ (true = true ->
        fs w' !! str (join_chars (chars CACHE_DIR)
                        (chars "202311142213_202311152213_XX.AAA..HHZ_XX.BBB..HHZ.MSEED"))
        = Some (File (MiniSEED [MergeScenario.tr_fast; MergeScenario.tr_other])))
    /\ (true = false -> fs w' = fs (cache_dir_made Scenario.empty_world)).
Proof.
  apply (get_stream_merges_the_answers (MergeScenario.env true) Scenario.iris
           ["XX.AAA..HHZ"; "XX.BBB..HHZ"]
           [[MergeScenario.tr_fast]; [MergeScenario.tr_other]]).
  - left. vm_compute. reflexivity.
  - vm_compute. reflexivity.
  - left. reflexivity.
  - repeat constructor.
    + exists "XX", "AAA", "", "HHZ", [MergeScenario.tr_fast].
      repeat split; vm_compute; reflexivity.
    + exists "XX", "BBB", "", "HHZ", [MergeScenario.tr_other].
      repeat split; vm_compute; reflexivity.
  - discriminate.
  - vm_compute. reflexivity.
Defined.

Lemma get_stream_cache_round_trip_witness :
  exists mseedfile,
    get_stream (MergeScenario.env true) (IsStr "http://elsewhere.example")
      ["XX.AAA..HHZ"; "XX.BBB..HHZ"] Scenario.t0 Scenario.t1 false false
      (snd (get_stream (MergeScenario.env true) Scenario.iris ["XX.AAA..HHZ"; "XX.BBB..HHZ"]
              Scenario.t0 Scenario.t1 true true Scenario.empty_world))
    = (Ret [MergeScenario.tr_fast; MergeScenario.tr_other],
       record (EvReadStream mseedfile)
         (snd (get_stream (MergeScenario.env true) Scenario.iris
                 ["XX.AAA..HHZ"; "XX.BBB..HHZ"]
                 Scenario.t0 Scenario.t1 true true Scenario.empty_world))).
Proof.
  apply (get_stream_cache_round_trip (MergeScenario.env true) Scenario.iris
           (IsStr "http://elsewhere.example") ["XX.AAA..HHZ"; "XX.BBB..HHZ"]
           Scenario.t0 Scenario.t1 true false
           [MergeScenario.tr_fast; MergeScenario.tr_other] Scenario.empty_world).
  - vm_compute. reflexivity.
  - discriminate.
Defined.

(** ** Loops of the wrappers *)

Section Loops.

(** A relation between worlds that every pass of the body keeps is kept
    by the loop, whatever way it ends. *)
Lemma while_invariant {S : Type} (I : S -> Prop) (R : World -> World -> Prop)
    (cond : S -> bool) (body : S -> M S) :
  (forall w, R w w) ->
  (forall a b c, R a b -> R b c -> R a c) ->
  (forall s w, I s -> cond s = true ->
     R w (snd (body s w)) /\ forall s', fst (body s w) = Ret s' -> I s') ->
  forall fuel s w, I s -> R w (snd (while_ fuel cond body s w)).
Proof.
  intros Hrefl Htrans Hbody. induction fuel as [| fuel IH]; intros s w Hs.
  - apply Hrefl.
  - cbn [while_]. destruct (cond s) eqn:Hc; [| apply Hrefl].
    destruct (Hbody s w Hs Hc) as [HR HI]. unfold bind.
    destruct (body s w) as [[s1 | e |] w1]; cbn [fst snd] in *; [| exact HR | exact HR].
    apply (Htrans _ w1); [exact HR |]. apply IH. apply HI. reflexivity.
Qed.

(** A loop whose condition holds again after every pass that returns
    does not return. *)
Lemma while_never_returns {S : Type} (cond : S -> bool) (body : S -> M S) :
  (forall s w s', cond s = true -> fst (body s w) = Ret s' -> cond s' = true) ->
  forall fuel s w s', cond s = true -> fst (while_ fuel cond body s w) <> Ret s'.
Proof.
  intros Hbody. induction fuel as [| fuel IH]; intros s w s' Hc.
  - discriminate.
  - cbn [while_]. rewrite Hc. unfold bind.
    pose proof (Hbody s w) as Hb.
    destruct (body s w) as [[s1 | e |] w1]; cbn [fst] in *; try discriminate.
    apply IH. apply (Hb s1 Hc eq_refl).
Qed.

(** Growth of the log composes. *)
Lemma grows_by_refl P w : grows_by P w w.
Proof. exists []. auto. Qed.

Lemma grows_by_trans P a b c : grows_by P a b -> grows_by P b c -> grows_by P a c.
Proof.
  intros (l1 & L1 & P1) (l2 & L2 & P2).
  exists (l2 ++ l1). rewrite L2, L1, app_assoc. split; [reflexivity |].
  rewrite forallb_app, P1, P2. reflexivity.
Qed.

Lemma grows_by_count (P p : Event -> bool) a b :
  grows_by P a b -> (forall e, P e = true -> p e = false) ->
  count p (log b) = count p (log a).
Proof.
  intros (l & Hl & HP) Hp. rewrite Hl. unfold count.
  rewrite List.filter_app, List.length_app.
  replace (List.filter p l) with (@nil Event); [reflexivity |].
  clear Hl. induction l as [| e l IH]; [reflexivity |].
  cbn [forallb] in HP. apply andb_true_iff in HP as [He Hl]. cbn [List.filter].
  rewrite (Hp e He). auto.
Qed.

Lemma reads_only_refl w : reads_only w w.
Proof. split; [reflexivity |]. split; [reflexivity | apply grows_by_refl]. Qed.

Lemma reads_only_trans a b c : reads_only a b -> reads_only b c -> reads_only a c.
Proof.
  intros (F1 & A1 & G1) (F2 & A2 & G2).
  split; [congruence |]. split; [congruence |]. eapply grows_by_trans; eauto.
Qed.

(** How many steps of [step] seconds a loop takes from [ptr] up to [endt]. *)
Lemma spans_next endt ptr step n :
  0 < step -> spans endt ptr step (S n) -> spans endt (utc_add ptr step) step n.
Proof.
  unfold spans, utc_add, ns_per_sec. intros Hstep H. destruct n as [| n]; lia.
Qed.

(** A loop whose body counts one event of kind [p] and moves the pointer
    by [step] seconds takes, over a range that spans [N] steps, exactly
    [N] passes unless an exception leaves it early. *)
Lemma stepped_loop_iterations {S : Type} (I : S -> Prop) (ptr : S -> UTCDateTime)
    (body : S -> M S) (p : Event -> bool) endt step :
  0 < step ->
  (forall s w, I s ->
      fst (body s w) <> OutOfFuel
      /\ count p (log (snd (body s w))) = Datatypes.S (count p (log w))
      /\ forall s', fst (body s w) = Ret s' -> I s' /\ ptr s' = utc_add (ptr s) step) ->
  forall (N fuel : nat) s w,
    I s -> spans endt (ptr s) step N -> (N < fuel)%nat ->
    match while_ fuel (fun s => utc_ltb (ptr s) endt) body s w with
    | (Ret s', w') => count p (log w') = (N + count p (log w))%nat
    | (Raise _, w') =>
        exists k, (1 <= k <= N)%nat /\ count p (log w') = (k + count p (log w))%nat
    | (OutOfFuel, _) => False
    end.
Proof.
  intros Hstep Hbody. induction N as [| N IH]; intros fuel s w Hs Hspan Hfuel.
  - destruct fuel as [| fuel]; [lia |]. cbn [while_]. unfold utc_ltb.
    cbn [spans] in Hspan.
    destruct (Z.ltb_spec (ptr s) endt); [lia |]. reflexivity.
  - destruct fuel as [| fuel]; [lia |]. cbn [while_]. unfold utc_ltb.
    assert (Hlt : ptr s < endt).
    { cbn [spans] in Hspan. unfold utc_add, ns_per_sec in Hspan. nia. }
    destruct (Z.ltb_spec (ptr s) endt); [| lia].
    destruct (Hbody s w Hs) as (Hf & Hc & Hp). unfold bind.
    destruct (body s w) as [[s1 | e |] w1]; cbn [fst snd] in *.
    + destruct (Hp s1 eq_refl) as [Hs1 Hptr].
      specialize (IH fuel s1 w1 Hs1).
      rewrite Hptr in IH. specialize (IH (spans_next _ _ _ _ Hstep Hspan) ltac:(lia)).
      change (while_ fuel (fun s0 : S => utc_ltb (ptr s0) endt) body s1 w1)
        with (while_ fuel (fun s0 : S => ptr s0 <? endt) body s1 w1) in IH.
      destruct (while_ fuel (fun s0 : S => ptr s0 <? endt) body s1 w1) as [[s2 | e |] w2].
      * lia.
      * destruct IH as [k [Hk Hcount]]. exists (Datatypes.S k). split; lia.
      * exact IH.
    + exists 1%nat. split; lia.
    + congruence.
Qed.

End Loops.

(** ** The ends of the day loops *)

Section WrapperRanges.

Variable E : Env.

(** X11.  On an empty or reversed time range ([endt <= startt]) each of
    the four wrappers returns at once: no archive read, no request, no
    write, and no exception -- not even from [SDS_to_RSAM_wrapper] and
    [SDS_to_ICEWEB_wrapper] without inventory, whose first pass would
    raise. *)
Theorem wrappers_on_empty_range
    fuel startt endt SDS_TOP lat lon rad trace_ids fdsnURL overwrite inv
    windowlength verbose sgrammins subnet SGRAM_TOP w :
  endt <= startt ->
  FDSN_to_SDS_daily_wrapper E (S fuel) startt endt SDS_TOP lat lon rad trace_ids fdsnURL
    overwrite inv w = (Ret tt, w)
  /\ SDS_to_RSAM_wrapper E (S fuel) startt endt SDS_TOP lat lon inv trace_ids overwrite w
     = (Ret tt, w)
  /\ SDS_to_spectrogram_wrapper E (S fuel) startt endt SDS_TOP trace_ids windowlength
       overwrite inv w = (Ret tt, w)
  /\ SDS_to_ICEWEB_wrapper E (S fuel) startt endt SDS_TOP lat lon inv trace_ids overwrite
       verbose sgrammins subnet SGRAM_TOP w = (Ret tt, w).
Proof.
  intros Hle.
  unfold FDSN_to_SDS_daily_wrapper, SDS_to_RSAM_wrapper, SDS_to_spectrogram_wrapper,
    SDS_to_ICEWEB_wrapper, bind.
  cbn [while_ f_startt i_sod]. unfold utc_ltb.
  destruct (Z.ltb_spec startt endt); [lia |]. auto.
Qed.


End WrapperRanges.

Lemma wrappers_on_empty_range_witness :
  FDSN_to_SDS_daily_wrapper Scenario.quiet_env 1 Scenario.t1 Scenario.t0 "SDS" None None None
    None Scenario.iris true None Scenario.empty_world = (Ret tt, Scenario.empty_world)
  /\ SDS_to_RSAM_wrapper Scenario.quiet_env 1 Scenario.t1 Scenario.t0 "SDS" None None None
       None true Scenario.empty_world = (Ret tt, Scenario.empty_world)
  /\ SDS_to_spectrogram_wrapper Scenario.quiet_env 1 Scenario.t1 Scenario.t0 "SDS" None 600
       true None Scenario.empty_world = (Ret tt, Scenario.empty_world)
  /\ SDS_to_ICEWEB_wrapper Scenario.quiet_env 1 Scenario.t1 Scenario.t0 "SDS" None None None
       None true false 10 None "." Scenario.empty_world = (Ret tt, Scenario.empty_world).
Proof.
  apply (wrappers_on_empty_range Scenario.quiet_env 0 Scenario.t1 Scenario.t0 "SDS"
           None None None None Scenario.iris true None 600 false 10 None "."
           Scenario.empty_world).
  vm_compute. discriminate.
Defined.


Section DerivedMetrics.

Variable E : Env.

(** One day of [SDS_to_RSAM_wrapper] reads the archive and does nothing
    else to the world. *)
Lemma SDS_to_RSAM_day_world SDS_TOP lat lon inv trace_ids overwrite startt w :
  reads_only w (snd (SDS_to_RSAM_day E SDS_TOP lat lon inv trace_ids overwrite startt w)).
Proof.
  unfold SDS_to_RSAM_day, bind, SDS_read. cbn [fst snd].
  destruct ((fst (sds_read E (archive w) SDS_TOP _ _ trace_ids) =? 0) || overwrite)%bool.
  - rewrite load_unbound_RSAMobj. cbn [snd].
    split; [reflexivity |]. split; [reflexivity |].
    eexists [_]. split; reflexivity.
  - cbn [ret snd]. split; [reflexivity |]. split; [reflexivity |].
    eexists [_]. split; reflexivity.
Qed.

(** X13.  [SDS_to_RSAM_wrapper] never produces anything: whatever its
    arguments and however it ends, it has only read the day archive --
    no file, no archive volume and no metric series has been written.
    It returns only when there was nothing to do: on a non-empty range
    only if [overwrite] is unset and the first read returned a non-zero
    code. *)
Theorem SDS_to_RSAM_wrapper_writes_nothing
    fuel startt endt SDS_TOP lat lon inv trace_ids overwrite w :
  let r := SDS_to_RSAM_wrapper E fuel startt endt SDS_TOP lat lon inv trace_ids overwrite w in
  reads_only w (snd r)
  /\ count is_archive_write (log (snd r)) = count is_archive_write (log w)
  /\ (fst r = Ret tt -> startt < endt ->
      overwrite = false /\ rsam_read_code E SDS_TOP trace_ids startt w <> 0).
Proof.
  cbv zeta.
  assert (Hreads : reads_only w
            (snd (SDS_to_RSAM_wrapper E fuel startt endt SDS_TOP lat lon inv trace_ids
                    overwrite w))).
  { unfold SDS_to_RSAM_wrapper, bind.
    pose proof (while_invariant (fun _ : UTCDateTime => True) reads_only
                  (fun t => utc_ltb t endt)
                  (SDS_to_RSAM_day E SDS_TOP lat lon inv trace_ids overwrite)
                  reads_only_refl reads_only_trans) as H.
    specialize (H (fun s w0 _ _ => conj (SDS_to_RSAM_day_world SDS_TOP lat lon inv trace_ids
                                           overwrite s w0) (fun _ _ => I))
                  fuel startt w I).
    destruct (while_ fuel _ _ startt w) as [[t | e |] w1]; exact H. }
  split; [exact Hreads |]. split.
  - destruct Hreads as (_ & _ & G). apply (grows_by_count is_sds_read); [exact G |].
    intros e. destruct e; cbn; intros H; (reflexivity || discriminate H).
  - unfold SDS_to_RSAM_wrapper, bind. destruct fuel as [| fuel]; [discriminate |].
    cbn [while_]. unfold utc_ltb. intros Hret Hlt.
    destruct (Z.ltb_spec startt endt); [| lia].
    unfold bind at 1 in Hret. unfold SDS_to_RSAM_day at 1 in Hret.
    unfold bind at 1 2 in Hret. unfold SDS_read in Hret. cbn [fst snd] in Hret.
    unfold rsam_read_code.
    destruct (fst (sds_read E (archive w) SDS_TOP (utc_sub startt 3600)
                     (utc_add (utc_add startt secsPerDay) 3600) trace_ids) =? 0) eqn:Hrc.
    + cbn [orb] in Hret. unfold bind at 1 in Hret. rewrite load_unbound_RSAMobj in Hret.
      discriminate Hret.
    + destruct overwrite.
      * cbn [orb] in Hret. unfold bind at 1 in Hret. rewrite load_unbound_RSAMobj in Hret.
        discriminate Hret.
      * split; [reflexivity |]. apply Z.eqb_neq. exact Hrc.
Qed.

End DerivedMetrics.

Lemma SDS_to_RSAM_wrapper_writes_nothing_witness :
  fst (SDS_to_RSAM_wrapper Scenario.quiet_env 3 Scenario.t0 Scenario.t2 "SDS" None None None
         None false Scenario.empty_world) = Ret tt
  /\ reads_only Scenario.empty_world
       (snd (SDS_to_RSAM_wrapper Scenario.quiet_env 3 Scenario.t0 Scenario.t2 "SDS" None None
               None None false Scenario.empty_world))
  /\ count is_archive_write
       (log (snd (SDS_to_RSAM_wrapper Scenario.quiet_env 3 Scenario.t0 Scenario.t2 "SDS" None
                    None None None false Scenario.empty_world)))
     = count is_archive_write (log Scenario.empty_world)
  /\ rsam_read_code Scenario.quiet_env "SDS" None Scenario.t0 Scenario.empty_world <> 0.
Proof.
  destruct (SDS_to_RSAM_wrapper_writes_nothing Scenario.quiet_env 3 Scenario.t0 Scenario.t2
              "SDS" None None None None false Scenario.empty_world) as (H1 & H2 & H3).
  split; [vm_compute; reflexivity |]. split; [exact H1 |]. split; [exact H2 |].
  apply H3; vm_compute; reflexivity.
Defined.

(** ** Where [FDSN_to_SDS_daily_wrapper] takes its identifiers from *)

Section IdentifierSources.

Variable E : Env.

Lemma ids_truthy_of_inventory i :
  inventory2traceid E i <> [] -> ids_truthy (Some (inventory2traceid E i)) = true.
Proof. destruct (inventory2traceid E i); [congruence | reflexivity]. Qed.

(** With identifiers at hand the fallback is a fetch of their waveforms
    followed by a write into the day archive. *)
Lemma FDSN_fallback_fetches SDS_TOP lat lon rad url overwrite eod s :
  has_identifiers E s ->
  exists s1,
    ids_truthy (f_trace_ids s1) = true
    /\ f_startt s1 = f_startt s
    /\ (ids_truthy (f_trace_ids s) = true -> s1 = s)
    /\ forall w,
         FDSN_fallback E SDS_TOP lat lon rad url overwrite eod s w
         = match get_stream E url (ids_list (f_trace_ids s1)) (f_startt s1) eod
                   overwrite false w with
           | (Ret st, w1) =>
               (Ret s1, record (EvSDSWrite SDS_TOP st overwrite)
                          (with_archive (sds_write E (archive w1) SDS_TOP st overwrite) w1))
           | (Raise e, w1) => (Raise e, w1)
           | (OutOfFuel, w1) => (OutOfFuel, w1)
           end.
Proof.
  intros Hs. destruct (ids_truthy (f_trace_ids s)) eqn:Hids.
  - exists s. split; [exact Hids |]. split; [reflexivity |]. split; [reflexivity |].
    intros w. unfold FDSN_fallback, bind. rewrite Hids. cbn [negb ret]. rewrite Hids.
    destruct (get_stream E url _ _ eod overwrite false w) as [[st | e |] w1]; reflexivity.
  - destruct Hs as [Hs | (i & Hi & Hne)]; [congruence |].
    exists (mkFdsnState (f_startt s) (Some (inventory2traceid E i)) (f_inv s)).
    cbn [f_trace_ids f_startt].
    split; [apply ids_truthy_of_inventory, Hne |]. split; [reflexivity |].
    split; [discriminate |].
    intros w. unfold FDSN_fallback, bind. rewrite Hids, Hi. cbn [negb ret f_trace_ids f_startt].
    rewrite (ids_truthy_of_inventory i Hne).
    destruct (get_stream E url _ _ eod overwrite false w) as [[st | e |] w1]; reflexivity.
Qed.

(** With identifiers at hand the fallback sends no station request and
    keeps identifiers at hand. *)
Lemma FDSN_fallback_with_identifiers SDS_TOP lat lon rad url overwrite eod s w :
  has_identifiers E s ->
  count is_station_request
    (log (snd (FDSN_fallback E SDS_TOP lat lon rad url overwrite eod s w)))
  = count is_station_request (log w)
  /\ forall s1, fst (FDSN_fallback E SDS_TOP lat lon rad url overwrite eod s w) = Ret s1 ->
                has_identifiers E s1.
Proof.
  intros Hs.
  destruct (FDSN_fallback_fetches SDS_TOP lat lon rad url overwrite eod s Hs)
    as (s1 & Hids1 & _ & _ & Hrun).
  rewrite Hrun.
  pose proof (emits_only_count stream_event is_station_request _ w
                (emits_stream_get_stream E url (ids_list (f_trace_ids s1)) (f_startt s1)
                   eod overwrite false)) as Hc.
  assert (Hse : forall e, stream_event e = true -> is_station_request e = false).
  { intros e. destruct e; cbn; intros H; (reflexivity || discriminate H). }
  specialize (Hc Hse).
  destruct (get_stream E url _ _ eod overwrite false w) as [[st | e |] w1];
    cbn [fst snd] in *.
  - split; [exact Hc |]. intros s2 [= <-]. left. exact Hids1.
  - split; [exact Hc | discriminate].
  - split; [exact Hc | discriminate].
Qed.

Lemma FDSN_to_SDS_day_with_identifiers SDS_TOP lat lon rad url overwrite s w :
  has_identifiers E s ->
  count is_station_request
    (log (snd (FDSN_to_SDS_day E SDS_TOP lat lon rad url overwrite s w)))
  = count is_station_request (log w)
  /\ forall s', fst (FDSN_to_SDS_day E SDS_TOP lat lon rad url overwrite s w) = Ret s' ->
                has_identifiers E s'.
Proof.
  intros Hs. rewrite FDSN_to_SDS_day_unfold.
  destruct (negb _ || overwrite)%bool.
  - destruct (FDSN_fallback_with_identifiers SDS_TOP lat lon rad url overwrite
                (utc_add (f_startt s) secsPerDay) s (record (fdsn_read_event SDS_TOP s) w) Hs)
      as [Hc Hi].
    destruct (FDSN_fallback E SDS_TOP lat lon rad url overwrite _ s _) as [[s1 | e |] w1];
      cbn [fst snd] in *.
    + split; [exact Hc |]. intros s' [= <-]. apply (Hi s1 eq_refl).
    + split; [exact Hc | discriminate].
    + split; [exact Hc | discriminate].
  - cbn [fst snd]. split; [reflexivity |]. intros s' [= <-]. exact Hs.
Qed.

(** X14.  Identifiers passed in [trace_ids], or else those of a passed
    inventory, take precedence over the circular search: when
    [trace_ids] is a non-empty list, or [inv] is an inventory that
    yields identifiers, [FDSN_to_SDS_daily_wrapper] never sends a
    station-metadata request, on any day and however the run ends. *)
Theorem FDSN_to_SDS_daily_wrapper_skips_station_search
    fuel startt endt SDS_TOP lat lon rad trace_ids fdsnURL overwrite inv w :
  has_identifiers E (mkFdsnState startt trace_ids inv) ->
  count is_station_request
    (log (snd (FDSN_to_SDS_daily_wrapper E fuel startt endt SDS_TOP lat lon rad trace_ids
                 fdsnURL overwrite inv w)))
  = count is_station_request (log w).
Proof.
  intros Hs. unfold FDSN_to_SDS_daily_wrapper, bind.
  pose proof (while_invariant (has_identifiers E)
                (fun a b => count is_station_request (log b) = count is_station_request (log a))
                (fun s => utc_ltb (f_startt s) endt)
                (FDSN_to_SDS_day E SDS_TOP lat lon rad fdsnURL overwrite)
                (fun _ => eq_refl)
                (fun a b c Hab Hbc => eq_trans Hbc Hab)
                (fun s w0 Hs0 _ =>
                   FDSN_to_SDS_day_with_identifiers SDS_TOP lat lon rad fdsnURL overwrite
                     s w0 Hs0)
                fuel (mkFdsnState startt trace_ids inv) w Hs) as H.
  destruct (while_ fuel _ _ _ w) as [[s' | e |] w']; exact H.
Qed.

(** A day with identifiers given and [overwrite] set: the archive is
    written once when the day comes to its end, and not at all when the
    fetch raised. *)
Lemma FDSN_to_SDS_day_overwrite SDS_TOP lat lon rad url s w :
  ids_truthy (f_trace_ids s) = true ->
  fst (FDSN_to_SDS_day E SDS_TOP lat lon rad url true s w) <> OutOfFuel
  /\ (forall s', fst (FDSN_to_SDS_day E SDS_TOP lat lon rad url true s w) = Ret s' ->
        (ids_truthy (f_trace_ids s') = true
         /\ f_startt s' = utc_add (f_startt s) secsPerDay)
        /\ count is_sds_write (log (snd (FDSN_to_SDS_day E SDS_TOP lat lon rad url true s w)))
           = S (count is_sds_write (log w)))
  /\ (forall e, fst (FDSN_to_SDS_day E SDS_TOP lat lon rad url true s w) = Raise e ->
        count is_sds_write (log (snd (FDSN_to_SDS_day E SDS_TOP lat lon rad url true s w)))
        = count is_sds_write (log w)).
Proof.
  intros Hids. rewrite FDSN_to_SDS_day_unfold. rewrite orb_true_r.
  destruct (FDSN_fallback_fetches SDS_TOP lat lon rad url true
              (utc_add (f_startt s) secsPerDay) s (or_introl Hids))
    as (s1 & Hids1 & Hptr & Hsame & Hrun).
  rewrite Hrun. rewrite (Hsame Hids) in *.
  set (w1 := record (fdsn_read_event SDS_TOP s) w).
  pose proof (emits_stream_get_stream E url (ids_list (f_trace_ids s)) (f_startt s)
                (utc_add (f_startt s) secsPerDay) true false) as Hem.
  pose proof (emits_only_count stream_event is_sds_write _ w1 Hem) as Hc.
  assert (Hse : forall e, stream_event e = true -> is_sds_write e = false).
  { intros e. destruct e; cbn; intros H; (reflexivity || discriminate H). }
  specialize (Hc Hse). destruct (Hem w1) as [Hf _].
  destruct (get_stream E url _ _ _ true false w1) as [[st | e |] w2]; cbn [fst snd] in *.
  - split; [discriminate |]. split; [| discriminate].
    intros s' [= <-]. split; [split; [exact Hids | reflexivity] |].
    unfold count in *. cbn [log record with_archive List.filter is_sds_write length].
    rewrite Hc. reflexivity.
  - split; [discriminate |]. split; [discriminate |]. intros _ _. exact Hc.
  - congruence.
Qed.

(** X15.  With identifiers given and [overwrite] set,
    [FDSN_to_SDS_daily_wrapper] over [N] whole days writes the day
    archive once per day -- [N] writes when it returns, also for days
    whose fetch came back empty -- and fewer than [N] when a fetch
    raised, which ends the run. *)
Theorem FDSN_to_SDS_daily_wrapper_writes_each_day
    (N fuel : nat) startt SDS_TOP lat lon rad trace_ids fdsnURL inv w :
  (N < fuel)%nat ->
  ids_truthy trace_ids = true ->
  match FDSN_to_SDS_daily_wrapper E fuel startt (utc_add startt (Z.of_nat N * secsPerDay))
          SDS_TOP lat lon rad trace_ids fdsnURL true inv w with
  | (Ret _, w') => count is_sds_write (log w') = (N + count is_sds_write (log w))%nat
  | (Raise _, w') => (count is_sds_write (log w') < N + count is_sds_write (log w))%nat
  | (OutOfFuel, _) => False
  end.
Proof.
  intros Hfuel Hids. unfold FDSN_to_SDS_daily_wrapper, bind.
  set (endt := utc_add startt (Z.of_nat N * secsPerDay)).
  assert (Hloop : forall (n f : nat) s w0,
             ids_truthy (f_trace_ids s) = true ->
             utc_add (f_startt s) (Z.of_nat n * secsPerDay) = endt -> (n < f)%nat ->
             match while_ f (fun s => utc_ltb (f_startt s) endt)
                     (FDSN_to_SDS_day E SDS_TOP lat lon rad fdsnURL true) s w0 with
             | (Ret _, w') =>
                 count is_sds_write (log w') = (n + count is_sds_write (log w0))%nat
             | (Raise _, w') =>
                 (count is_sds_write (log w') < n + count is_sds_write (log w0))%nat
             | (OutOfFuel, _) => False
             end).
  { clear Hfuel. induction n as [| n IH]; intros f s w0 Hs Hend Hf.
    - destruct f as [| f]; [lia |]. cbn [while_]. unfold utc_ltb.
      unfold utc_add, secsPerDay, ns_per_sec in Hend.
      destruct (Z.ltb_spec (f_startt s) endt); [lia |]. reflexivity.
    - destruct f as [| f]; [lia |]. cbn [while_]. unfold utc_ltb.
      assert (Hlt : f_startt s < endt).
      { unfold utc_add, secsPerDay, ns_per_sec in Hend. lia. }
      destruct (Z.ltb_spec (f_startt s) endt); [| lia].
      destruct (FDSN_to_SDS_day_overwrite SDS_TOP lat lon rad fdsnURL s w0 Hs)
        as (Hnf & Hret & Hraise).
      unfold bind.
      destruct (FDSN_to_SDS_day E SDS_TOP lat lon rad fdsnURL true s w0)
        as [[s1 | e |] w1]; cbn [fst snd] in *.
      + destruct (Hret s1 eq_refl) as [[Hs1 Hptr] Hc].
        assert (Hend1 : utc_add (f_startt s1) (Z.of_nat n * secsPerDay) = endt).
        { rewrite Hptr. revert Hend. unfold utc_add, secsPerDay, ns_per_sec. lia. }
        specialize (IH f s1 w1 Hs1 Hend1 ltac:(lia)).
        change (while_ f (fun s0 => utc_ltb (f_startt s0) endt)
                  (FDSN_to_SDS_day E SDS_TOP lat lon rad fdsnURL true) s1 w1)
          with (while_ f (fun s0 => f_startt s0 <? endt)
                  (FDSN_to_SDS_day E SDS_TOP lat lon rad fdsnURL true) s1 w1) in IH.
        destruct (while_ f (fun s0 => f_startt s0 <? endt)
                    (FDSN_to_SDS_day E SDS_TOP lat lon rad fdsnURL true) s1 w1)
          as [[s2 | e |] w2]; [lia | lia | exact IH].
      + rewrite (Hraise e eq_refl). lia.
      + congruence. }
  specialize (Hloop N fuel (mkFdsnState startt trace_ids inv) w Hids eq_refl Hfuel).
  destruct (while_ fuel _ _ _ w) as [[s' | e |] w']; exact Hloop.
Qed.

End IdentifierSources.

Lemma FDSN_to_SDS_daily_wrapper_skips_station_search_witness :
  count is_station_request
    (log (snd (FDSN_to_SDS_daily_wrapper Scenario.quiet_env 3 Scenario.t0 Scenario.t2 "SDS"
                 None None None (Some ["IU.POHA.00.BHZ"]) Scenario.iris true None
                 Scenario.empty_world)))
  = count is_station_request (log Scenario.empty_world).
Proof.
  apply (FDSN_to_SDS_daily_wrapper_skips_station_search Scenario.quiet_env 3 Scenario.t0
           Scenario.t2 "SDS" None None None (Some ["IU.POHA.00.BHZ"]) Scenario.iris true None
           Scenario.empty_world).
  left. reflexivity.
Defined.

Lemma FDSN_to_SDS_daily_wrapper_writes_each_day_witness :
  fst (FDSN_to_SDS_daily_wrapper Scenario.quiet_env 3 Scenario.t0
         (utc_add Scenario.t0 (Z.of_nat 2 * secsPerDay))
         "SDS" None None None (Some ["IU.POHA.00.BHZ"]) Scenario.iris true None
         Scenario.empty_world) = Ret tt
  /\ count is_sds_write
       (log (snd (FDSN_to_SDS_daily_wrapper Scenario.quiet_env 3 Scenario.t0
                    (utc_add Scenario.t0 (Z.of_nat 2 * secsPerDay))
                    "SDS" None None None (Some ["IU.POHA.00.BHZ"]) Scenario.iris true None
                    Scenario.empty_world)))
     = (2 + count is_sds_write (log Scenario.empty_world))%nat.
Proof.
  pose proof (FDSN_to_SDS_daily_wrapper_writes_each_day Scenario.quiet_env 2 3 Scenario.t0
                "SDS" None None None (Some ["IU.POHA.00.BHZ"]) Scenario.iris None
                Scenario.empty_world ltac:(lia) eq_refl) as H.
  assert (Hr : fst (FDSN_to_SDS_daily_wrapper Scenario.quiet_env 3 Scenario.t0
                      (utc_add Scenario.t0 (Z.of_nat 2 * secsPerDay))
                      "SDS" None None None (Some ["IU.POHA.00.BHZ"]) Scenario.iris true None
                      Scenario.empty_world) = Ret tt) by (vm_compute; reflexivity).
  revert H Hr.
  destruct (FDSN_to_SDS_daily_wrapper Scenario.quiet_env 3 Scenario.t0
              (utc_add Scenario.t0 (Z.of_nat 2 * secsPerDay))
              "SDS" None None None (Some ["IU.POHA.00.BHZ"]) Scenario.iris true None
              Scenario.empty_world) as [[u | e |] w']; cbn [fst snd]; intros H Hr;
    [split; [exact Hr | exact H] | discriminate Hr | discriminate Hr].
Defined.

(** ** The window loop of [SDS_to_spectrogram_wrapper] *)

Section SpectrogramRuns.

Variable E : Env.

(** Response removal touches nothing outside: its outcome does not
    depend on the world, which it leaves as it is. *)
Lemma correct_seismic_channels_pure inv st :
  exists r, forall w, correct_seismic_channels E inv st w = (r, w) /\ r <> OutOfFuel.
Proof.
  induction st as [| tr st [r IH]]; cbn [correct_seismic_channels].
  - exists (Ret []). intros w. split; [reflexivity | discriminate].
  - destruct (third_char (channel tr)) as [c |].
    2:{ exists (Raise IndexError). intros w. split; [reflexivity | discriminate]. }
    destruct (in_ENZ c).
    + destruct (remove_response E "DISP" inv tr) as [tr' |].
      * destruct r as [rest | e |].
        -- exists (Ret (tr' :: rest)). intros w. unfold bind. cbn [of_option ret].
           destruct (IH w) as [-> _]. split; [reflexivity | discriminate].
        -- exists (Raise e). intros w. unfold bind. cbn [of_option ret].
           destruct (IH w) as [-> _]. split; [reflexivity | discriminate].
        -- destruct (IH (mkWorld ∅ [] [])) as [_ H]. congruence.
      * exists (Raise LibraryError). intros w. split; [reflexivity | discriminate].
    + destruct r as [rest | e |].
      * exists (Ret (tr :: rest)). intros w. unfold bind. cbn [ret].
        destruct (IH w) as [-> _]. split; [reflexivity | discriminate].
      * exists (Raise e). intros w. unfold bind. cbn [ret].
        destruct (IH w) as [-> _]. split; [reflexivity | discriminate].
      * destruct (IH (mkWorld ∅ [] [])) as [_ H]. congruence.
Qed.

(** The stream of a window: one read of the archive, logged; the result
    depends on the archive only. *)
Lemma spectrogram_window_stream_world SDS_TOP trace_ids windowlength inv sotw :
  exists (ev : Event) (f : Stream -> result Stream),
    is_sds_read ev = true
    /\ (forall a, f a <> OutOfFuel)
    /\ forall w, spectrogram_window_stream E SDS_TOP trace_ids windowlength inv sotw w
                 = (f (archive w), record ev w).
Proof.
  unfold spectrogram_window_stream. destruct (if_inventory inv) as [i |].
  - exists (EvSDSRead SDS_TOP (utc_sub_half sotw windowlength)
              (utc_add_half (utc_add sotw windowlength) windowlength) 2 trace_ids).
    exists (fun a =>
              match fst (correct_seismic_channels E i
                           (snd (sds_read E a SDS_TOP (utc_sub_half sotw windowlength)
                                   (utc_add_half (utc_add sotw windowlength) windowlength)
                                   trace_ids)) (mkWorld ∅ [] [])) with
              | Ret st' => Ret (trim E st' sotw (utc_add sotw windowlength))
              | Raise e => Raise e
              | OutOfFuel => OutOfFuel
              end).
    split; [reflexivity |]. split.
    + intros a.
      destruct (correct_seismic_channels_pure i
                  (snd (sds_read E a SDS_TOP (utc_sub_half sotw windowlength)
                          (utc_add_half (utc_add sotw windowlength) windowlength)
                          trace_ids))) as [r Hr].
      destruct (Hr (mkWorld ∅ [] [])) as [-> Hne]. cbn [fst]. destruct r; congruence.
    + intros w. unfold bind, SDS_read. cbn [snd].
      destruct (correct_seismic_channels_pure i
                  (snd (sds_read E (archive w) SDS_TOP (utc_sub_half sotw windowlength)
                          (utc_add_half (utc_add sotw windowlength) windowlength)
                          trace_ids))) as [r Hr].
      destruct (Hr (mkWorld ∅ [] [])) as [-> _].
      destruct (Hr (record (EvSDSRead SDS_TOP (utc_sub_half sotw windowlength)
                              (utc_add_half (utc_add sotw windowlength) windowlength) 2
                              trace_ids) w)) as [-> _].
      cbn [fst]. destruct r; reflexivity.
  - exists (EvSDSRead SDS_TOP sotw (utc_add sotw windowlength) 2 trace_ids).
    exists (fun a => Ret (snd (sds_read E a SDS_TOP sotw (utc_add sotw windowlength) trace_ids))).
    split; [reflexivity |]. split; [discriminate |]. reflexivity.
Qed.

(** One window: exactly one read of the archive, and the pointer moves
    by the window length when the window comes to its end. *)
Lemma spectrogram_window_steps SDS_TOP trace_ids windowlength overwrite inv sotw w :
  let r := spectrogram_window E SDS_TOP trace_ids windowlength overwrite inv sotw w in
  fst r <> OutOfFuel
  /\ count is_sds_read (log (snd r)) = S (count is_sds_read (log w))
  /\ archive (snd r) = archive w
  /\ forall t, fst r = Ret t -> t = utc_add sotw windowlength.
Proof.
  cbv zeta. unfold spectrogram_window, bind.
  destruct (spectrogram_window_stream_world SDS_TOP trace_ids windowlength inv sotw)
    as (ev & f & Hev & Hf & Hrun).
  rewrite Hrun. specialize (Hf (archive w)).
  assert (Hcount : count is_sds_read (log (record ev w)) = S (count is_sds_read (log w))).
  { unfold count. cbn [log record List.filter]. rewrite Hev. reflexivity. }
  destruct (f (archive w)) as [[| tr0 rest] | e |]; cbn [raise fst snd].
  - split; [discriminate |]. split; [exact Hcount |]. split; [reflexivity | discriminate].
  - unfold os_path_isfile, spectrogram_plot.
    destruct (negb (file_exists (record ev w) (spectrogram_sgramfile E tr0 sotw))
              || overwrite)%bool; cbn [ret fst snd].
    + split; [discriminate |]. split; [exact Hcount |]. split; [reflexivity |].
      intros t [= <-]. reflexivity.
    + split; [discriminate |]. split; [exact Hcount |]. split; [reflexivity |].
      intros t [= <-]. reflexivity.
  - split; [discriminate |]. split; [exact Hcount |]. split; [reflexivity | discriminate].
  - congruence.
Qed.

(** X16.  [SDS_to_spectrogram_wrapper] does not skip a window without
    data: when the stream of the first window is empty, indexing its
    first trace raises [IndexError], nothing is plotted and no later
    window is visited. *)
Theorem SDS_to_spectrogram_wrapper_window_without_data
    fuel startt endt SDS_TOP trace_ids windowlength overwrite inv w w1 :
  startt < endt ->
  spectrogram_window_stream E SDS_TOP trace_ids windowlength inv startt w = (Ret [], w1) ->
  SDS_to_spectrogram_wrapper E (S fuel) startt endt SDS_TOP trace_ids windowlength
    overwrite inv w
  = (Raise IndexError, w1)
  /\ count is_plot (log w1) = count is_plot (log w)
  /\ count is_sds_read (log w1) = S (count is_sds_read (log w)).
Proof.
  intros Hlt Hst. split.
  - unfold SDS_to_spectrogram_wrapper. unfold bind at 1. cbn [while_]. unfold utc_ltb.
    destruct (Z.ltb_spec startt endt); [| lia].
    unfold bind at 1. unfold spectrogram_window. unfold bind at 1. rewrite Hst. reflexivity.
  - destruct (spectrogram_window_stream_world SDS_TOP trace_ids windowlength inv startt)
      as (ev & f & Hev & _ & Hrun).
    rewrite Hrun in Hst. injection Hst as _ <-.
    unfold count. cbn [log record List.filter]. rewrite Hev.
    destruct ev; try discriminate Hev. cbn [is_plot]. auto.
Qed.

(** X17.  A window length that is not positive never lets
    [SDS_to_spectrogram_wrapper] return: on a non-empty range the
    pointer does not move forward, so with any budget of iterations the
    call raises or is still running. *)
Theorem SDS_to_spectrogram_wrapper_needs_positive_window
    fuel startt endt SDS_TOP trace_ids windowlength overwrite inv w :
  startt < endt ->
  windowlength <= 0 ->
  fst (SDS_to_spectrogram_wrapper E fuel startt endt SDS_TOP trace_ids windowlength
         overwrite inv w) <> Ret tt.
Proof.
  intros Hlt Hwl. unfold SDS_to_spectrogram_wrapper, bind.
  pose proof (while_never_returns (fun t => utc_ltb t endt)
                (spectrogram_window E SDS_TOP trace_ids windowlength overwrite inv)) as H.
  assert (Hbody : forall s w0 s', utc_ltb s endt = true ->
             fst (spectrogram_window E SDS_TOP trace_ids windowlength overwrite inv s w0)
               = Ret s' ->
             utc_ltb s' endt = true).
  { intros s w0 s' Hc Hr.
    pose proof (spectrogram_window_steps SDS_TOP trace_ids windowlength overwrite inv s w0)
      as Hs. cbv zeta in Hs. destruct Hs as (_ & _ & _ & Hp).
    rewrite (Hp s' Hr). unfold utc_ltb, utc_add, ns_per_sec in *.
    apply Z.ltb_lt in Hc. apply Z.ltb_lt. nia. }
  specialize (H Hbody fuel startt w).
  match goal with
  | |- context [while_ ?x1 ?x2 ?x3 ?x4 ?x5] =>
      destruct (while_ x1 x2 x3 x4 x5) as [[t | e |] w1]; cbn [fst] in *; try discriminate
  end.
  exfalso. apply (H t); [| reflexivity].
  unfold utc_ltb. apply Z.ltb_lt. exact Hlt.
Qed.

(** X18.  With a positive window length [SDS_to_spectrogram_wrapper]
    comes to an end: over a range that spans [N] windows it reads the
    archive once per window, [N] times when it returns and at most [N]
    times when a window raised.  A last window that overhangs the end
    time is visited like the others. *)
Theorem SDS_to_spectrogram_wrapper_windows
    (N fuel : nat) startt endt SDS_TOP trace_ids windowlength overwrite inv w :
  0 < windowlength ->
  spans endt startt windowlength N ->
  (N < fuel)%nat ->
  match SDS_to_spectrogram_wrapper E fuel startt endt SDS_TOP trace_ids windowlength
          overwrite inv w with
  | (Ret _, w') => count is_sds_read (log w') = (N + count is_sds_read (log w))%nat
  | (Raise _, w') =>
      exists k, (1 <= k <= N)%nat
                /\ count is_sds_read (log w') = (k + count is_sds_read (log w))%nat
  | (OutOfFuel, _) => False
  end.
Proof.
  intros Hwl Hspan Hfuel. unfold SDS_to_spectrogram_wrapper, bind.
  pose proof (stepped_loop_iterations (fun _ : UTCDateTime => True) (fun t => t)
                (spectrogram_window E SDS_TOP trace_ids windowlength overwrite inv)
                is_sds_read endt windowlength Hwl) as H.
  assert (Hbody : forall s w0, True ->
             fst (spectrogram_window E SDS_TOP trace_ids windowlength overwrite inv s w0)
               <> OutOfFuel
             /\ count is_sds_read
                  (log (snd (spectrogram_window E SDS_TOP trace_ids windowlength overwrite
                               inv s w0)))
                = S (count is_sds_read (log w0))
             /\ forall s',
                  fst (spectrogram_window E SDS_TOP trace_ids windowlength overwrite inv s w0)
                    = Ret s' -> True /\ s' = utc_add s windowlength).
  { intros s w0 _.
    pose proof (spectrogram_window_steps SDS_TOP trace_ids windowlength overwrite inv s w0)
      as Hs. cbv zeta in Hs. destruct Hs as (Hf & Hc & _ & Hp).
    split; [exact Hf |]. split; [exact Hc |]. intros s' Hr. split; [exact I | apply Hp, Hr]. }
  specialize (H Hbody N fuel startt w I Hspan Hfuel). cbv beta in H.
  match goal with
  | |- context [while_ ?x1 ?x2 ?x3 ?x4 ?x5] =>
      destruct (while_ x1 x2 x3 x4 x5) as [[t | e |] w1]; exact H
  end.
Qed.

End SpectrogramRuns.

Lemma SDS_to_spectrogram_wrapper_window_without_data_witness :
  SDS_to_spectrogram_wrapper Scenario.quiet_env 3 Scenario.t0 Scenario.t1 "SDS" None 600
    false None Scenario.empty_world
  = (Raise IndexError,
     record (EvSDSRead "SDS" Scenario.t0 (utc_add Scenario.t0 600) 2 None) Scenario.empty_world)
  /\ count is_plot
       (log (record (EvSDSRead "SDS" Scenario.t0 (utc_add Scenario.t0 600) 2 None)
               Scenario.empty_world))
     = count is_plot (log Scenario.empty_world)
  /\ count is_sds_read
       (log (record (EvSDSRead "SDS" Scenario.t0 (utc_add Scenario.t0 600) 2 None)
               Scenario.empty_world))
     = S (count is_sds_read (log Scenario.empty_world)).
Proof.
  apply (SDS_to_spectrogram_wrapper_window_without_data Scenario.quiet_env 2 Scenario.t0
           Scenario.t1 "SDS" None 600 false None Scenario.empty_world).
  - vm_compute. reflexivity.
  - reflexivity.
Defined.

Lemma SDS_to_spectrogram_wrapper_needs_positive_window_witness :
  fst (SDS_to_spectrogram_wrapper WrapperScenario.full_env 50 Scenario.t0 Scenario.t1 "SDS"
         None 0 false None Scenario.empty_world) = OutOfFuel
  /\ fst (SDS_to_spectrogram_wrapper WrapperScenario.full_env 50 Scenario.t0 Scenario.t1 "SDS"
            None 0 false None Scenario.empty_world) <> Ret tt.
Proof.
  split; [vm_compute; reflexivity |].
  apply (SDS_to_spectrogram_wrapper_needs_positive_window WrapperScenario.full_env 50
           Scenario.t0 Scenario.t1 "SDS" None 0 false None Scenario.empty_world).
  - vm_compute. reflexivity.
  - lia.
Defined.

Lemma SDS_to_spectrogram_wrapper_windows_witness :
  fst (SDS_to_spectrogram_wrapper WrapperScenario.full_env 5 Scenario.t0
         (utc_add Scenario.t0 1500) "SDS" None 600 false None Scenario.empty_world) = Ret tt
  /\ count is_sds_read
       (log (snd (SDS_to_spectrogram_wrapper WrapperScenario.full_env 5 Scenario.t0
                    (utc_add Scenario.t0 1500) "SDS" None 600 false None
                    Scenario.empty_world)))
     = (3 + count is_sds_read (log Scenario.empty_world))%nat.
Proof.
  assert (Hspan : spans (utc_add Scenario.t0 1500) Scenario.t0 600 3).
  { vm_compute. split; [reflexivity | discriminate]. }
  pose proof (SDS_to_spectrogram_wrapper_windows WrapperScenario.full_env 3 5 Scenario.t0
                (utc_add Scenario.t0 1500) "SDS" None 600 false None Scenario.empty_world
                ltac:(lia) Hspan ltac:(lia)) as H.
  assert (Hr : fst (SDS_to_spectrogram_wrapper WrapperScenario.full_env 5 Scenario.t0
                      (utc_add Scenario.t0 1500) "SDS" None 600 false None
                      Scenario.empty_world) = Ret tt) by (vm_compute; reflexivity).
  revert H Hr.
  destruct (SDS_to_spectrogram_wrapper WrapperScenario.full_env 5 Scenario.t0
              (utc_add Scenario.t0 1500) "SDS" None 600 false None Scenario.empty_world)
    as [[u | e |] w']; cbn [fst snd]; intros H Hr;
    [split; [exact Hr | exact H] | discriminate Hr | discriminate Hr].
Defined.

(** ** Windows that have been rendered *)

Section RenderedWindows.

Variable E : Env.

Lemma last_join_chars a b x : last b = Some x -> last (join_chars a b) = Some x.
Proof.
  intros Hb. unfold join_chars. destruct (starts_with_slash b); [exact Hb |].
  destruct (_ || _)%bool; rewrite !last_app, Hb; reflexivity.
Qed.

(** The image of a window is not its directory: the directory's name
    ends with a digit of the day of the year, the image's with ".png". *)
Lemma ICEWEB_sgramfile_is_not_sgramdir SGRAM_TOP subnet tr0 sotw :
  ICEWEB_sgramfile E SGRAM_TOP subnet tr0 sotw <> ICEWEB_sgramdir E SGRAM_TOP tr0 sotw.
Proof.
  unfold ICEWEB_sgramfile, ICEWEB_sgramdir. intros Heq. apply str_inj in Heq.
  apply (f_equal last) in Heq.
  rewrite (last_join_chars _ _ "g"%char) in Heq.
  2:{ rewrite !last_app. reflexivity. }
  unfold ICEWEB_sgramdir_chars, join4, strftime_j in Heq.
  rewrite (last_join_chars _ _ (digit (tm_yday sotw mod 10))) in Heq.
  2:{ rewrite fixed_digits_S. apply last_snoc. }
  injection Heq as Heq.
  pose proof (digit_is_digit (tm_yday sotw mod 10)
                ltac:(pose proof (Z.mod_pos_bound (tm_yday sotw) 10); lia)) as Hd.
  rewrite <- Heq in Hd. discriminate Hd.
Qed.

(** A window whose image is there but whose directory is not (the
    flat file system does not tie them): the directory is made, the
    image is left alone. *)
Lemma ICEWEB_window_existing_image_new_dir VEL sgrammins subnet SGRAM_TOP v w tr0 rest :
  trim E VEL (v_sotw v) (utc_add (v_sotw v) (sgrammins * 60)) = tr0 :: rest ->
  1000 < npts tr0 ->
  fs w !! ICEWEB_sgramdir E SGRAM_TOP tr0 (v_sotw v) = None ->
  file_exists w (ICEWEB_sgramfile E SGRAM_TOP subnet tr0 (v_sotw v)) = true ->
  ICEWEB_window E VEL false sgrammins subnet SGRAM_TOP v w
  = (Ret (next_window sgrammins v),
     record (EvMkdir (ICEWEB_sgramdir E SGRAM_TOP tr0 (v_sotw v)))
       (with_fs (<[ICEWEB_sgramdir E SGRAM_TOP tr0 (v_sotw v) := Dir]> (fs w)) w)).
Proof.
  intros Htrim Hlong Hd Hf. unfold ICEWEB_window. rewrite Htrim.
  destruct (Z.ltb_spec 1000 (npts tr0)); [| lia].
  unfold bind, os_path_isdir, os_path_isfile, os_makedirs, os_mkdir, dir_exists.
  rewrite Hd. wsimpl. rewrite Hd. wsimpl.
  assert (Hf' : file_exists
                  (record (EvMkdir (ICEWEB_sgramdir E SGRAM_TOP tr0 (v_sotw v)))
                     (with_fs (<[ICEWEB_sgramdir E SGRAM_TOP tr0 (v_sotw v) := Dir]> (fs w)) w))
                  (ICEWEB_sgramfile E SGRAM_TOP subnet tr0 (v_sotw v)) = true).
  { unfold file_exists in *. wsimpl.
    rewrite lookup_insert_ne by (apply not_eq_sym, ICEWEB_sgramfile_is_not_sgramdir).
    exact Hf. }
  rewrite Hf'. reflexivity.
Qed.

(** X19.  A window of the ICEWEB loop is not rendered twice: once a
    pass over the window has come to its end, a second pass over the
    same window with [overwrite] unset changes nothing at all. *)
Theorem ICEWEB_window_not_rendered_twice
    VEL overwrite sgrammins subnet SGRAM_TOP v w v' w' :
  ICEWEB_window E VEL overwrite sgrammins subnet SGRAM_TOP v w = (Ret v', w') ->
  ICEWEB_window E VEL false sgrammins subnet SGRAM_TOP v w' = (Ret v', w').
Proof.
  intros Hrun.
  destruct (trim E VEL (v_sotw v) (utc_add (v_sotw v) (sgrammins * 60)))
    as [| tr0 rest] eqn:Htrim.
  { rewrite ICEWEB_window_short in Hrun by (rewrite Htrim; exact I).
    injection Hrun as <- <-. apply ICEWEB_window_short. rewrite Htrim. exact I. }
  destruct (Z.ltb_spec 1000 (npts tr0)) as [Hlong | Hshort].
  2:{ rewrite ICEWEB_window_short in Hrun by (rewrite Htrim; exact Hshort).
      injection Hrun as <- <-. apply ICEWEB_window_short. rewrite Htrim. exact Hshort. }
  set (dir := ICEWEB_sgramdir E SGRAM_TOP tr0 (v_sotw v)) in *.
  set (file := ICEWEB_sgramfile E SGRAM_TOP subnet tr0 (v_sotw v)) in *.
  assert (Hne : file <> dir) by apply ICEWEB_sgramfile_is_not_sgramdir.
  assert (Hw' : v' = next_window sgrammins v
                /\ dir_exists w' dir = true /\ file_exists w' file = true).
  { destruct (fs w !! dir) as [[| c] |] eqn:Hd.
    - destruct (file_exists w file) eqn:Hf; destruct overwrite.
      + rewrite (ICEWEB_window_rendered E VEL true sgrammins subnet SGRAM_TOP v w tr0 rest
                   Htrim Hlong (or_introl Hd) (or_introl eq_refl)) in Hrun.
        injection Hrun as <- <-. fold dir file. unfold rendered, dir_exists, file_exists.
        rewrite Hd. cbn [fs record with_fs].
        rewrite lookup_insert_ne by auto. rewrite Hd, lookup_insert.
        destruct (decide _); [auto | congruence].
      + rewrite (ICEWEB_window_existing E VEL sgrammins subnet SGRAM_TOP v w tr0 rest
                   Htrim Hlong) in Hrun
          by (try exact Hf; unfold dir_exists; fold dir; rewrite Hd; reflexivity).
        injection Hrun as <- <-. unfold dir_exists. rewrite Hd. auto.
      + rewrite (ICEWEB_window_rendered E VEL true sgrammins subnet SGRAM_TOP v w tr0 rest
                   Htrim Hlong (or_introl Hd) (or_introl eq_refl)) in Hrun.
        injection Hrun as <- <-. fold dir file. unfold rendered, dir_exists, file_exists.
        rewrite Hd. cbn [fs record with_fs].
        rewrite lookup_insert_ne by auto. rewrite Hd, lookup_insert.
        destruct (decide _); [auto | congruence].
      + rewrite (ICEWEB_window_rendered E VEL false sgrammins subnet SGRAM_TOP v w tr0 rest
                   Htrim Hlong (or_introl Hd) (or_intror Hf)) in Hrun.
        injection Hrun as <- <-. fold dir file. unfold rendered, dir_exists, file_exists.
        rewrite Hd. cbn [fs record with_fs].
        rewrite lookup_insert_ne by auto. rewrite Hd, lookup_insert.
        destruct (decide _); [auto | congruence].
    - exfalso. unfold ICEWEB_window in Hrun. rewrite Htrim in Hrun.
      destruct (Z.ltb_spec 1000 (npts tr0)); [| lia].
      fold dir in Hrun. unfold bind, os_path_isdir, dir_exists, os_makedirs, os_mkdir in Hrun.
      rewrite Hd in Hrun. cbn [negb] in Hrun. rewrite Hd in Hrun. discriminate Hrun.
    - assert (Hrendered : forall o,
                 o = true \/ file_exists w file = false ->
                 ICEWEB_window E VEL o sgrammins subnet SGRAM_TOP v w
                 = (Ret (next_window sgrammins v), rendered dir file w)).
      { intros o Ho. apply (ICEWEB_window_rendered E VEL o sgrammins subnet SGRAM_TOP v w
                              tr0 rest Htrim Hlong (or_intror Hd) Ho). }
      assert (Hafter : dir_exists (rendered dir file w) dir = true
                       /\ file_exists (rendered dir file w) file = true).
      { unfold rendered, dir_exists, file_exists. rewrite Hd. cbn [fs record with_fs].
        rewrite lookup_insert_ne by auto. rewrite !lookup_insert.
        destruct (decide (dir = dir)); [| congruence].
        destruct (decide (file = file)); [auto | congruence]. }
      destruct (file_exists w file) eqn:Hf; destruct overwrite.
      + rewrite (Hrendered true (or_introl eq_refl)) in Hrun. injection Hrun as <- <-. auto.
      + (* the directory is made, the image is left alone *)
        rewrite (ICEWEB_window_existing_image_new_dir VEL sgrammins subnet SGRAM_TOP v w
                   tr0 rest Htrim Hlong Hd Hf) in Hrun.
        fold dir file in Hrun.
        apply pair_equal_spec in Hrun as [Hr Hw]. injection Hr as <-. subst w'.
        split; [reflexivity |]. unfold dir_exists, file_exists. cbn [fs record with_fs].
        rewrite !lookup_insert.
        destruct (decide (dir = dir)); [| congruence].
        destruct (decide (dir = file)); [congruence |].
        unfold file_exists in Hf. rewrite Hf. auto.
      + rewrite (Hrendered true (or_introl eq_refl)) in Hrun. injection Hrun as <- <-. auto.
      + rewrite (Hrendered false (or_intror eq_refl)) in Hrun. injection Hrun as <- <-. auto. }
  destruct Hw' as (-> & Hdir' & Hfile').
  apply (ICEWEB_window_existing E VEL sgrammins subnet SGRAM_TOP v w' tr0 rest Htrim Hlong
           Hdir' Hfile').
Qed.

(** X20.  A window of [SDS_to_spectrogram_wrapper] is not rendered
    twice either: after a pass that came to its end, a second pass with
    [overwrite] unset reads the archive again, finds the image, and
    renders nothing. *)
Theorem spectrogram_window_not_rendered_twice
    SDS_TOP trace_ids windowlength overwrite inv sotw w t w' :
  spectrogram_window E SDS_TOP trace_ids windowlength overwrite inv sotw w = (Ret t, w') ->
  exists ev,
    is_sds_read ev = true
    /\ spectrogram_window E SDS_TOP trace_ids windowlength false inv sotw w'
       = (Ret t, record ev w').
Proof.
  intros Hrun.
  destruct (spectrogram_window_stream_world E SDS_TOP trace_ids windowlength inv sotw)
    as (ev & f & Hev & _ & Hstream).
  exists ev. split; [exact Hev |].
  unfold spectrogram_window, bind in Hrun. rewrite Hstream in Hrun.
  destruct (f (archive w)) as [[| tr0 rest] | e |] eqn:Hf; try discriminate Hrun.
  unfold os_path_isfile, spectrogram_plot in Hrun.
  assert (Hw' : archive w' = archive w
                /\ file_exists w' (spectrogram_sgramfile E tr0 sotw) = true
                /\ t = utc_add sotw windowlength).
  { destruct (file_exists (record ev w) (spectrogram_sgramfile E tr0 sotw)) eqn:Hfile;
      destruct overwrite; cbn [negb orb ret] in Hrun; injection Hrun as <- <-.
    - split; [reflexivity |]. split; [| reflexivity].
      unfold file_exists. cbn [fs record with_fs]. rewrite lookup_insert.
      destruct (decide _); [reflexivity | congruence].
    - split; [reflexivity |]. split; [exact Hfile | reflexivity].
    - split; [reflexivity |]. split; [| reflexivity].
      unfold file_exists. cbn [fs record with_fs]. rewrite lookup_insert.
      destruct (decide _); [reflexivity | congruence].
    - split; [reflexivity |]. split; [| reflexivity].
      unfold file_exists. cbn [fs record with_fs]. rewrite lookup_insert.
      destruct (decide _); [reflexivity | congruence]. }
  destruct Hw' as (Ha & Hfile & ->).
  apply (spectrogram_window_existing E SDS_TOP trace_ids windowlength inv sotw w' tr0 rest).
  - rewrite Hstream, Ha, Hf. reflexivity.
  - exact Hfile.
Qed.

End RenderedWindows.

Lemma ICEWEB_window_not_rendered_twice_witness :
  ICEWEB_window Scenario.quiet_env [WrapperScenario.trace_of_length 1001] false 10 None "."
    (mkWindowVars Scenario.t0 None)
    (snd (ICEWEB_window Scenario.quiet_env [WrapperScenario.trace_of_length 1001] true 10
            None "." (mkWindowVars Scenario.t0 None) Scenario.empty_world))
  = (Ret (next_window 10 (mkWindowVars Scenario.t0 None)),
     snd (ICEWEB_window Scenario.quiet_env [WrapperScenario.trace_of_length 1001] true 10
            None "." (mkWindowVars Scenario.t0 None) Scenario.empty_world))
  /\ count is_plot
       (log (snd (ICEWEB_window Scenario.quiet_env [WrapperScenario.trace_of_length 1001]
                    true 10 None "." (mkWindowVars Scenario.t0 None) Scenario.empty_world)))
     = 1%nat.
Proof.
  split; [| vm_compute; reflexivity].
  apply (ICEWEB_window_not_rendered_twice Scenario.quiet_env
           [WrapperScenario.trace_of_length 1001] true 10 None "."
           (mkWindowVars Scenario.t0 None) Scenario.empty_world).
  vm_compute. reflexivity.
Defined.

Lemma spectrogram_window_not_rendered_twice_witness :
  exists ev,
    is_sds_read ev = true
    /\ spectrogram_window WrapperScenario.full_env "SDS" None 600 false None Scenario.t0
         (snd (spectrogram_window WrapperScenario.full_env "SDS" None 600 true None
                 Scenario.t0 Scenario.empty_world))
       = (Ret (utc_add Scenario.t0 600),
          record ev
            (snd (spectrogram_window WrapperScenario.full_env "SDS" None 600 true None
                    Scenario.t0 Scenario.empty_world))).
Proof.
  apply (spectrogram_window_not_rendered_twice WrapperScenario.full_env "SDS" None 600 true
           None Scenario.t0 Scenario.empty_world).
  vm_compute. reflexivity.
Defined.

(** ** A day of [SDS_to_ICEWEB_wrapper] *)

Section IcewebDays.

Variable E : Env.

(** A window makes its directory and plots; it does nothing else, and
    when it comes to its end the pointer has moved by [sgrammins]
    minutes. *)
Lemma ICEWEB_window_world VEL overwrite sgrammins subnet SGRAM_TOP v w :
  let r := ICEWEB_window E VEL overwrite sgrammins subnet SGRAM_TOP v w in
  grows_by window_event w (snd r)
  /\ archive (snd r) = archive w
  /\ forall v', fst r = Ret v' -> v' = next_window sgrammins v.
Proof.
  cbv zeta. unfold ICEWEB_window.
  destruct (trim E VEL _ _) as [| tr0 rest].
  { cbn [ret fst snd]. split; [apply grows_by_refl |]. split; [reflexivity |].
    intros v' [= <-]. reflexivity. }
  destruct (1000 <? npts tr0).
  2:{ cbn [ret fst snd]. split; [apply grows_by_refl |]. split; [reflexivity |].
      intros v' [= <-]. reflexivity. }
  unfold bind, os_path_isdir, os_path_isfile, os_makedirs, os_mkdir, spectrogram_plot.
  destruct (dir_exists w _); cbn [negb ret].
  - destruct (negb (file_exists w _) || overwrite)%bool; cbn [fst snd].
    + split; [eexists [_]; split; reflexivity |]. split; [reflexivity |].
      intros v' [= <-]. reflexivity.
    + split; [apply grows_by_refl |]. split; [reflexivity |].
      intros v' [= <-]. reflexivity.
  - destruct (fs w !! _); cbn [fst snd].
    + split; [apply grows_by_refl |]. split; [reflexivity | discriminate].
    + destruct (negb (file_exists _ _) || overwrite)%bool; cbn [fst snd].
      * split; [eexists [_; _]; split; reflexivity |]. split; [reflexivity |].
        intros v' [= <-]. reflexivity.
      * split; [eexists [_]; split; reflexivity |]. split; [reflexivity |].
        intros v' [= <-]. reflexivity.
Qed.

(** The window loop of a day makes directories and plots, whatever way
    it ends. *)
Lemma ICEWEB_windows_world fuel VEL overwrite sgrammins subnet SGRAM_TOP eod v w :
  let r := while_ fuel (fun v => utc_ltb (v_sotw v) eod)
             (ICEWEB_window E VEL overwrite sgrammins subnet SGRAM_TOP) v w in
  grows_by window_event w (snd r) /\ archive (snd r) = archive w.
Proof.
  cbv zeta.
  apply (while_invariant (fun _ : window_vars => True)
           (fun a b => grows_by window_event a b /\ archive b = archive a)).
  - intros w0. split; [apply grows_by_refl | reflexivity].
  - intros a b c [G1 A1] [G2 A2]. split; [eapply grows_by_trans; eauto | congruence].
  - intros s w0 _ _.
    pose proof (ICEWEB_window_world VEL overwrite sgrammins subnet SGRAM_TOP s w0) as H.
    cbv zeta in H. destruct H as (G & A & _). auto.
  - exact I.
Qed.

(** A day whose products could be computed: the metrics are written,
    then the window loop runs. *)
Lemma SDS_to_ICEWEB_day_unfold
    fuel SDS_TOP sourcelat sourcelon inv i trace_ids overwrite verbose sgrammins subnet
    SGRAM_TOP s w products :
  if_inventory inv = Some i ->
  corrected_day E i
    (snd (sds_read E (archive w) SDS_TOP (utc_sub (i_sod s) taperSecs)
            (utc_add (utc_add (i_sod s) secsPerDay) taperSecs) trace_ids))
    sourcelat sourcelon (i_sod s) (utc_add (i_sod s) secsPerDay) = Some products ->
  SDS_to_ICEWEB_day E fuel SDS_TOP sourcelat sourcelon inv trace_ids overwrite verbose
    sgrammins subnet SGRAM_TOP s w
  = match while_ fuel (fun v => utc_ltb (v_sotw v) (utc_add (i_sod s) secsPerDay))
            (ICEWEB_window E (fst products) overwrite sgrammins subnet SGRAM_TOP)
            (mkWindowVars (i_sod s) (i_eotw s))
            (metrics_written SDS_TOP sourcelat sourcelon trace_ids (i_sod s) w) with
    | (Ret v, w3) =>
        (Ret (mkIcewebState (utc_add (i_sod s) secsPerDay) (Some (v_sotw v)) (v_eotw v)), w3)
    | (Raise e, w3) => (Raise e, w3)
    | (OutOfFuel, w3) => (OutOfFuel, w3)
    end.
Proof.
  intros Hinv Hprod. unfold SDS_to_ICEWEB_day. rewrite Hinv.
  unfold bind, SDS_read, RSAM_write, DRS_write, metrics_written. cbn [fst snd].
  rewrite Hprod. cbn [of_option ret emit].
  destruct (float_truthy sourcelat && float_truthy sourcelon)%bool; cbn [emit ret];
    match goal with
    | |- context [while_ ?x1 ?x2 ?x3 ?x4 ?x5] =>
        destruct (while_ x1 x2 x3 x4 x5) as [[v' | e |] w3]; reflexivity
    end.
Qed.

(** X21.  A day of [SDS_to_ICEWEB_wrapper] whose products could be
    computed reads the archive once, writes the RSAM series in m/s, and
    writes the reduced-displacement series exactly when both source
    coordinates are true in a condition: a source on the equator or on
    the prime meridian (latitude or longitude 0.0) gets none, like a
    source that was not given. *)
Theorem SDS_to_ICEWEB_day_metrics
    fuel SDS_TOP sourcelat sourcelon inv i trace_ids overwrite verbose sgrammins subnet
    SGRAM_TOP s w products :
  if_inventory inv = Some i ->
  corrected_day E i
    (snd (sds_read E (archive w) SDS_TOP (utc_sub (i_sod s) taperSecs)
            (utc_add (utc_add (i_sod s) secsPerDay) taperSecs) trace_ids))
    sourcelat sourcelon (i_sod s) (utc_add (i_sod s) secsPerDay) = Some products ->
  let w' := snd (SDS_to_ICEWEB_day E fuel SDS_TOP sourcelat sourcelon inv trace_ids overwrite
                   verbose sgrammins subnet SGRAM_TOP s w) in
  count is_sds_read (log w') = S (count is_sds_read (log w))
  /\ In (EvRSAMWrite SDS_TOP (Some "m/s")) (log w')
  /\ count is_drs_write (log w')
     = ((if (float_truthy sourcelat && float_truthy sourcelon)%bool then 1 else 0)
        + count is_drs_write (log w))%nat.
Proof.
  intros Hinv Hprod. cbv zeta.
  rewrite (SDS_to_ICEWEB_day_unfold fuel SDS_TOP sourcelat sourcelon inv i trace_ids overwrite
             verbose sgrammins subnet SGRAM_TOP s w products Hinv Hprod).
  set (w2 := metrics_written SDS_TOP sourcelat sourcelon trace_ids (i_sod s) w).
  pose proof (ICEWEB_windows_world fuel (fst products) overwrite sgrammins subnet SGRAM_TOP
                (utc_add (i_sod s) secsPerDay) (mkWindowVars (i_sod s) (i_eotw s)) w2) as HW.
  cbv zeta in HW. destruct HW as [G _].
  assert (Hfacts : forall w3, grows_by window_event w2 w3 ->
             count is_sds_read (log w3) = S (count is_sds_read (log w))
             /\ In (EvRSAMWrite SDS_TOP (Some "m/s")) (log w3)
             /\ count is_drs_write (log w3)
                = ((if (float_truthy sourcelat && float_truthy sourcelon)%bool then 1 else 0)
                   + count is_drs_write (log w))%nat).
  { intros w3 G3.
    rewrite (grows_by_count window_event is_sds_read w2 w3 G3)
      by (intros e; destruct e; cbn; intros H; (reflexivity || discriminate H)).
    rewrite (grows_by_count window_event is_drs_write w2 w3 G3)
      by (intros e; destruct e; cbn; intros H; (reflexivity || discriminate H)).
    destruct G3 as (l & -> & _). subst w2. unfold metrics_written.
    destruct (float_truthy sourcelat && float_truthy sourcelon)%bool;
      (split; [reflexivity |]); (split; [apply in_or_app; right; cbn; auto |]);
      reflexivity. }
  match goal with
  | |- context [while_ ?x1 ?x2 ?x3 ?x4 ?x5] =>
      destruct (while_ x1 x2 x3 x4 x5) as [[v' | e |] w3]; cbn [fst snd] in *
  end; apply Hfacts; assumption.
Qed.

(** X22.  With an inventory and a spectrogram length [sgrammins] that is
    not positive, the window loop of the first day of
    [SDS_to_ICEWEB_wrapper] does not move its pointer: on a non-empty
    range the call never returns, whatever the budget of iterations. *)
Theorem SDS_to_ICEWEB_wrapper_needs_positive_sgrammins
    fuel startt endt SDS_TOP sourcelat sourcelon inv trace_ids overwrite verbose sgrammins
    subnet SGRAM_TOP w :
  startt < endt ->
  inventory_truthy inv = true ->
  sgrammins <= 0 ->
  fst (SDS_to_ICEWEB_wrapper E fuel startt endt SDS_TOP sourcelat sourcelon inv trace_ids
         overwrite verbose sgrammins subnet SGRAM_TOP w) <> Ret tt.
Proof.
  intros Hlt Hinv Hmins. unfold SDS_to_ICEWEB_wrapper. unfold bind at 1.
  destruct fuel as [| fuel]; [discriminate |].
  cbn [while_ i_sod]. unfold utc_ltb at 1. destruct (Z.ltb_spec startt endt); [| lia].
  unfold bind at 1.
  assert (Hday : forall s' w0,
             fst (SDS_to_ICEWEB_day E (S fuel) SDS_TOP sourcelat sourcelon inv trace_ids
                    overwrite verbose sgrammins subnet SGRAM_TOP
                    (mkIcewebState startt None None) w0) <> Ret s').
  { intros s' w0. unfold SDS_to_ICEWEB_day, if_inventory. rewrite Hinv.
    destruct inv as [i |]; [| discriminate Hinv]. cbn [i_sod i_eotw].
    unfold bind at 1. unfold SDS_read at 1. cbn [fst snd].
    unfold bind at 1.
    destruct (corrected_day E i _ sourcelat sourcelon startt _) as [products |];
      cbn [of_option ret raise]; [| discriminate].
    unfold bind at 1. unfold RSAM_write at 1. cbn [emit].
    unfold bind at 1.
    match goal with
    | |- context [(if ?c then DRS_write SDS_TOP else ret tt) ?x] =>
        assert (Hd : exists wd, (if c then DRS_write SDS_TOP else ret tt) x = (Ret tt, wd))
          by (destruct c; eexists; reflexivity);
        destruct Hd as [wd ->]
    end.
    unfold bind.
    pose proof (while_never_returns
                  (fun v => utc_ltb (v_sotw v) (utc_add startt secsPerDay))
                  (ICEWEB_window E (fst products) overwrite sgrammins subnet SGRAM_TOP)) as HN.
    assert (Hbody : forall v w1 v',
               utc_ltb (v_sotw v) (utc_add startt secsPerDay) = true ->
               fst (ICEWEB_window E (fst products) overwrite sgrammins subnet SGRAM_TOP v w1)
                 = Ret v' ->
               utc_ltb (v_sotw v') (utc_add startt secsPerDay) = true).
    { intros v w1 v' Hc Hr.
      pose proof (ICEWEB_window_world (fst products) overwrite sgrammins subnet SGRAM_TOP
                    v w1) as Hw. cbv zeta in Hw. destruct Hw as (_ & _ & Hn).
      rewrite (Hn v' Hr). unfold next_window. cbn [v_sotw].
      unfold utc_ltb, utc_add, ns_per_sec in *.
      apply Z.ltb_lt in Hc. apply Z.ltb_lt. nia. }
    specialize (HN Hbody (S fuel) (mkWindowVars startt None) wd).
    match goal with
    | |- context [while_ ?x1 ?x2 ?x3 ?x4 ?x5] =>
        destruct (while_ x1 x2 x3 x4 x5) as [[v' | e |] w3]; cbn [fst] in *;
          try discriminate
    end.
    exfalso. apply (HN v'); [| reflexivity].
    cbn [v_sotw]. unfold utc_ltb, utc_add, secsPerDay, ns_per_sec. apply Z.ltb_lt. lia. }
  match goal with
  | |- context [SDS_to_ICEWEB_day ?a1 ?a2 ?a3 ?a4 ?a5 ?a6 ?a7 ?a8 ?a9 ?a10 ?a11 ?a12 ?a13 ?a14] =>
      pose proof (Hday) as Hd;
      destruct (SDS_to_ICEWEB_day a1 a2 a3 a4 a5 a6 a7 a8 a9 a10 a11 a12 a13 a14)
        as [[s1 | e |] w1] eqn:Hrun
  end; cbn [fst]; try discriminate.
  exfalso. apply (Hday s1 w). rewrite Hrun. reflexivity.
Qed.

End IcewebDays.

Lemma SDS_to_ICEWEB_day_metrics_witness :
  count is_sds_read
    (log (snd (SDS_to_ICEWEB_day WrapperScenario.full_env 200 "SDS" (Some (S754_zero false))
                 (Some CacheScenario.lon0) (Some CacheScenario.cached_inventory) None true
                 false 10 None "." (mkIcewebState Scenario.t0 None None)
                 Scenario.empty_world)))
  = S (count is_sds_read (log Scenario.empty_world))
  /\ In (EvRSAMWrite "SDS" (Some "m/s"))
       (log (snd (SDS_to_ICEWEB_day WrapperScenario.full_env 200 "SDS"
                    (Some (S754_zero false)) (Some CacheScenario.lon0)
                    (Some CacheScenario.cached_inventory) None true false 10 None "."
                    (mkIcewebState Scenario.t0 None None) Scenario.empty_world)))
  /\ count is_drs_write
       (log (snd (SDS_to_ICEWEB_day WrapperScenario.full_env 200 "SDS"
                    (Some (S754_zero false)) (Some CacheScenario.lon0)
                    (Some CacheScenario.cached_inventory) None true false 10 None "."
                    (mkIcewebState Scenario.t0 None None) Scenario.empty_world)))
     = (0 + count is_drs_write (log Scenario.empty_world))%nat.
Proof.
  apply (SDS_to_ICEWEB_day_metrics WrapperScenario.full_env 200 "SDS" (Some (S754_zero false))
           (Some CacheScenario.lon0) (Some CacheScenario.cached_inventory)
           CacheScenario.cached_inventory None true false 10 None "."
           (mkIcewebState Scenario.t0 None None) Scenario.empty_world
           ([WrapperScenario.trace_of_length 5], [WrapperScenario.trace_of_length 5])).
  - reflexivity.
  - reflexivity.
Defined.

Lemma SDS_to_ICEWEB_wrapper_needs_positive_sgrammins_witness :
  fst (SDS_to_ICEWEB_wrapper WrapperScenario.full_env 5 Scenario.t0 Scenario.t1 "SDS" None
         None (Some CacheScenario.cached_inventory) None true false 0 None "."
         Scenario.empty_world) = OutOfFuel
  /\ fst (SDS_to_ICEWEB_wrapper WrapperScenario.full_env 5 Scenario.t0 Scenario.t1 "SDS" None
            None (Some CacheScenario.cached_inventory) None true false 0 None "."
            Scenario.empty_world) <> Ret tt.
Proof.
  split; [vm_compute; reflexivity |].
  apply (SDS_to_ICEWEB_wrapper_needs_positive_sgrammins WrapperScenario.full_env 5
           Scenario.t0 Scenario.t1 "SDS" None None (Some CacheScenario.cached_inventory) None
           true false 0 None "." Scenario.empty_world).
  - vm_compute. reflexivity.
  - reflexivity.
  - lia.
Defined.

(** ** An archive that is complete *)

Section CompleteArchive.

Variable E : Env.

(** X23.  With [overwrite] unset, [FDSN_to_SDS_daily_wrapper] leaves an
    archive alone whose reads succeed: over [N] whole days it returns
    after [N] reads, and it has sent no request, written no file and
    not changed the archive. *)
Theorem FDSN_to_SDS_daily_wrapper_complete_archive
    (N fuel : nat) startt SDS_TOP lat lon rad trace_ids fdsnURL inv w :
  (N < fuel)%nat ->
  (forall t0 t1, fst (sds_read E (archive w) SDS_TOP t0 t1 None) = 0) ->
  exists w',
    FDSN_to_SDS_daily_wrapper E fuel startt (utc_add startt (Z.of_nat N * secsPerDay))
      SDS_TOP lat lon rad trace_ids fdsnURL false inv w = (Ret tt, w')
    /\ reads_only w w'
    /\ count is_sds_read (log w') = (N + count is_sds_read (log w))%nat.
Proof.
  intros Hfuel Hread. unfold FDSN_to_SDS_daily_wrapper, bind.
  set (endt := utc_add startt (Z.of_nat N * secsPerDay)).
  assert (Hloop : forall (n f : nat) s w0,
             archive w0 = archive w ->
             utc_add (f_startt s) (Z.of_nat n * secsPerDay) = endt -> (n < f)%nat ->
             exists s' w',
               while_ f (fun s => utc_ltb (f_startt s) endt)
                 (FDSN_to_SDS_day E SDS_TOP lat lon rad fdsnURL false) s w0 = (Ret s', w')
               /\ reads_only w0 w'
               /\ count is_sds_read (log w') = (n + count is_sds_read (log w0))%nat).
  { clear Hfuel. induction n as [| n IH]; intros f s w0 Ha Hend Hf.
    - destruct f as [| f]; [lia |]. cbn [while_]. unfold utc_ltb.
      unfold utc_add, secsPerDay, ns_per_sec in Hend.
      destruct (Z.ltb_spec (f_startt s) endt); [lia |].
      exists s, w0. split; [reflexivity |]. split; [apply reads_only_refl | reflexivity].
    - destruct f as [| f]; [lia |]. cbn [while_]. unfold utc_ltb.
      assert (Hlt : f_startt s < endt).
      { unfold utc_add, secsPerDay, ns_per_sec in Hend. lia. }
      destruct (Z.ltb_spec (f_startt s) endt); [| lia].
      unfold bind. rewrite FDSN_to_SDS_day_unfold. unfold fdsn_read_code.
      rewrite Ha, Hread. cbn [Z.eqb negb orb].
      assert (Hend1 : utc_add (f_startt (next_day s)) (Z.of_nat n * secsPerDay) = endt).
      { unfold next_day. cbn [f_startt]. revert Hend.
        unfold utc_add, secsPerDay, ns_per_sec. lia. }
      destruct (IH f (next_day s) (record (fdsn_read_event SDS_TOP s) w0) Ha Hend1 ltac:(lia))
        as (s' & w' & Hrun & Hro & Hc).
      exists s', w'. split; [exact Hrun |]. split.
      + apply (reads_only_trans w0 (record (fdsn_read_event SDS_TOP s) w0)); [| exact Hro].
        split; [reflexivity |]. split; [reflexivity |]. eexists [_]. split; reflexivity.
      + rewrite Hc. unfold count. cbn [log record List.filter fdsn_read_event is_sds_read length].
        lia. }
  destruct (Hloop N fuel (mkFdsnState startt trace_ids inv) w eq_refl eq_refl Hfuel)
    as (s' & w' & Hrun & Hro & Hc).
  exists w'. rewrite Hrun. auto.
Qed.

End CompleteArchive.

Lemma FDSN_to_SDS_daily_wrapper_complete_archive_witness :
  exists w',
    FDSN_to_SDS_daily_wrapper WrapperScenario.full_env 3 Scenario.t0
      (utc_add Scenario.t0 (Z.of_nat 2 * secsPerDay)) "SDS" None None None None Scenario.iris
      false None Scenario.empty_world = (Ret tt, w')
    /\ reads_only Scenario.empty_world w'
    /\ count is_sds_read (log w') = (2 + count is_sds_read (log Scenario.empty_world))%nat.
Proof.
  apply (FDSN_to_SDS_daily_wrapper_complete_archive WrapperScenario.full_env 2 3 Scenario.t0
           "SDS" None None None None Scenario.iris None Scenario.empty_world).
  - lia.
  - reflexivity.
Defined.

(** ** [order_traces_by_distance] *)

Section TraceOrderFacts.

Variable max_str_digits : option nat.
Variable argsort : list float -> list nat.

Lemma distances_length st ds : distances st = Returns ds -> length ds = length st.
Proof.
  revert ds. induction st as [| tr st IH]; intros ds; cbn [distances].
  - intros [= <-]. reflexivity.
  - destruct (distance tr); [| discriminate].
    destruct (distances st) as [ds' | e]; [| discriminate].
    intros [= <-]. cbn [length]. rewrite (IH ds' eq_refl). reflexivity.
Qed.

(** The loop over the traces comes to its end only if every location
    code is an integer literal and [r] has an entry for every trace;
    it keeps the length of [r]. *)
Lemma add_channel_offsets_done i st r r' :
  add_channel_offsets max_str_digits i st r = (None, r') ->
  length r' = length r
  /\ (st <> [] -> (i + length st <= length r)%nat)
  /\ Forall (fun tr => exists n, py_int max_str_digits (location (placed_trace tr)) = Some n) st.
Proof.
  revert i r. induction st as [| tr st IH]; intros i r; cbn [add_channel_offsets].
  - intros [= <-]. split; [reflexivity |]. split; [congruence | constructor].
  - unfold channel_offset at 1.
    destruct (py_int max_str_digits (location (placed_trace tr))) as [n |] eqn:Hn;
      [| discriminate].
    destruct (true_div n 1000000) as [c1 |]; [| discriminate].
    destruct (third_char (channel (placed_trace tr))) as [c |]; [| discriminate].
    destruct (true_div (str_find "ZNEF0123456789" c) 1000000000) as [c2 |]; [| discriminate].
    destruct (r !! i) as [x |] eqn:Hx; [| discriminate].
    intros Hrun. apply IH in Hrun as (Hlen & Hfit & Hall).
    rewrite length_insert in Hlen. rewrite length_insert in Hfit.
    split; [exact Hlen |]. split.
    + intros _. apply lookup_lt_Some in Hx. cbn [length].
      destruct st as [| tr' st']; [unfold float in *; simpl; lia |].
      specialize (Hfit ltac:(discriminate)). unfold float in *. simpl in *. lia.
    + constructor; [exists n; exact Hn | exact Hall].
Qed.

Lemma pick_seq_inv st k n st2 :
  pick st (seq k n) = Returns st2 ->
  (n <> 0%nat -> (k + n <= length st)%nat) /\ st2 = take n (drop k st).
Proof.
  revert k st2. induction n as [| n IH]; intros k st2; cbn [seq pick].
  - intros [= <-]. split; [congruence | reflexivity].
  - destruct (st !! k) as [tr |] eqn:Hk; [| discriminate].
    destruct (pick st (seq (S k) n)) as [rest | e] eqn:Hrest; [| discriminate].
    intros [= <-]. destruct (IH (S k) rest Hrest) as [Hfit ->].
    pose proof (lookup_lt_Some _ _ _ Hk) as Hlt. split.
    + intros _. destruct n as [| n']; [lia |]. specialize (Hfit ltac:(discriminate)). lia.
    + rewrite (drop_S _ _ _ Hk). reflexivity.
Qed.

Lemma pick_permutation st l l' st2 :
  Permutation l l' -> pick st l = Returns st2 ->
  exists st2', pick st l' = Returns st2' /\ Permutation st2 st2'.
Proof.
  intros Hperm. revert st2. induction Hperm as [| i l l' Hperm IH | i j l | l l' l'' H1 IH1 H2 IH2];
    intros st2; cbn [pick].
  - intros [= <-]. exists []. auto.
  - destruct (st !! i) as [tr |]; [| discriminate].
    destruct (pick st l) as [rest | e]; [| discriminate].
    intros [= <-]. destruct (IH rest eq_refl) as (rest' & -> & Hp).
    exists (tr :: rest'). split; [reflexivity | constructor; exact Hp].
  - destruct (st !! j) as [trj |]; [| discriminate].
    destruct (st !! i) as [tri |]; [| discriminate].
    destruct (pick st l) as [rest | e]; [| discriminate].
    intros [= <-]. exists (tri :: trj :: rest). split; [reflexivity | apply perm_swap].
  - intros H. destruct (IH1 st2 H) as (mid & Hmid & Hp1).
    destruct (IH2 mid Hmid) as (st2' & Hrun & Hp2).
    exists st2'. split; [exact Hrun | etransitivity; eauto].
Qed.

(** X24.  With [assert_channel_order] set -- as [SDS_to_ICEWEB_wrapper]
    calls it -- [order_traces_by_distance] returns only if [int()]
    accepts the location code of every trace.  A first trace whose
    code it rejects makes the call raise [ValueError], leaving [r] as
    it was; and [int()] rejects the blank location code. *)
Theorem order_traces_by_distance_integer_locations st r :
  (forall st2 r',
     order_traces_by_distance max_str_digits argsort st r true = (Returns st2, r') ->
     Forall (fun tr => exists n, py_int max_str_digits (location (placed_trace tr)) = Some n) st)
  /\ (forall tr rest,
        st = tr :: rest ->
        py_int max_str_digits (location (placed_trace tr)) = None ->
        r <> [] \/ (exists ds, distances st = Returns ds) ->
        order_traces_by_distance max_str_digits argsort st r true
        = (Raises (Other ValueError), r))
  /\ py_int max_str_digits "" = None.
Proof.
  split; [| split; [| reflexivity]].
  - intros st2 r'. unfold order_traces_by_distance.
    destruct (match r with [] => distances st | _ => Returns r end) as [keys0 | e];
      [| discriminate].
    destruct (add_channel_offsets max_str_digits 0 st keys0) as [[e |] keys1] eqn:Hloop;
      cbn [fst snd]; [discriminate |].
    intros _. apply add_channel_offsets_done in Hloop as (_ & _ & Hall). exact Hall.
  - intros tr rest -> Hloc Hkeys. unfold order_traces_by_distance.
    assert (Hk : exists keys0,
               (match r with [] => distances (tr :: rest) | _ => Returns r end)
               = Returns keys0 /\ (r <> [] -> keys0 = r)).
    { destruct r as [| x r].
      - destruct Hkeys as [Hr | [ds Hds]]; [congruence |]. exists ds. split; [exact Hds |].
        congruence.
      - exists (x :: r). auto. }
    destruct Hk as (keys0 & -> & Hsame).
    cbn [add_channel_offsets]. unfold channel_offset. rewrite Hloc. cbn [fst snd].
    destruct r as [| x r]; [reflexivity |]. rewrite Hsame by discriminate. reflexivity.
Qed.

(** X25.  Whatever order [numpy.argsort] gives to equal keys,
    [order_traces_by_distance] neither invents nor repeats a trace:
    when it returns, its result is a rearrangement of the first
    [len(r)] traces of [st] -- of all of [st] when [r] is left out (the
    distances are taken) or as long as the stream -- and a list [r]
    shorter than the stream drops the traces beyond it without a word.
    A list [r] longer than the stream never returns, and with
    [assert_channel_order] set neither does a shorter one. *)
Theorem order_traces_by_distance_keeps_traces st r assert_channel_order st2 r' :
  (forall keys, Permutation (argsort keys) (seq 0 (length keys))) ->
  order_traces_by_distance max_str_digits argsort st r assert_channel_order
    = (Returns st2, r') ->
  (key_count st r <= length st)%nat
  /\ Permutation st2 (take (key_count st r) st)
  /\ (assert_channel_order = true -> key_count st r = length st).
Proof.
  intros Hargsort. unfold order_traces_by_distance.
  destruct (match r with [] => distances st | _ => Returns r end) as [keys0 | e] eqn:Hkeys0;
    [| discriminate].
  assert (Hcount : length keys0 = key_count st r).
  { unfold key_count. destruct r as [| x r].
    - apply distances_length. exact Hkeys0.
    - injection Hkeys0 as <-. reflexivity. }
  destruct (if assert_channel_order then add_channel_offsets max_str_digits 0 st keys0
            else (None, keys0)) as [[e |] keys1] eqn:Hloop; cbn [fst snd]; [discriminate |].
  intros Hrun. apply pair_equal_spec in Hrun as [Hpick _].
  assert (Hlen : length keys1 = length keys0
                 /\ (assert_channel_order = true -> st <> [] ->
                     (length st <= length keys0)%nat)).
  { destruct assert_channel_order.
    - apply add_channel_offsets_done in Hloop as (Hl & Hfit & _).
      split; [exact Hl |]. intros _ Hne. specialize (Hfit Hne). lia.
    - injection Hloop as <-. split; [reflexivity | discriminate]. }
  destruct Hlen as [Hlen Hfit].
  destruct (pick_permutation st _ _ st2 (Hargsort keys1) Hpick) as (st2' & Hseq & Hperm).
  apply pick_seq_inv in Hseq as [Hbound ->]. rewrite drop_0 in Hperm.
  rewrite Hlen, Hcount in *.
  assert (Hle : (key_count st r <= length st)%nat).
  { destruct (key_count st r) as [| n]; [lia |]. specialize (Hbound ltac:(discriminate)). lia. }
  split; [exact Hle |]. split; [exact Hperm |].
  intros Hflag. destruct st as [| tr st].
  - cbn [length] in *. lia.
  - specialize (Hfit Hflag ltac:(discriminate)). lia.
Qed.

End TraceOrderFacts.

Lemma order_traces_by_distance_integer_locations_witness :
  order_traces_by_distance None OrderScenario.argsort_ref OrderScenario.blank_stream
    [OrderScenario.far; OrderScenario.near] true
  = (Raises (Other ValueError), [OrderScenario.far; OrderScenario.near]).
Proof.
  destruct (order_traces_by_distance_integer_locations None OrderScenario.argsort_ref
              OrderScenario.blank_stream [OrderScenario.far; OrderScenario.near])
    as (_ & H & _).
  apply (H (OrderScenario.placed "FAR" "" "HHZ" OrderScenario.far)
           [OrderScenario.placed "NEAR" "00" "HHZ" OrderScenario.near]).
  - reflexivity.
  - reflexivity.
  - left. discriminate.
Defined.

(** The reference [argsort] rearranges the indices. *)
Lemma insert_index_permutation keys i sorted :
  Permutation (OrderScenario.insert_index keys i sorted) (i :: sorted).
Proof.
  induction sorted as [| j rest IH]; cbn [OrderScenario.insert_index]; [reflexivity |].
  destruct (OrderScenario.key_leb _ _); [| reflexivity].
  rewrite IH. apply perm_swap.
Qed.

Lemma argsort_ref_permutation keys :
  Permutation (OrderScenario.argsort_ref keys) (seq 0 (length keys)).
Proof.
  unfold OrderScenario.argsort_ref.
  assert (H : forall l acc,
             Permutation (fold_left (fun sorted i => OrderScenario.insert_index keys i sorted)
                            l acc) (l ++ acc)).
  { induction l as [| i l IH]; intros acc; cbn [fold_left app]; [reflexivity |].
    rewrite IH, insert_index_permutation. symmetry. apply Permutation_middle. }
  rewrite H, app_nil_r. reflexivity.
Qed.

Lemma order_traces_by_distance_keeps_traces_witness :
  (key_count OrderScenario.day_stream [] <= length OrderScenario.day_stream)%nat
  /\ Permutation
       [OrderScenario.placed "NEAR" "00" "HHZ" OrderScenario.near;
        OrderScenario.placed "FAR" "00" "HHZ" OrderScenario.far;
        OrderScenario.placed "FAR" "00" "HHN" OrderScenario.far;
        OrderScenario.placed "FAR" "00" "HHE" OrderScenario.far]
       (take (key_count OrderScenario.day_stream []) OrderScenario.day_stream)
  /\ (true = true -> key_count OrderScenario.day_stream [] = length OrderScenario.day_stream).
Proof.
  apply (order_traces_by_distance_keeps_traces None OrderScenario.argsort_ref
           OrderScenario.day_stream [] true
           [OrderScenario.placed "NEAR" "00" "HHZ" OrderScenario.near;
            OrderScenario.placed "FAR" "00" "HHZ" OrderScenario.far;
            OrderScenario.placed "FAR" "00" "HHN" OrderScenario.far;
            OrderScenario.placed "FAR" "00" "HHE" OrderScenario.far] []).
  - apply argsort_ref_permutation.
  - vm_compute. reflexivity.
Defined.

(** ** The circular search of [FDSN_to_SDS_daily_wrapper] *)

Section StationSearch.

Variable E : Env.

(** The first day of a run that has to search: the station request is
    answered, its identifiers are fetched and stored. *)
Lemma FDSN_fallback_searches SDS_TOP lat lon rad url eod s i w :
  ids_truthy (f_trace_ids s) = false ->
  inventory_truthy (f_inv s) = false ->
  cache_dir_usable w ->
  get_stations E (_check_client_or_string url)
    (mkStationQuery "*" "*" "*" (Some lat) (Some lon) (Some rad) (f_startt s) eod "response")
    = Some i ->
  inventory_truthy (Some i) = true ->
  inventory2traceid E i <> [] ->
  let s1 := mkFdsnState (f_startt s) (Some (inventory2traceid E i)) (Some i) in
  let w1 := record (EvGetStations (_check_client_or_string url)
                      (mkStationQuery "*" "*" "*" (Some lat) (Some lon) (Some rad)
                         (f_startt s) eod "response"))
              (cache_dir_made w) in
  FDSN_fallback E SDS_TOP (Some lat) (Some lon) (Some rad) url true eod s w
  = match get_stream E url (inventory2traceid E i) (f_startt s) eod true false w1 with
    | (Ret st, w2) =>
        (Ret s1, record (EvSDSWrite SDS_TOP st true)
                   (with_archive (sds_write E (archive w2) SDS_TOP st true) w2))
    | (Raise e, w2) => (Raise e, w2)
    | (OutOfFuel, w2) => (OutOfFuel, w2)
    end.
Proof.
  intros Hids Hinv Hdir Hgot Htruthy Hne s1 w1. subst s1 w1.
  unfold FDSN_fallback. rewrite Hids. cbn [negb].
  unfold if_inventory at 1. rewrite Hinv.
  unfold bind at 1. unfold bind at 1.
  destruct (stationXML_basename (pads_year E) (f_startt s) eod (Some lat) (Some lon) (Some rad))
    as [name |] eqn:Hname; [| discriminate Hname].
  pose proof (get_inventory_remote_run E url (f_startt s) eod (Some lat) (Some lon) (Some rad)
                "*" "*" "*" true false name w Hdir Hname (or_introl eq_refl)) as Hrun.
  cbv zeta in Hrun. rewrite Hgot in Hrun. rewrite Hrun.
  unfold if_inventory. rewrite Htruthy. cbn [ret f_trace_ids f_startt].
  rewrite (ids_truthy_of_inventory E i Hne). cbn [ids_list].
  unfold bind.
  destruct (get_stream E url (inventory2traceid E i) (f_startt s) eod true false _)
    as [[st | e |] w2]; reflexivity.
Qed.

(** X26.  The circular station search is done once: when a run of
    [FDSN_to_SDS_daily_wrapper] starts without identifiers and without
    inventory, with [overwrite] set and the three search parameters
    given, and the station request of the first day is answered with an
    inventory that yields identifiers, then these are kept for the days
    that follow: however long the range and however the run ends,
    exactly one station request has been sent. *)
Theorem FDSN_to_SDS_daily_wrapper_searches_once
    fuel startt endt SDS_TOP lat lon rad trace_ids fdsnURL inv i w :
  startt < endt ->
  ids_truthy trace_ids = false ->
  inventory_truthy inv = false ->
  cache_dir_usable w ->
  get_stations E (_check_client_or_string fdsnURL)
    (mkStationQuery "*" "*" "*" (Some lat) (Some lon) (Some rad) startt
       (utc_add startt secsPerDay) "response") = Some i ->
  inventory_truthy (Some i) = true ->
  inventory2traceid E i <> [] ->
  count is_station_request
    (log (snd (FDSN_to_SDS_daily_wrapper E (S fuel) startt endt SDS_TOP (Some lat) (Some lon)
                 (Some rad) trace_ids fdsnURL true inv w)))
  = S (count is_station_request (log w)).
Proof.
  intros Hlt Hids Hinv Hdir Hgot Htruthy Hne.
  unfold FDSN_to_SDS_daily_wrapper. unfold bind at 1. cbn [while_ f_startt].
  unfold utc_ltb at 1. destruct (Z.ltb_spec startt endt) as [_ | Hge]; [| lia].
  unfold bind at 1. rewrite FDSN_to_SDS_day_unfold. rewrite orb_true_r.
  set (s := mkFdsnState startt trace_ids inv).
  set (w0 := record (fdsn_read_event SDS_TOP s) w).
  assert (Hdir0 : cache_dir_usable w0) by exact Hdir.
  pose proof (FDSN_fallback_searches SDS_TOP lat lon rad fdsnURL (utc_add startt secsPerDay)
                s i w0 Hids Hinv Hdir0 Hgot Htruthy Hne) as Hday.
  cbv zeta in Hday. cbn [f_startt s] in Hday. cbn [f_startt s]. rewrite Hday.
  set (w1 := record (EvGetStations _ _) (cache_dir_made w0)).
  assert (Hw1 : count is_station_request (log w1) = S (count is_station_request (log w))).
  { subst w1 w0. unfold count. cbn [log record List.filter is_station_request length].
    unfold cache_dir_made. destruct (fs _ !! CACHE_DIR) as [[| c] |]; reflexivity. }
  pose proof (emits_only_count stream_event is_station_request _ w1
                (emits_stream_get_stream E fdsnURL (inventory2traceid E i) startt
                   (utc_add startt secsPerDay) true false)) as Hc.
  assert (Hse : forall e, stream_event e = true -> is_station_request e = false).
  { intros e. destruct e; cbn; intros H; (reflexivity || discriminate H). }
  specialize (Hc Hse).
  destruct (get_stream E fdsnURL (inventory2traceid E i) startt (utc_add startt secsPerDay)
              true false w1) as [[st | e |] w2]; cbn [fst snd] in *.
  - set (s1 := next_day (mkFdsnState startt (Some (inventory2traceid E i)) (Some i))).
    set (w3 := record (EvSDSWrite SDS_TOP st true) _).
    assert (Hs1 : has_identifiers E s1).
    { left. apply (ids_truthy_of_inventory E i Hne). }
    pose proof (while_invariant (has_identifiers E)
                  (fun a b => count is_station_request (log b)
                              = count is_station_request (log a))
                  (fun s => utc_ltb (f_startt s) endt)
                  (FDSN_to_SDS_day E SDS_TOP (Some lat) (Some lon) (Some rad) fdsnURL true)
                  (fun _ => eq_refl)
                  (fun a b c Hab Hbc => eq_trans Hbc Hab)
                  (fun s w0 Hs0 _ =>
                     FDSN_to_SDS_day_with_identifiers E SDS_TOP (Some lat) (Some lon)
                       (Some rad) fdsnURL true s w0 Hs0)
                  fuel s1 w3 Hs1) as Hrest.
    assert (Hw3 : count is_station_request (log w3) = S (count is_station_request (log w))).
    { subst w3. unfold count in *. cbn [log record with_archive List.filter is_station_request].
      rewrite Hc. exact Hw1. }
    match goal with
    | |- context [while_ ?x1 ?x2 ?x3 ?x4 ?x5] =>
        destruct (while_ x1 x2 x3 x4 x5) as [[s' | e |] w']; cbn [fst snd ret] in *
    end; rewrite Hrest; exact Hw3.
  - rewrite Hc. exact Hw1.
  - rewrite Hc. exact Hw1.
Qed.

End StationSearch.

Lemma FDSN_to_SDS_daily_wrapper_searches_once_witness :
  count is_station_request
    (log (snd (FDSN_to_SDS_daily_wrapper CollisionScenario.answering_env 5 Scenario.t0
                 (utc_add Scenario.t0 (3 * secsPerDay)) "SDS" (Some CacheScenario.lat0)
                 (Some CacheScenario.lon0) (Some CacheScenario.rad0) None Scenario.iris true
                 None Scenario.empty_world)))
  = S (count is_station_request (log Scenario.empty_world)).
Proof.
  apply (FDSN_to_SDS_daily_wrapper_searches_once CollisionScenario.answering_env 4 Scenario.t0
           (utc_add Scenario.t0 (3 * secsPerDay)) "SDS" CacheScenario.lat0 CacheScenario.lon0
           CacheScenario.rad0 None Scenario.iris None CollisionScenario.fresh_inventory
           Scenario.empty_world).
  - vm_compute. reflexivity.
  - reflexivity.
  - reflexivity.
  - left. vm_compute. reflexivity.
  - reflexivity.
  - reflexivity.
  - discriminate.
Defined.

(** ** Whole runs of [SDS_to_ICEWEB_wrapper] *)

Section IcewebRuns.

Variable E : Env.

(** A loop whose body comes to an end and moves the pointer by [step]
    seconds comes to an end within the steps its range takes. *)
Lemma stepped_loop_terminates {S : Type} (ptr : S -> UTCDateTime) (body : S -> M S)
    endt step :
  0 < step ->
  (forall s w,
      fst (body s w) <> OutOfFuel
      /\ forall s', fst (body s w) = Ret s' -> ptr s' = utc_add (ptr s) step) ->
  forall (N fuel : nat) s w,
    spans endt (ptr s) step N -> (N < fuel)%nat ->
    fst (while_ fuel (fun s => utc_ltb (ptr s) endt) body s w) <> OutOfFuel.
Proof.
  intros Hstep Hbody. induction N as [| N IH]; intros fuel s w Hspan Hfuel.
  - destruct fuel as [| fuel]; [lia |]. cbn [while_]. unfold utc_ltb.
    cbn [spans] in Hspan. destruct (Z.ltb_spec (ptr s) endt); [lia |]. discriminate.
  - destruct fuel as [| fuel]; [lia |]. cbn [while_]. unfold utc_ltb.
    assert (Hlt : ptr s < endt).
    { cbn [spans] in Hspan. unfold utc_add, ns_per_sec in Hspan. nia. }
    destruct (Z.ltb_spec (ptr s) endt); [| lia].
    destruct (Hbody s w) as (Hf & Hp). unfold bind.
    destruct (body s w) as [[s1 | e |] w1]; cbn [fst snd] in *; [| discriminate | congruence].
    specialize (IH fuel s1 w1). rewrite (Hp s1 eq_refl) in IH.
    apply IH; [apply spans_next; assumption | lia].
Qed.

(** A day with an inventory reads the archive once; it comes to an end
    when the budget covers the windows of a day, and then the pointer
    has moved by a day. *)
Lemma SDS_to_ICEWEB_day_steps
    (M fuel : nat) SDS_TOP sourcelat sourcelon inv trace_ids overwrite verbose sgrammins
    subnet SGRAM_TOP s w :
  inventory_truthy inv = true ->
  0 < sgrammins ->
  (forall sod, spans (utc_add sod secsPerDay) sod (sgrammins * 60) M) ->
  (M < fuel)%nat ->
  let r := SDS_to_ICEWEB_day E fuel SDS_TOP sourcelat sourcelon inv trace_ids overwrite
             verbose sgrammins subnet SGRAM_TOP s w in
  fst r <> OutOfFuel
  /\ count is_sds_read (log (snd r)) = S (count is_sds_read (log w))
  /\ forall s', fst r = Ret s' -> True /\ i_sod s' = utc_add (i_sod s) secsPerDay.
Proof.
  intros Hinv Hmins Hspan Hfuel. cbv zeta.
  destruct inv as [i |]; [| discriminate Hinv].
  destruct (corrected_day E i
              (snd (sds_read E (archive w) SDS_TOP (utc_sub (i_sod s) taperSecs)
                      (utc_add (utc_add (i_sod s) secsPerDay) taperSecs) trace_ids))
              sourcelat sourcelon (i_sod s) (utc_add (i_sod s) secsPerDay))
    as [products |] eqn:Hprod.
  - assert (Hi : if_inventory (Some i) = Some i) by (unfold if_inventory; rewrite Hinv; reflexivity).
    rewrite (SDS_to_ICEWEB_day_unfold E fuel SDS_TOP sourcelat sourcelon (Some i) i trace_ids
               overwrite verbose sgrammins subnet SGRAM_TOP s w products Hi Hprod).
    set (w2 := metrics_written SDS_TOP sourcelat sourcelon trace_ids (i_sod s) w).
    pose proof (ICEWEB_windows_world E fuel (fst products) overwrite sgrammins subnet SGRAM_TOP
                  (utc_add (i_sod s) secsPerDay) (mkWindowVars (i_sod s) (i_eotw s)) w2) as HW.
    cbv zeta in HW. destruct HW as [G _].
    pose proof (grows_by_count window_event is_sds_read w2 _ G
                  ltac:(intros e; destruct e; cbn; intros He;
                        (reflexivity || discriminate He))) as Hc.
    pose proof (stepped_loop_terminates v_sotw
                  (ICEWEB_window E (fst products) overwrite sgrammins subnet SGRAM_TOP)
                  (utc_add (i_sod s) secsPerDay) (sgrammins * 60) ltac:(lia)) as Hterm.
    assert (Hbody : forall v w0,
               fst (ICEWEB_window E (fst products) overwrite sgrammins subnet SGRAM_TOP v w0)
                 <> OutOfFuel
               /\ forall v',
                    fst (ICEWEB_window E (fst products) overwrite sgrammins subnet SGRAM_TOP
                           v w0) = Ret v' ->
                    v_sotw v' = utc_add (v_sotw v) (sgrammins * 60)).
    { intros v w0. split.
      - unfold ICEWEB_window.
        destruct (trim E (fst products) _ _) as [| tr0 rest]; [discriminate |].
        destruct (1000 <? npts tr0); [| discriminate].
        unfold bind, os_path_isdir, os_path_isfile, os_makedirs, os_mkdir, spectrogram_plot.
        destruct (dir_exists w0 _); cbn [negb ret].
        + destruct (negb (file_exists w0 _) || overwrite)%bool; discriminate.
        + destruct (fs w0 !! _); [discriminate |].
          destruct (negb (file_exists _ _) || overwrite)%bool; discriminate.
      - intros v' Hr.
        pose proof (ICEWEB_window_world E (fst products) overwrite sgrammins subnet SGRAM_TOP
                      v w0) as Hw. cbv zeta in Hw. destruct Hw as (_ & _ & Hn).
        rewrite (Hn v' Hr). reflexivity. }
    specialize (Hterm Hbody M fuel (mkWindowVars (i_sod s) (i_eotw s)) w2 (Hspan (i_sod s))
                  Hfuel).
    assert (Hw2 : count is_sds_read (log w2) = S (count is_sds_read (log w))).
    { subst w2. unfold metrics_written.
      destruct (float_truthy sourcelat && float_truthy sourcelon)%bool; reflexivity. }
    match goal with
    | |- context [while_ ?x1 ?x2 ?x3 ?x4 ?x5] =>
        destruct (while_ x1 x2 x3 x4 x5) as [[v' | e |] w3]; cbn [fst snd] in *
    end.
    + split; [discriminate |]. split; [congruence |]. intros s' [= <-]. auto.
    + split; [discriminate |]. split; [congruence | discriminate].
    + congruence.
  - unfold SDS_to_ICEWEB_day, if_inventory. rewrite Hinv.
    unfold bind, SDS_read. cbn [fst snd]. rewrite Hprod. cbn [of_option raise fst snd].
    split; [discriminate |]. split; [reflexivity | discriminate].
Qed.

(** X27.  With a non-empty inventory and a positive [sgrammins],
    [SDS_to_ICEWEB_wrapper] comes to an end once the budget covers the
    days of the range and the windows of a day: over a range that takes
    [N] days it reads the day archive exactly once per day, [N] reads
    when it returns and between 1 and [N] when a day raised. *)
Theorem SDS_to_ICEWEB_wrapper_days
    (N M fuel : nat) startt endt SDS_TOP sourcelat sourcelon inv trace_ids overwrite verbose
    sgrammins subnet SGRAM_TOP w :
  inventory_truthy inv = true ->
  0 < sgrammins ->
  (Z.of_nat M - 1) * (sgrammins * 60) < secsPerDay <= Z.of_nat M * (sgrammins * 60) ->
  spans endt startt secsPerDay N ->
  (N < fuel)%nat -> (M < fuel)%nat ->
  match SDS_to_ICEWEB_wrapper E fuel startt endt SDS_TOP sourcelat sourcelon inv trace_ids
          overwrite verbose sgrammins subnet SGRAM_TOP w with
  | (Ret _, w') => count is_sds_read (log w') = (N + count is_sds_read (log w))%nat
  | (Raise _, w') =>
      exists k, (1 <= k <= N)%nat
                /\ count is_sds_read (log w') = (k + count is_sds_read (log w))%nat
  | (OutOfFuel, _) => False
  end.
Proof.
  intros Hinv Hmins HM Hspan HN HMf. unfold SDS_to_ICEWEB_wrapper, bind.
  assert (Hwindows : forall sod, spans (utc_add sod secsPerDay) sod (sgrammins * 60) M).
  { intros sod. unfold spans. destruct M as [| M'].
    - unfold secsPerDay in HM. lia.
    - unfold utc_add, ns_per_sec, secsPerDay in *. lia. }
  pose proof (stepped_loop_iterations (fun _ : iceweb_state => True) i_sod
                (SDS_to_ICEWEB_day E fuel SDS_TOP sourcelat sourcelon inv trace_ids overwrite
                   verbose sgrammins subnet SGRAM_TOP)
                is_sds_read endt secsPerDay ltac:(unfold secsPerDay; lia)) as H.
  specialize (H (fun s w0 _ =>
                   SDS_to_ICEWEB_day_steps M fuel SDS_TOP sourcelat sourcelon inv trace_ids
                     overwrite verbose sgrammins subnet SGRAM_TOP s w0 Hinv Hmins Hwindows HMf)
                N fuel (mkIcewebState startt None None) w I Hspan HN).
  cbv beta in H.
  match goal with
  | |- context [while_ ?x1 ?x2 ?x3 ?x4 ?x5] =>
      destruct (while_ x1 x2 x3 x4 x5) as [[s' | e |] w']; exact H
  end.
Qed.

End IcewebRuns.

Lemma SDS_to_ICEWEB_wrapper_days_witness :
  fst (SDS_to_ICEWEB_wrapper WrapperScenario.full_env 150 Scenario.t0 Scenario.t2 "SDS" None
         None (Some CacheScenario.cached_inventory) None true false 10 None "."
         Scenario.empty_world) = Ret tt
  /\ count is_sds_read
       (log (snd (SDS_to_ICEWEB_wrapper WrapperScenario.full_env 150 Scenario.t0 Scenario.t2
                    "SDS" None None (Some CacheScenario.cached_inventory) None true false 10
                    None "." Scenario.empty_world)))
     = (2 + count is_sds_read (log Scenario.empty_world))%nat.
Proof.
  assert (Hday : (Z.of_nat 144 - 1) * (10 * 60) < secsPerDay <= Z.of_nat 144 * (10 * 60)).
  { vm_compute. split; [reflexivity | discriminate]. }
  assert (Hspan : spans Scenario.t2 Scenario.t0 secsPerDay 2).
  { vm_compute. split; [reflexivity | discriminate]. }
  pose proof (SDS_to_ICEWEB_wrapper_days WrapperScenario.full_env 2 144 150 Scenario.t0
                Scenario.t2 "SDS" None None (Some CacheScenario.cached_inventory) None true
                false 10 None "." Scenario.empty_world eq_refl ltac:(lia) Hday Hspan
                ltac:(lia) ltac:(lia)) as H.
  assert (Hr : fst (SDS_to_ICEWEB_wrapper WrapperScenario.full_env 150 Scenario.t0
                      Scenario.t2 "SDS" None None (Some CacheScenario.cached_inventory) None
                      true false 10 None "." Scenario.empty_world) = Ret tt)
    by (vm_compute; reflexivity).
  revert H Hr.
  destruct (SDS_to_ICEWEB_wrapper WrapperScenario.full_env 150 Scenario.t0 Scenario.t2 "SDS"
              None None (Some CacheScenario.cached_inventory) None true false 10 None "."
              Scenario.empty_world) as [[u | e |] w']; cbn [fst snd]; intros H Hr;
    [split; [exact Hr | exact H] | discriminate Hr | discriminate Hr].
Defined.
